(** * xGoalPro: the match outcome prediction engine

    A shallow embedding of the prediction pipeline of xGoalPro
    ([Model/PredictionModel.py], [Persistence/SQLitePredictionStorage.py],
    [Persistence/PostgresPredictionStorage.py]) and the properties of its
    specification.

    Conventions of the embedding:
    - Python [int] is [Z]; Python [str] is [string].
    - Python [float] is embedded twice.  The pipeline computes with exact
      real numbers extended by nan ([pyfloat]): there the rounding of
      binary64 arithmetic is not modelled.  The outcome probability engine
      is embedded a second time over binary64 itself ([Np64],
      [OutcomeEngine64]), with numpy's order of summation, for the
      properties that rounding decides.
    - A Python call that may raise is a [result]: [Ok v] or [Raise e].
      Only exceptions below [Exception] are modelled.
    - Effects (the relational store, [asyncio.sleep], artifact loading) are
      explicit state passing in the monad [M]. *)

From Stdlib Require Import ZArith List String Bool Lia Arith Permutation.
From Stdlib Require Import Reals Lra.
From Stdlib Require DecimalString.
From Stdlib Require Floats.
Import ListNotations.

Set Implicit Arguments.

Local Open Scope string_scope.
Local Open Scope list_scope.
Local Open Scope Z_scope.

(** ** Python exceptions and fallible computations *)

Module Py.

(** The exception classes the code raises, catches or lets through.  Every
    constructor carries what [str(e)] prints. *)
Inductive exn : Type :=
| ClientResponseError (status : Z) (msg : string) (* aiohttp *)
| PostgresConnectionError (msg : string)          (* asyncpg *)
| ConnectionError (msg : string)                  (* builtin *)
| UniqueViolationError (msg : string)             (* asyncpg *)
| IntegrityError (msg : string)                   (* aiosqlite *)
| TypeError (msg : string)
| IndexError (msg : string)
| OverflowError (msg : string)
| DataError (msg : string)                        (* asyncpg *)
| JSONDecodeError (msg : string)                  (* requests *)
| Exception (msg : string).                       (* any other Exception *)

Definition str (e : exn) : string :=
  match e with
  | ClientResponseError _ msg => msg
  | PostgresConnectionError msg => msg
  | ConnectionError msg => msg
  | UniqueViolationError msg => msg
  | IntegrityError msg => msg
  | TypeError msg => msg
  | IndexError msg => msg
  | OverflowError msg => msg
  | DataError msg => msg
  | JSONDecodeError msg => msg
  | Exception msg => msg
  end.

Inductive result (A : Type) : Type :=
| Ok (a : A)
| Raise (e : exn).
Arguments Ok {A} a.
Arguments Raise {A} e.

Definition rbind {A B} (r : result A) (k : A -> result B) : result B :=
  match r with
  | Ok a => k a
  | Raise e => Raise e
  end.

(** State and exceptions: a computation over a world [W]. *)
Definition M (W A : Type) : Type := W -> result A * W.

Definition ret {W A} (a : A) : M W A := fun w => (Ok a, w).
Definition raise {W A} (e : exn) : M W A := fun w => (Raise e, w).
Definition bind {W A B} (m : M W A) (k : A -> M W B) : M W B :=
  fun w => match m w with
           | (Ok a, w') => k a w'
           | (Raise e, w') => (Raise e, w')
           end.
Definition lift {W A} (r : result A) : M W A := fun w => (r, w).
Definition get {W} : M W W := fun w => (Ok w, w).
Definition put {W} (w : W) : M W unit := fun _ => (Ok tt, w).

(** [for x in xs: ys.append(f x)] with a body that may raise. *)
Fixpoint mapM {W A B} (f : A -> M W B) (xs : list A) : M W (list B) :=
  match xs with
  | [] => ret []
  | x :: xs' =>
      bind (f x) (fun y => bind (mapM f xs') (fun ys => ret (y :: ys)))
  end.

(** A Python [float] as the pipeline sees it: a real number (the rounding
    of binary64 arithmetic is not modelled here) or nan. *)
Inductive pyfloat : Type :=
| Real (r : R)
| Nan.

Definition is_nan (x : pyfloat) : bool :=
  match x with
  | Nan => true
  | Real _ => false
  end.

End Py.
Import Py.

Coercion Real : R >-> pyfloat.
Bind Scope R_scope with pyfloat.

Declare Scope py_scope.
Delimit Scope py_scope with py.
Notation "x <- m ;; k" := (Py.bind m (fun x => k))
  (at level 61, m at next level, right associativity) : py_scope.
Notation "m ;;; k" := (Py.bind m (fun _ => k))
  (at level 61, right associativity) : py_scope.

(** ** The upstream data gateway ([Persistence/Api.py], [IApi.get]) *)

Module Api.

(** [match['homeTeam']], [match['awayTeam']] *)
Record Team : Type := mkTeam {
  team_id : Z;
  shortName : string;
  crest : string
}.

(** A match object of the provider, with the fields the engine reads.  A
    full-time score is [None] until the provider knows it. *)
Record Match : Type := mkMatch {
  id : Z;
  utcDate : string;
  status : string;
  competition_name : string;
  homeTeam : Team;
  awayTeam : Team;
  fullTime_home : option Z;
  fullTime_away : option Z
}.

(** The two endpoints the engine calls; [raise_for_status] turns every
    HTTP status from 400 on into a [ClientResponseError]. *)
Record Client : Type := mkClient {
  (* "matches/{match_id}" *)
  get_match : Z -> result Match;
  (* "teams/{id}/matches?dateFrom={from}&dateTo={to}&limit={limit}",
     then [data["matches"]] *)
  get_team_matches : Z -> string -> string -> Z -> result (list Match)
}.

(** [date.today()] and the dates derived from it, as [strftime] prints
    them. *)
Record Calendar : Type := mkCalendar {
  current_date_str : string;
  six_months_after_str : string;
  one_day_before_str : string;
  six_months_before_str : string
}.

End Api.

(** ** Feature extractor ([PredictionModel.__calculate_last5_stats]) *)

Module FeatureExtractor.
Import Api.

(** The returned dict, in insertion order. *)
Record TeamForm : Type := mkTeamForm {
  points : Z;
  goals_for : Z;
  goals_against : Z;
  wins : Z;
  draws : Z;
  losses : Z
}.

Definition empty_form : TeamForm := mkTeamForm 0 0 0 0 0 0.

(** [int += None] *)
Definition none_operand : exn :=
  TypeError "unsupported operand type(s) for +=: 'int' and 'NoneType'".

(** One iteration of the [for match in team_data['matches']] loop. *)
Definition last5_step (team : Z) (acc : TeamForm) (m : Match)
  : result TeamForm :=
  if negb (String.eqb (status m) "FINISHED") then Ok acc
  else
    let is_home := team_id (homeTeam m) =? team in
    let gf := if is_home then fullTime_home m else fullTime_away m in
    let ga := if is_home then fullTime_away m else fullTime_home m in
    match gf, ga with
    | Some gf, Some ga =>
        let goals_for' := goals_for acc + gf in
        let goals_against' := goals_against acc + ga in
        if gf >? ga then
          Ok (mkTeamForm (points acc + 3) goals_for' goals_against'
                (wins acc + 1) (draws acc) (losses acc))
        else if gf =? ga then
          Ok (mkTeamForm (points acc + 1) goals_for' goals_against'
                (wins acc) (draws acc + 1) (losses acc))
        else
          Ok (mkTeamForm (points acc) goals_for' goals_against'
                (wins acc) (draws acc) (losses acc + 1))
    | _, _ => Raise none_operand
    end.

Fixpoint last5_loop (team : Z) (ms : list Match) (acc : TeamForm)
  : result TeamForm :=
  match ms with
  | [] => Ok acc
  | m :: rest =>
      rbind (last5_step team acc m) (last5_loop team rest)
  end.

Definition calculate_last5_stats (team : Z) (matches : list Match)
  : result TeamForm :=
  last5_loop team matches empty_form.

(** [stats.values()] as consumed by the pipeline when it builds the
    feature vector. *)
Definition values (f : TeamForm) : list Z :=
  [points f; goals_for f; goals_against f; wins f; draws f; losses f].

(** *** Reference aggregate, in the words of the specification *)

Definition is_finished (m : Match) : bool := String.eqb (status m) "FINISHED".

(** Goals for and against of [team] in [m], by home or away role. *)
Definition role_goals (team : Z) (m : Match) : option (Z * Z) :=
  if team_id (homeTeam m) =? team then
    match fullTime_home m, fullTime_away m with
    | Some h, Some a => Some (h, a)
    | _, _ => None
    end
  else
    match fullTime_away m, fullTime_home m with
    | Some a, Some h => Some (a, h)
    | _, _ => None
    end.

Definition count (p : Z * Z -> bool) (rs : list (Z * Z)) : Z :=
  Z.of_nat (List.length (filter p rs)).

Definition sumZ (xs : list Z) : Z := fold_right Z.add 0 xs.

Definition is_win (r : Z * Z) : bool := snd r <? fst r.
Definition is_draw (r : Z * Z) : bool := fst r =? snd r.
Definition is_loss (r : Z * Z) : bool := fst r <? snd r.

Definition aggregate (rs : list (Z * Z)) : TeamForm :=
  mkTeamForm
    (3 * count is_win rs + 1 * count is_draw rs + 0 * count is_loss rs)
    (sumZ (map fst rs))
    (sumZ (map snd rs))
    (count is_win rs)
    (count is_draw rs)
    (count is_loss rs).

(** The scored results of the finished matches, when all of them carry a
    score. *)
Fixpoint results_of (team : Z) (ms : list Match) : option (list (Z * Z)) :=
  match ms with
  | [] => Some []
  | m :: rest =>
      match role_goals team m, results_of team rest with
      | Some r, Some rs => Some (r :: rs)
      | _, _ => None
      end
  end.

(** Field-wise sum of two aggregates. *)
Definition plus_form (a b : TeamForm) : TeamForm :=
  mkTeamForm (points a + points b) (goals_for a + goals_for b)
    (goals_against a + goals_against b) (wins a + wins b)
    (draws a + draws b) (losses a + losses b).

End FeatureExtractor.

(** ** Arrays in exact arithmetic (the part of numpy the engine uses) *)

Module Np.

Local Open Scope R_scope.

Definition sumR (xs : list R) : R := fold_right Rplus 0 xs.

(** [np.array(xs).mean()] of a non-empty array: the sum over the size.
    (For an empty array numpy answers nan: see [Ensemble.mean_item].) *)
Definition mean (xs : list R) : R := sumR xs / INR (List.length xs).

Definition matrix : Type := list (list R).

(** [np.zeros((rows, cols))] *)
Definition zeros (rows cols : nat) : matrix := repeat (repeat 0 cols) rows.

Fixpoint upd {A} (n : nat) (f : A -> A) (l : list A) : list A :=
  match l, n with
  | [], _ => []
  | x :: l', O => f x :: l'
  | x :: l', S n' => x :: upd n' f l'
  end.

(** [m[i, j] = v] *)
Definition set_cell (m : matrix) (i j : nat) (v : R) : matrix :=
  upd i (upd j (fun _ => v)) m.

(** [m[i, j]] *)
Definition cell (m : matrix) (i j : nat) : R := nth j (nth i m []) 0.

Fixpoint imap {A B} (f : nat -> A -> B) (start : nat) (l : list A) : list B :=
  match l with
  | [] => []
  | x :: l' => f start x :: imap f (S start) l'
  end.

(** [np.tril(m, k)]: entries above the [k]-th diagonal become zero. *)
Definition tril (m : matrix) (k : Z) : matrix :=
  imap (fun i row =>
          imap (fun j x => if (Z.of_nat j - Z.of_nat i <=? k)%Z then x else 0)
               0%nat row) 0%nat m.

(** [np.triu(m, k)]: entries below the [k]-th diagonal become zero. *)
Definition triu (m : matrix) (k : Z) : matrix :=
  imap (fun i row =>
          imap (fun j x => if (k <=? Z.of_nat j - Z.of_nat i)%Z then x else 0)
               0%nat row) 0%nat m.

(** [m.sum()] *)
Definition sum (m : matrix) : R := sumR (map sumR m).

(** [np.trace(m)] *)
Definition trace (m : matrix) : R :=
  sumR (imap (fun i row => nth i row 0) 0%nat m).

(** The [rows x cols] matrix whose cell [(i, j)] is [g i j]. *)
Definition table (g : nat -> nat -> R) (rows cols : nat) : matrix :=
  map (fun i => map (g i) (seq 0 cols)) (seq 0 rows).

(** [f 0 + ... + f (n - 1)] *)
Definition series (f : nat -> R) (n : nat) : R := sumR (map f (seq 0 n)).

End Np.

(** ** Outcome probability engine ([PredictionModel.__match_probabilities]),
       in exact arithmetic *)

Module OutcomeEngine.

Local Open Scope R_scope.

(** [scipy.stats.poisson.pmf(k, mu)] for [mu >= 0], in exact arithmetic:
    [exp(-mu) * mu^k / k!], with [pmf(0, 0) = 1].  (For a negative [mu]
    SciPy answers nan: see [Ensemble.probabilities].) *)
Definition poisson_pmf (k : nat) (mu : R) : R :=
  exp (- mu) * mu ^ k / INR (fact k).

(** The two nested [for] loops over [range(max_goals + 1)], assigning
    every cell of a matrix of zeros. *)
Definition match_probabilities (l_home l_away : R) (max_goals : nat)
  : Np.matrix :=
  fold_left
    (fun probs i =>
       fold_left
         (fun probs j =>
            Np.set_cell probs i j (poisson_pmf i l_home * poisson_pmf j l_away))
         (seq 0 (max_goals + 1)) probs)
    (seq 0 (max_goals + 1))
    (Np.zeros (max_goals + 1) (max_goals + 1)).

Record Outcome : Type := mkOutcome {
  p_home_win : R;
  p_draw : R;
  p_away_win : R
}.

(** The three reductions in [__make_prediction], for any bound. *)
Definition outcome_of (probs : Np.matrix) : Outcome :=
  let p_home_win := Np.sum (Np.tril probs (-1)) in
  let p_away_win := Np.sum (Np.triu probs 1) in
  let p_draw := Np.trace probs in
  mkOutcome p_home_win p_draw p_away_win.

Definition outcome_probabilities (home_xg away_xg : R) (max_goals : nat)
  : Outcome :=
  outcome_of (match_probabilities home_xg away_xg max_goals).

(** [max_goals: int = 10] *)
Definition default_max_goals : nat := 10.

(** *** The sums of the specification *)

(** All index pairs of an [(n+1) x (n+1)] matrix. *)
Definition cells (n : nat) : list (nat * nat) :=
  list_prod (seq 0 (n + 1)) (seq 0 (n + 1)).

(** The sum of [f i j] over the cells [(i, j)] that satisfy [p]. *)
Definition sum_where (p : nat -> nat -> bool) (f : nat -> nat -> R) (n : nat)
  : R :=
  Np.sumR (map (fun ij => f (fst ij) (snd ij))
             (filter (fun ij => p (fst ij) (snd ij)) (cells n))).

End OutcomeEngine.

(** ** Binary64 arrays (numpy, as the engine computes with it) *)

Module Np64.
Import PrimFloat FloatOps SpecFloat.
Local Open Scope float_scope.

(** A two-dimensional [np.ndarray] of [float64], row by row. *)
Definition matrix : Type := list (list float).

(** [np.zeros((rows, cols))] *)
Definition zeros (rows cols : nat) : matrix := repeat (repeat 0 cols) rows.

(** [m[i, j] = v] *)
Definition set_cell (m : matrix) (i j : nat) (v : float) : matrix :=
  Np.upd i (Np.upd j (fun _ => v)) m.

(** [m[i, j]] *)
Definition cell (m : matrix) (i j : nat) : float := nth j (nth i m []) 0.

(** [np.tril(m, k)] is [where(mask, m, 0)]: a new array in which the
    entries above the [k]-th diagonal are [+0.0]. *)
Definition tril (m : matrix) (k : Z) : matrix :=
  Np.imap (fun i row =>
             Np.imap (fun j x =>
                        if (Z.of_nat j - Z.of_nat i <=? k)%Z then x else 0)
                     0%nat row) 0%nat m.

(** [np.triu(m, k)]: the entries below the [k]-th diagonal are [+0.0]. *)
Definition triu (m : matrix) (k : Z) : matrix :=
  Np.imap (fun i row =>
             Np.imap (fun j x =>
                        if (k <=? Z.of_nat j - Z.of_nat i)%Z then x else 0)
                     0%nat row) 0%nat m.

(** The cells of a C-contiguous array in the order they lie in memory. *)
Definition ravel (m : matrix) : list float := List.concat m.

(** [np.diagonal(m)] *)
Definition diagonal (m : matrix) : list float :=
  Np.imap (fun i row => nth i row 0) 0%nat m.

(** The eight partial sums [r[0..7]] of numpy's unrolled summation loop. *)
Record Lanes : Type := mkLanes {
  r0 : float; r1 : float; r2 : float; r3 : float;
  r4 : float; r5 : float; r6 : float; r7 : float
}.

(** [for (i = 8; i < n - (n % 8); i += 8) r[k] += a[i + k]]: whole groups
    of eight are added lane by lane; what is left of [a] is handed back. *)
Fixpoint unrolled (r : Lanes) (a : list float) : Lanes * list float :=
  match a with
  | a0 :: a1 :: a2 :: a3 :: a4 :: a5 :: a6 :: a7 :: rest =>
      unrolled (mkLanes (r0 r + a0) (r1 r + a1) (r2 r + a2) (r3 r + a3)
                  (r4 r + a4) (r5 r + a5) (r6 r + a6) (r7 r + a7)) rest
  | _ => (r, a)
  end.

(** The two base cases of numpy's [pairwise_sum]: fewer than eight
    values are added from left to right, starting from [-0.0]; a block of
    8 to 128 values is added in eight lanes, the lanes are combined as
    [((r0+r1)+(r2+r3))+((r4+r5)+(r6+r7))], and the values beyond the last
    whole group of eight are added one by one. *)
Definition block_sum (a : list float) : float :=
  match a with
  | a0 :: a1 :: a2 :: a3 :: a4 :: a5 :: a6 :: a7 :: rest =>
      let '(r, tail) := unrolled (mkLanes a0 a1 a2 a3 a4 a5 a6 a7) rest in
      fold_left add tail
        (((r0 r + r1 r) + (r2 r + r3 r)) + ((r4 r + r5 r) + (r6 r + r7 r)))
  | _ => fold_left add a (-0)
  end.

(** More than 128 values are split at [n2 = n / 2 - (n / 2) % 8] and the
    sums of the two parts are added.  [depth] bounds the nesting of the
    splits; the length of the array is always enough. *)
Fixpoint pairwise_sum_rec (depth : nat) (a : list float) : float :=
  let n := List.length a in
  if (n <=? 128)%nat then block_sum a
  else
    match depth with
    | O => block_sum a
    | S depth' =>
        let n2 := (n / 2 - (n / 2) mod 8)%nat in
        pairwise_sum_rec depth' (firstn n2 a)
        + pairwise_sum_rec depth' (skipn n2 a)
    end.

(** [np.add.reduce] over a contiguous run of [float64] values. *)
Definition pairwise_sum (a : list float) : float :=
  pairwise_sum_rec (List.length a) a.

(** [m.sum()]: one reduction over all cells, in memory order.  (The zero
    the reduction starts from changes a sum at most in the sign of a zero
    result.) *)
Definition sum (m : matrix) : float := pairwise_sum (ravel m).

(** [np.trace(m)]: the reduction of the diagonal. *)
Definition trace (m : matrix) : float := pairwise_sum (diagonal m).

(** The [rows x cols] matrix whose cell [(i, j)] is [g i j]. *)
Definition table (g : nat -> nat -> float) (rows cols : nat) : matrix :=
  map (fun i => map (g i) (seq 0 cols)) (seq 0 rows).

(** The exact value of a finite binary64 number, counted in units of
    [2^-1074], of which every such number is a whole multiple. *)
Definition units (x : float) : option Z :=
  match Prim2SF x with
  | S754_zero _ => Some 0%Z
  | S754_finite s m e =>
      Some ((if s then Z.neg m else Z.pos m) * 2 ^ (e + 1074))%Z
  | _ => None
  end.

(** The number one in those units. *)
Definition one_in_units : Z := (2 ^ 1074)%Z.

End Np64.

(** ** Outcome probability engine, in binary64 *)

Module OutcomeEngine64.
Import PrimFloat.
Local Open Scope float_scope.

Section WithScipy.

(** [scipy.stats.poisson.pmf(k, mu)] is SciPy's, not this repository's:
    the engine is embedded over whatever binary64 values it answers. *)
Variable poisson_pmf : nat -> float -> float.

(** The two nested [for] loops over [range(max_goals + 1)], assigning
    every cell of a matrix of zeros; [*] is the binary64 product. *)
Definition match_probabilities (l_home l_away : float) (max_goals : nat)
  : Np64.matrix :=
  fold_left
    (fun probs i =>
       fold_left
         (fun probs j =>
            Np64.set_cell probs i j
              (poisson_pmf i l_home * poisson_pmf j l_away))
         (seq 0 (max_goals + 1)) probs)
    (seq 0 (max_goals + 1))
    (Np64.zeros (max_goals + 1) (max_goals + 1)).

Record Outcome : Type := mkOutcome {
  p_home_win : float;
  p_draw : float;
  p_away_win : float
}.

(** The three reductions in [__make_prediction]. *)
Definition outcome_of (probs : Np64.matrix) : Outcome :=
  let p_home_win := Np64.sum (Np64.tril probs (-1)) in
  let p_away_win := Np64.sum (Np64.triu probs 1) in
  let p_draw := Np64.trace probs in
  mkOutcome p_home_win p_draw p_away_win.

Definition outcome_probabilities (home_xg away_xg : float) (max_goals : nat)
  : Outcome :=
  outcome_of (match_probabilities home_xg away_xg max_goals).

End WithScipy.

(** *** The sums of the specification *)

(** The array numpy adds up for a region of an [(n+1) x (n+1)] matrix:
    cell [(i, j)] where [p i j] holds and [+0.0] elsewhere, row by row. *)
Definition masked (p : nat -> nat -> bool) (f : nat -> nat -> float) (n : nat)
  : list float :=
  map (fun ij => if p (fst ij) (snd ij) then f (fst ij) (snd ij) else 0)
      (OutcomeEngine.cells n).

End OutcomeEngine64.

(** ** Ensemble predictor ([PredictionModel.__make_prediction]) *)

Module Ensemble.

Local Open Scope R_scope.

(** What [joblib.load] may return: the fitted scaler or a regressor. *)
Inductive artifact : Type :=
| Scaler (transform : list R -> list R)
| Regressor (predict : list R -> R).

(** The artifact files: [joblib.load(resource_path(path))]. *)
Definition Artifacts : Type := string -> result artifact.

(** What inference does to its environment, in order. *)
Inductive event : Type :=
| EvLoad (path : string)
| EvTransform (x : list R)
| EvPredict (path : string) (x : list R).

Definition Trace : Type := list event.

Definition emit (e : event) : M Trace unit := fun t => (Ok tt, t ++ [e]).

Definition scaler_path : string := "./Assets/models/scaler.pkl".

(** One registry entry: [name: ([home_path, away_path], description)]. *)
Record Entry : Type := mkEntry {
  key : string;
  home_path : string;
  away_path : string;
  description : string
}.

Definition Registry : Type := list Entry.

Definition joblib_load (fs : Artifacts) (path : string) : M Trace artifact :=
  (emit (EvLoad path) ;;; lift (fs path))%py.

Definition transform (a : artifact) (x : list R) : M Trace (list R) :=
  match a with
  | Scaler f => (emit (EvTransform x) ;;; ret (f x))%py
  | Regressor _ => raise (Exception "object has no attribute 'transform'")
  end.

Definition predict (path : string) (a : artifact) (x : list R) : M Trace R :=
  match a with
  | Regressor f => (emit (EvPredict path x) ;;; ret (f x))%py
  | Scaler _ => raise (Exception "object has no attribute 'predict'")
  end.

(** [code[i]] and its truth value. *)
Definition code_at (code : list Z) (i : nat) : result Z :=
  match nth_error code i with
  | Some c => Ok c
  | None => Raise (IndexError "list index out of range")
  end.

Definition truthy (c : Z) : bool := negb (c =? 0)%Z.

(** [for i, (key, (paths, _)) in enumerate(self.__ml_models.items())] *)
Fixpoint run_models (fs : Artifacts) (code : list Z) (features_scaled : list R)
    (i : nat) (entries : list Entry) (home_xg away_xg : list R)
  : M Trace (list R * list R) :=
  match entries with
  | [] => ret (home_xg, away_xg)
  | e :: rest =>
      (c <- lift (code_at code i) ;;
       if truthy c then
         home_model <- joblib_load fs (home_path e) ;;
         home_result <- predict (home_path e) home_model features_scaled ;;
         away_model <- joblib_load fs (away_path e) ;;
         away_result <- predict (away_path e) away_model features_scaled ;;
         run_models fs code features_scaled (S i) rest
           (home_xg ++ [home_result]) (away_xg ++ [away_result])
       else
         run_models fs code features_scaled (S i) rest home_xg away_xg)%py
  end.

(** The inner [_run_prediction]. *)
Definition run_prediction (fs : Artifacts) (ml_models : Registry)
    (code : list Z) (features : list R) : M Trace (list R * list R) :=
  (scaler <- joblib_load fs scaler_path ;;
   features_scaled <- transform scaler features ;;
   run_models fs code features_scaled 0 ml_models [] [])%py.

(** The returned dict. *)
Record Prediction : Type := mkPrediction {
  Expected_Home_Goals : pyfloat;
  Expected_Away_Goals : pyfloat;
  P_HomeWin : pyfloat;
  P_Draw : pyfloat;
  P_AwayWin : pyfloat
}.

(** [np.array(xs).mean().item()]: for an empty list numpy warns and
    answers nan. *)
Definition mean_item (xs : list R) : pyfloat :=
  match xs with
  | [] => Nan
  | _ :: _ => Real (Np.mean xs)
  end.

(** [__match_probabilities(home_xg, away_xg)] with its default bound,
    reduced to [(p_home_win, p_draw, p_away_win)].  [poisson.pmf] answers
    nan for a rate that is nan or negative; every cell of the matrix is then
    nan, and so are the three sums. *)
Record Probabilities : Type := mkProbabilities {
  p_home_win : pyfloat;
  p_draw : pyfloat;
  p_away_win : pyfloat
}.

Definition probabilities (home_xg away_xg : pyfloat) : Probabilities :=
  match home_xg, away_xg with
  | Real h, Real a =>
      if Rle_dec 0 h then
        if Rle_dec 0 a then
          let o := OutcomeEngine.outcome_probabilities h a
                     OutcomeEngine.default_max_goals in
          mkProbabilities (OutcomeEngine.p_home_win o)
            (OutcomeEngine.p_draw o) (OutcomeEngine.p_away_win o)
        else mkProbabilities Nan Nan Nan
      else mkProbabilities Nan Nan Nan
  | _, _ => mkProbabilities Nan Nan Nan
  end.

Definition make_prediction (fs : Artifacts) (ml_models : Registry)
    (code : list Z) (features : list R) : M Trace Prediction :=
  (xs <- run_prediction fs ml_models code features ;;
   let home_xg := mean_item (fst xs) in
   let away_xg := mean_item (snd xs) in
   let probs := probabilities home_xg away_xg in
   ret (mkPrediction home_xg away_xg
          (p_home_win probs) (p_draw probs) (p_away_win probs)))%py.

(** None of the values of a prediction is nan. *)
Definition no_nan (p : Prediction) : Prop :=
  is_nan (Expected_Home_Goals p) = false
  /\ is_nan (Expected_Away_Goals p) = false
  /\ is_nan (P_HomeWin p) = false
  /\ is_nan (P_Draw p) = false
  /\ is_nan (P_AwayWin p) = false.

(** *** The selection, in the words of the specification *)

(** The registry entries whose flag is set, in registry order. *)
Definition selected (ml_models : Registry) (code : list Z) : list Entry :=
  map fst (filter (fun ec => truthy (snd ec)) (combine ml_models code)).

(** What running one selected entry on the vector [x] leaves in the trace. *)
Definition events_of (x : list R) (e : Entry) : list event :=
  [EvLoad (home_path e); EvPredict (home_path e) x;
   EvLoad (away_path e); EvPredict (away_path e) x].

(** The trace of one inference: the scaler is loaded and applied to the raw
    vector, then each selected entry runs on the scaled vector. *)
Definition inference_trace (features scaled : list R) (sel : list Entry)
  : list event :=
  EvLoad scaler_path :: EvTransform features :: flat_map (events_of scaled) sel.

(** How often the scaler was applied, according to a trace. *)
Definition transforms (t : list event) : nat :=
  List.length (filter (fun ev => match ev with EvTransform _ => true
                                           | _ => false end) t).

(** Every entry of [sel] has its two regressors among the artifacts:
    [home_of e] behind its home path and [away_of e] behind its away path. *)
Definition loadable (fs : Artifacts) (home_of away_of : Entry -> list R -> R)
    (sel : list Entry) : Prop :=
  Forall (fun e => fs (home_path e) = Ok (Regressor (home_of e))
                   /\ fs (away_path e) = Ok (Regressor (away_of e))) sel.

End Ensemble.

(** ** Resilient storage gateway ([retry_on_connection_error]) *)

Module Gateway.

Local Open Scope R_scope.

(** [except (asyncpg.PostgresConnectionError, ConnectionError)] *)
Definition is_connection_error (e : exn) : bool :=
  match e with
  | PostgresConnectionError _ | ConnectionError _ => true
  | _ => false
  end.

(** The wrapped operation runs over its own world [W]; the wrapper adds
    the log of the [asyncio.sleep] calls it makes. *)
Definition Slept (W : Type) : Type := (W * list R)%type.

Definition sleep {W} (seconds : R) : M (Slept W) unit :=
  fun s => (Ok tt, (fst s, snd s ++ [seconds])).

(** [raise last_exception] after the loop; [raise None] is a [TypeError]. *)
Definition raise_last {W A} (last_exception : option exn) : M (Slept W) A :=
  match last_exception with
  | Some e => raise e
  | None => raise (TypeError "exceptions must derive from BaseException")
  end.

(** [for attempt in range(1, max_retries + 1)], over the attempts left. *)
Fixpoint attempts_loop {W A} (func : M W A) (max_retries : Z) (delay : R)
    (attempts : list Z) (last_exception : option exn) : M (Slept W) A :=
  match attempts with
  | [] => raise_last last_exception
  | attempt :: rest =>
      fun s =>
        match func (fst s) with
        | (Ok a, w') => (Ok a, (w', snd s))
        | (Raise e, w') =>
            if is_connection_error e then
              ((if (attempt <? max_retries)%Z
                then sleep (delay * IZR attempt)
                else ret tt) ;;;
               attempts_loop func max_retries delay rest (Some e))%py
                (w', snd s)
            else (Raise e, (w', snd s))
        end
  end.

(** [range(1, max_retries + 1)] *)
Definition attempt_range (max_retries : Z) : list Z :=
  map Z.of_nat (seq 1 (Z.to_nat max_retries)).

Definition retry_on_connection_error {W A} (max_retries : Z) (delay : R)
    (func : M W A) : M (Slept W) A :=
  attempts_loop func max_retries delay (attempt_range max_retries) None.

(** The decorator's defaults: [max_retries = 3], [delay = 1.0]. *)
Definition retry_default {W A} (func : M W A) : M (Slept W) A :=
  retry_on_connection_error 3 1 func.

End Gateway.

(** ** Prediction store *)

Module Store.

Local Open Scope R_scope.

(** A row of the [predictions] relation. *)
Record PredictionRow : Type := mkRow {
  id : Z;
  match_id : Z;
  model : string;
  home_id : Z;
  home_name : string;
  home_xg : pyfloat;
  away_id : Z;
  away_name : string;
  away_xg : pyfloat;
  home_p : pyfloat;
  draw_p : pyfloat;
  away_p : pyfloat;
  real_home_score : Z;
  real_away_score : Z
}.

(** A row of the ratings relation, [eloScores(name, elo)]; every stored team
    has a rating. *)
Record EloRow : Type := mkElo {
  name : string;
  elo : R
}.

Record Database : Type := mkDatabase {
  predictions : list PredictionRow;
  predictions_seq : Z;     (* the last [id] handed out *)
  eloScores : list EloRow
}.

(** [IPredictionStorage], over the state [S] of the implementation. *)
Record IPredictionStorage (S : Type) : Type := mkStorage {
  get_elo : string -> M S R;
  get_all_predictions : M S (list PredictionRow);
  insert_prediction :
    Z -> string -> Z -> pyfloat -> Z -> pyfloat -> pyfloat -> pyfloat ->
    pyfloat -> string -> string -> M S bool;
  update_prediction_with_score : Z -> Z -> Z -> M S bool
}.

(** *** The statements both implementations send *)

(** [UNIQUE(match_id, model)] *)
Definition same_key (m : Z) (k : string) (r : PredictionRow) : bool :=
  (match_id r =? m)%Z && String.eqb (model r) k.

Definition key_exists (m : Z) (k : string) (db : Database) : bool :=
  existsb (same_key m k) (predictions db).

(** The row an [INSERT] of these values creates; both scores take the
    column default [-1]. *)
Definition new_row (i : Z) (m : Z) (k : string) (hid : Z) (hname : string)
    (hxg : pyfloat) (aid : Z) (aname : string) (axg : pyfloat)
    (hp dp ap : pyfloat) : PredictionRow :=
  mkRow i m k hid hname hxg aid aname axg hp dp ap (-1) (-1).

Definition append_row (db : Database) (m : Z) (k : string) (hid : Z)
    (hname : string) (hxg : pyfloat) (aid : Z) (aname : string)
    (axg : pyfloat) (hp dp ap : pyfloat) : Database :=
  let i := (predictions_seq db + 1)%Z in
  mkDatabase
    (predictions db ++ [new_row i m k hid hname hxg aid aname axg hp dp ap])
    i (eloScores db).

(** [SET real_home_score = ?, real_away_score = ?] on one row. *)
Definition set_scores (hs as_ : Z) (r : PredictionRow) : PredictionRow :=
  mkRow (id r) (match_id r) (model r) (home_id r) (home_name r) (home_xg r)
    (away_id r) (away_name r) (away_xg r) (home_p r) (draw_p r) (away_p r)
    hs as_.

(** [UPDATE predictions SET ... WHERE match_id = ?]: the new table and the
    number of rows the statement touched. *)
Definition update_scores (m hs as_ : Z) (db : Database) : Database * Z :=
  (mkDatabase
     (map (fun r => if (match_id r =? m)%Z then set_scores hs as_ r else r)
          (predictions db))
     (predictions_seq db) (eloScores db),
   Z.of_nat (List.length
               (filter (fun r => (match_id r =? m)%Z) (predictions db)))).

(** [SELECT elo FROM eloScores WHERE name = ?], first row or nothing. *)
Definition select_elo (team : string) (db : Database) : option R :=
  option_map elo (find (fun r => String.eqb (name r) team) (eloScores db)).

(** The integers a 64-bit and a 32-bit column can hold. *)
Definition int64 (z : Z) : bool := (- 2 ^ 63 <=? z)%Z && (z <? 2 ^ 63)%Z.
Definition int32 (z : Z) : bool := (- 2 ^ 31 <=? z)%Z && (z <? 2 ^ 31)%Z.

(** [try: body except <class>: handler] *)
Definition try_except {W A} (body : M W A) (catches : exn -> bool)
    (handler : exn -> M W A) : M W A :=
  fun w => match body w with
           | (Ok a, w') => (Ok a, w')
           | (Raise e, w') => if catches e then handler e w' else (Raise e, w')
           end.

(** *** The store, in the words of the specification *)

(** [r'] is [r] with both real scores set, and nothing else touched. *)
Definition scores_set (hs as_ : Z) (r r' : PredictionRow) : Prop :=
  real_home_score r' = hs /\ real_away_score r' = as_
  /\ id r' = id r /\ match_id r' = match_id r /\ model r' = model r
  /\ home_id r' = home_id r /\ home_name r' = home_name r
  /\ home_xg r' = home_xg r
  /\ away_id r' = away_id r /\ away_name r' = away_name r
  /\ away_xg r' = away_xg r
  /\ home_p r' = home_p r /\ draw_p r' = draw_p r /\ away_p r' = away_p r.

(** The first rating stored under [team], if there is one. *)
Definition rated (team : string) (rating : R) (db : Database) : Prop :=
  exists before row after,
    eloScores db = before ++ row :: after
    /\ name row = team /\ elo row = rating
    /\ Forall (fun r => name r <> team) before.

Definition unrated (team : string) (db : Database) : Prop :=
  Forall (fun r => name r <> team) (eloScores db).

(** None of the five predicted values is nan. *)
Definition no_nan (hxg axg hp dp ap : pyfloat) : Prop :=
  is_nan hxg = false /\ is_nan axg = false /\ is_nan hp = false
  /\ is_nan dp = false /\ is_nan ap = false.


End Store.

(** *** [SQLitePredictionStorage] *)

Module SQLite.
Import Store.
Local Open Scope R_scope.

Definition is_integrity_error (e : exn) : bool :=
  match e with IntegrityError _ => true | _ => false end.

(** [sqlite3] binds a [float] that is nan as NULL.  The first of the
    [REAL NOT NULL] columns, in the order of the table, that would get
    NULL. *)
Definition null_column (hxg axg hp dp ap : pyfloat) : option string :=
  if is_nan hxg then Some "home_xg"
  else if is_nan axg then Some "away_xg"
  else if is_nan hp then Some "home_p"
  else if is_nan dp then Some "draw_p"
  else if is_nan ap then Some "away_p"
  else None.

(** [conn.execute("INSERT INTO predictions (...) VALUES (...)")]: a NULL
    in a [NOT NULL] column and a known key make the statement fail, and it
    stores nothing then.  (The integers are taken to fit the 64-bit
    [INTEGER] columns.) *)
Definition execute_insert (m : Z) (k : string) (hid : Z) (hname : string)
    (hxg : pyfloat) (aid : Z) (aname : string) (axg : pyfloat)
    (hp dp ap : pyfloat) : M Database unit :=
  fun db =>
    match null_column hxg axg hp dp ap with
    | Some column =>
        (Raise (IntegrityError
                  ("NOT NULL constraint failed: predictions." ++ column)),
         db)
    | None =>
        if key_exists m k db then
          (Raise (IntegrityError
                    "UNIQUE constraint failed: predictions.match_id, predictions.model"),
           db)
        else (Ok tt, append_row db m k hid hname hxg aid aname axg hp dp ap)
    end.

(** [sqlite3] turns a Python [int] into a 64-bit integer when it binds it,
    and raises when it does not fit; the statement is not run then. *)
Definition bind_int (z : Z) : result Z :=
  if int64 z then Ok z
  else Raise (OverflowError
                "Python int too large to convert to SQLite INTEGER").

(** [conn.execute("UPDATE ...", (home_score, away_score, match_id))],
    giving [cursor.rowcount]. *)
Definition execute_update (m hs as_ : Z) : M Database Z :=
  (home_score <- lift (bind_int hs) ;;
   away_score <- lift (bind_int as_) ;;
   match_id <- lift (bind_int m) ;;
   fun db =>
     let '(db', n) := update_scores match_id home_score away_score db in
     (Ok n, db'))%py.

Definition get_elo (team : string) : M Database R :=
  (db <- get ;;
   match select_elo team db with
   | Some v => ret v
   | None => ret 1500
   end)%py.

Definition get_all_predictions : M Database (list PredictionRow) :=
  (db <- get ;; ret (predictions db))%py.

Definition insert_prediction (m : Z) (k : string) (hid : Z) (hxg : pyfloat)
    (aid : Z) (axg : pyfloat) (hp dp ap : pyfloat) (hname aname : string)
  : M Database bool :=
  try_except
    (execute_insert m k hid hname hxg aid aname axg hp dp ap ;;; ret true)%py
    is_integrity_error
    (fun _ => ret false).

Definition update_prediction_with_score (m hs as_ : Z) : M Database bool :=
  (rowcount <- execute_update m hs as_ ;; ret (rowcount >? 0)%Z)%py.

Definition storage : IPredictionStorage Database :=
  mkStorage get_elo get_all_predictions insert_prediction
    update_prediction_with_score.

End SQLite.

(** *** [PostgresPredictionStorage] *)

Module Postgres.
Import Store.
Local Open Scope R_scope.

(** The server side: the database and what the next [pool.acquire()]
    calls will meet ([false]: the connection is down).  An empty script is
    a healthy link. *)
Record Server : Type := mkServer {
  db : Database;
  link : list bool
}.

Definition State : Type := Gateway.Slept Server.

(** [async with self.pool.acquire() as conn] *)
Definition acquire : M Server unit :=
  fun s =>
    match link s with
    | [] => (Ok tt, s)
    | true :: rest => (Ok tt, mkServer (db s) rest)
    | false :: rest =>
        (Raise (PostgresConnectionError "connection is closed"),
         mkServer (db s) rest)
    end.

(** A statement run on the acquired connection. *)
Definition on_db {A} (f : Database -> A * Database) : M Server A :=
  fun s => let '(a, d) := f (db s) in (Ok a, mkServer d (link s)).

(** The command tag [conn.execute] returns, e.g. ["UPDATE 2"], kept as
    its verb and its row count. *)
Record CommandTag : Type := mkTag {
  verb : string;
  rows_affected : Z
}.

Definition is_unique_violation (e : exn) : bool :=
  match e with UniqueViolationError _ => true | _ => false end.

(** [INSERT ... ON CONFLICT (match_id, model) DO NOTHING]: a known key is
    skipped without an error.  The [SERIAL] value is drawn before the
    conflict is seen.  A [DOUBLE PRECISION] column holds nan as it holds
    any other value.  (The integers are taken to fit the 32-bit [INTEGER]
    columns.) *)
Definition execute_insert_on_conflict_do_nothing (m : Z) (k : string)
    (hid : Z) (hname : string) (hxg : pyfloat) (aid : Z) (aname : string)
    (axg : pyfloat) (hp dp ap : pyfloat) : M Server CommandTag :=
  on_db (fun d =>
    if key_exists m k d then
      (mkTag "INSERT" 0,
       mkDatabase (predictions d) (predictions_seq d + 1)%Z (eloScores d))
    else
      (mkTag "INSERT" 1,
       append_row d m k hid hname hxg aid aname axg hp dp ap)).

(** [asyncpg] encodes the argument [$position] for an [INTEGER] column
    as a 32-bit integer, and raises when it does not fit; the statement is
    not sent then. *)
Definition encode_int4 (position : Z) (z : Z) : result Z :=
  if int32 z then Ok z
  else Raise (DataError
                ("invalid input for query argument $"
                 ++ DecimalString.NilZero.string_of_int (Z.to_int position)
                 ++ ": "
                 ++ DecimalString.NilZero.string_of_int (Z.to_int z)
                 ++ " (value out of int32 range)")).

Definition execute_update (m hs as_ : Z) : M Server CommandTag :=
  (home_score <- lift (encode_int4 1 hs) ;;
   away_score <- lift (encode_int4 2 as_) ;;
   match_id <- lift (encode_int4 3 m) ;;
   on_db (fun d =>
     let '(d', n) := update_scores match_id home_score away_score d in
     (mkTag "UPDATE" n, d')))%py.

Definition get_elo_body (team : string) : M Server R :=
  (acquire ;;;
   value <- on_db (fun d => (select_elo team d, d)) ;;
   match value with
   | Some v => ret v
   | None => ret 1500
   end)%py.

(** [SELECT * FROM predictions;] has no [ORDER BY]: PostgreSQL promises no
    order of the rows.  The embedding hands them back in the order of
    insertion, and no property below rests on the order in which the
    Postgres store lists them. *)
Definition get_all_predictions_body : M Server (list PredictionRow) :=
  (acquire ;;; on_db (fun d => (predictions d, d)))%py.

Definition insert_prediction_body (m : Z) (k : string) (hid : Z)
    (hxg : pyfloat) (aid : Z) (axg : pyfloat) (hp dp ap : pyfloat)
    (hname aname : string) : M Server bool :=
  (acquire ;;;
   try_except
     (execute_insert_on_conflict_do_nothing
        m k hid hname hxg aid aname axg hp dp ap ;;; ret true)
     is_unique_violation
     (fun _ => ret false))%py.

Definition update_prediction_with_score_body (m hs as_ : Z) : M Server bool :=
  (acquire ;;;
   result <- execute_update m hs as_ ;;
   ret (String.prefix "UPDATE" (verb result)
        && (rows_affected result >? 0)%Z))%py.

(** Every operation carries [@retry_on_connection_error()]. *)
Definition get_elo (team : string) : M State R :=
  Gateway.retry_default (get_elo_body team).

Definition get_all_predictions : M State (list PredictionRow) :=
  Gateway.retry_default get_all_predictions_body.

Definition insert_prediction (m : Z) (k : string) (hid : Z) (hxg : pyfloat)
    (aid : Z) (axg : pyfloat) (hp dp ap : pyfloat) (hname aname : string)
  : M State bool :=
  Gateway.retry_default
    (insert_prediction_body m k hid hxg aid axg hp dp ap hname aname).

Definition update_prediction_with_score (m hs as_ : Z) : M State bool :=
  Gateway.retry_default (update_prediction_with_score_body m hs as_).

Definition storage : IPredictionStorage State :=
  mkStorage get_elo get_all_predictions insert_prediction
    update_prediction_with_score.

(** A server whose link is healthy, before any retry has slept. *)
Definition healthy (d : Database) : State := (mkServer d [], []).

End Postgres.

(** ** Prediction pipeline ([PredictionModel.fetch_matches],
       [PredictionModel.predict_scores]) *)

Module Pipeline.
Import Api.
Local Open Scope R_scope.

Definition bytes : Type := list Byte.byte.

(** One entry of the list [fetch_matches] answers. *)
Record MatchCard : Type := mkCard {
  card_id : Z;
  card_home_name : string;
  home_emblem : bytes;
  card_away_name : string;
  away_emblem : bytes;
  date : string;
  competition : string;
  card_home_id : Z;
  card_away_id : Z
}.

(** The second component of a returned tuple. *)
Inductive payload : Type :=
| Predictions (p : Ensemble.Prediction)
| Matches (l : list MatchCard)
| Messages (l : list string).

(** What a pipeline entry point hands to its caller: a tuple, or [None]
    when the function body ends without a [return]. *)
Inductive returned : Type :=
| RetTuple (ok : bool) (data : payload)
| RetNone.

Definition too_many_requests : string :=
  "Too many requests – you can make up to 10 API calls per minute.".

(** [str(value)] of an [int]. *)
Definition str_int (z : Z) : string :=
  DecimalString.NilZero.string_of_int (Z.to_int z).

(** [for value in code: code_str += str(value)], from the empty string. *)
Definition code_str (code : list Z) : string :=
  fold_left (fun acc value => (acc ++ str_int value)%string) code EmptyString.

Section WithCollaborators.

Variable S : Type.
Variable storage : Store.IPredictionStorage S.
Variable api : Client.
Variable http_get : string -> result bytes.   (* [__fetch_image] *)
Variable calendar : Calendar.
Variable fs : Ensemble.Artifacts.
Variable ml_models : Ensemble.Registry.

(** The world a call runs in: the store and the inference trace. *)
Definition World : Type := (S * Ensemble.Trace)%type.

Definition on_store {A} (m : M S A) : M World A :=
  fun w => let '(r, s') := m (fst w) in (r, (s', snd w)).

Definition on_trace {A} (m : M Ensemble.Trace A) : M World A :=
  fun w => let '(r, t') := m (snd w) in (r, (fst w, t')).

(** The [try] / [except aiohttp.ClientResponseError] / [except Exception]
    frame every entry point is written in.  The first handler returns
    only under its [if]; otherwise the function ends and answers
    [None].  ([print] is not modelled.) *)
Definition boundary (body : M World payload) : World -> returned * World :=
  fun w =>
    match body w with
    | (Ok data, w') => (RetTuple true data, w')
    | (Raise (ClientResponseError status _), w') =>
        if (status =? 429)%Z
        then (RetTuple false (Messages [too_many_requests]), w')
        else (RetNone, w')
    | (Raise e, w') => (RetTuple false (Messages [str e]), w')
    end.

(** The emblems of one match.  The two downloads run as tasks of their
    own and are awaited together ([asyncio.gather]).  When both fail,
    [gather] raises the error of the task that fails first in time; the
    embedding has no clock and reports the home one, and no property below
    speaks of two downloads of one match that fail with different
    errors. *)
Definition fetch_card (m : Match) : M World MatchCard :=
  (home_img <- lift (http_get (crest (homeTeam m))) ;;
   away_img <- lift (http_get (crest (awayTeam m))) ;;
   ret (mkCard (id m) (shortName (homeTeam m)) home_img
          (shortName (awayTeam m)) away_img (utcDate m)
          (competition_name m) (team_id (homeTeam m))
          (team_id (awayTeam m))))%py.

Definition fetch_matches_body (team_code : Z) : M World payload :=
  (matches_data <- lift (get_team_matches api team_code
                           (current_date_str calendar)
                           (six_months_after_str calendar) 50) ;;
   results <- mapM fetch_card matches_data ;;
   ret (Matches (firstn 20 results)))%py.

Definition fetch_matches (team_code : Z) : World -> returned * World :=
  boundary (fetch_matches_body team_code).

Definition predict_scores_body (home_id away_id match_id : Z)
    (code : list Z) : M World payload :=
  (match_data <- lift (get_match api match_id) ;;
   let home_name := shortName (homeTeam match_data) in
   let away_name := shortName (awayTeam match_data) in
   home_elo <- on_store (Store.get_elo storage home_name) ;;
   away_elo <- on_store (Store.get_elo storage away_name) ;;
   home_team_data <- lift (get_team_matches api home_id
                             (six_months_before_str calendar)
                             (one_day_before_str calendar) 5) ;;
   away_team_data <- lift (get_team_matches api away_id
                             (six_months_before_str calendar)
                             (one_day_before_str calendar) 5) ;;
   home_stats <- lift (FeatureExtractor.calculate_last5_stats
                         home_id home_team_data) ;;
   away_stats <- lift (FeatureExtractor.calculate_last5_stats
                         away_id away_team_data) ;;
   let features :=
     [home_elo; away_elo]
       ++ map IZR (FeatureExtractor.values home_stats)
       ++ map IZR (FeatureExtractor.values away_stats) in
   predictions <- on_trace (Ensemble.make_prediction fs ml_models
                              code features) ;;
   _ <- on_store (Store.insert_prediction storage
          match_id (code_str code) home_id
          (Ensemble.Expected_Home_Goals predictions)
          away_id (Ensemble.Expected_Away_Goals predictions)
          (Ensemble.P_HomeWin predictions) (Ensemble.P_Draw predictions)
          (Ensemble.P_AwayWin predictions)
          home_name away_name) ;;
   ret (Predictions predictions))%py.

Definition predict_scores (home_id away_id match_id : Z) (code : list Z)
  : World -> returned * World :=
  boundary (predict_scores_body home_id away_id match_id code).

End WithCollaborators.

End Pipeline.

(** ** The table invariant of the prediction store *)

Module StoreInvariant.
Import Store.

(** The pair the [UNIQUE(match_id, model)] constraint speaks of. *)
Definition key_of (r : PredictionRow) : Z * string := (match_id r, model r).

Definition keys (d : Database) : list (Z * string) :=
  map key_of (predictions d).

(** No two stored rows share their key. *)
Definition unique_keys (d : Database) : Prop := NoDup (keys d).

(** [SELECT * FROM predictions WHERE match_id = ? AND model = ?], first row. *)
Definition lookup (m : Z) (k : string) (d : Database) : option PredictionRow :=
  find (same_key m k) (predictions d).

End StoreInvariant.

(** ** Opponents in the feature extractor *)

Module Opponents.

(** A result seen from the other side. *)
Definition swap_result (r : Z * Z) : Z * Z := (snd r, fst r).

(** Every match of [ms] is played between the teams [a] and [b]. *)
Definition head_to_head (a b : Z) (ms : list Api.Match) : Prop :=
  Forall (fun m =>
            (Api.team_id (Api.homeTeam m) = a /\ Api.team_id (Api.awayTeam m) = b)
            \/ (Api.team_id (Api.homeTeam m) = b
                /\ Api.team_id (Api.awayTeam m) = a)) ms.

End Opponents.

(** ** Selections and their storage key *)

Module Selection.

(** A selection as the match view builds it: [1 if checked else 0] per
    registry entry. *)
Definition flags (code : list Z) : Prop :=
  Forall (fun c => c = 0 \/ c = 1) code.

End Selection.

(** ** The score backfill job ([updateScores.py]) *)

Module Backfill.
Import Store.
Local Open Scope R_scope.

(** What reading the two scores off the body of an answer meets:
    [response.json()] and then [data["score"]["fullTime"]["home"]] and
    [...["away"]]. *)
Inductive Body : Type :=
| NotJson (msg : string)
  (* the body is no JSON document: [response.json()] raises *)
| NotSubscriptable (msg : string)
  (* [data], [data["score"]] or [data["score"]["fullTime"]] is null, or
     another value without string keys: subscripting it is a [TypeError] *)
| MissingKey (key : string)
  (* one of the four keys is not there: [KeyError] *)
| FullTime (home away : option Z).
  (* the two entries: an integer, or [None] for null; the provider's
     schema has no other kind of entry, and none is modelled *)

(** What [requests.get(url, headers=HEADERS)] hands back for a match: the
    HTTP status and the body. *)
Record Response : Type := mkResponse {
  status_code : Z;
  body : Body
}.

(** The provider: a response, or the exception [requests] raises. *)
Definition Provider : Type := Z -> result Response.

(** What the job does to the outside, in order. *)
Inductive event : Type :=
| Requested (match_id : Z)
| Slept (seconds : R).

Definition World : Type := (Database * list event)%type.

Definition emit (e : event) : M World unit :=
  fun w => (Ok tt, (fst w, snd w ++ [e])).

(** [fetch_match_data(match_id)]: the two scores, or [(None, None)] when the
    status is not 200 or a key is missing.  Only [KeyError] is caught:
    a body that is no JSON document, or a null where an object is
    expected, ends the call with an exception. *)
Definition fetch_match_data (provider : Provider) (match_id : Z)
  : M World (option Z * option Z) :=
  (emit (Requested match_id) ;;;
   response <- lift (provider match_id) ;;
   if (status_code response =? 200)%Z then
     match body response with
     | NotJson msg => raise (JSONDecodeError msg)
     | NotSubscriptable msg => raise (TypeError msg)
     | MissingKey _ => ret (None, None)
     | FullTime home_score away_score => ret (home_score, away_score)
     end
   else ret (None, None))%py.

(** [real_home_score = -1 AND real_away_score = -1] *)
Definition is_sentinel (r : PredictionRow) : bool :=
  (real_home_score r =? -1)%Z && (real_away_score r =? -1)%Z.

(** [SELECT match_id FROM predictions WHERE real_home_score = -1 AND
    real_away_score = -1] *)
Definition select_pending (d : Database) : list Z :=
  map match_id (filter is_sentinel (predictions d)).

(** [UPDATE predictions SET real_home_score = ?, real_away_score = ?
    WHERE match_id = ? AND real_home_score = -1 AND real_away_score = -1] *)
Definition update_pending (m home away : Z) (d : Database) : Database :=
  mkDatabase
    (map (fun r => if (match_id r =? m)%Z && is_sentinel r
                   then set_scores home away r else r)
         (predictions d))
    (predictions_seq d) (eloScores d).

(** [cur.execute("UPDATE ...", (home, away, match_id))]: the two scores
    are bound as 64-bit integers; [match_id] was read from the table and
    fits. *)
Definition execute_update_pending (m home away : Z) : M World unit :=
  (home_score <- lift (SQLite.bind_int home) ;;
   away_score <- lift (SQLite.bind_int away) ;;
   fun w =>
     (Ok tt, (update_pending m home_score away_score (fst w), snd w)))%py.

(** One turn of [for (match_id,) in matches]. *)
Definition backfill_step (provider : Provider) (match_id : Z) : M World unit :=
  (scores <- fetch_match_data provider match_id ;;
   (match scores with
    | (Some home, Some away) => execute_update_pending match_id home away
    | _ => ret tt
    end) ;;;
   emit (Slept (12 / 10)))%py.

Fixpoint backfill_loop (provider : Provider) (matches : list Z) : M World unit :=
  match matches with
  | [] => ret tt
  | match_id :: rest =>
      (backfill_step provider match_id ;;; backfill_loop provider rest)%py
  end.

(** [update_scores_in_db()] *)
Definition update_scores_in_db (provider : Provider) : M World unit :=
  fun w => backfill_loop provider (select_pending (fst w)) w.

(** *** What the job may do to a row *)

(** The final scores the provider knows for a match, if it knows both. *)
Definition known_scores (provider : Provider) (m : Z) : option (Z * Z) :=
  match provider m with
  | Ok response =>
      if (status_code response =? 200)%Z then
        match body response with
        | FullTime (Some home) (Some away) => Some (home, away)
        | _ => None
        end
      else None
  | Raise _ => None
  end.

(** An answer the job can read: its status is not 200, or its body is a
    JSON document in which the subscripts meet objects, and the scores it
    gives fit 64-bit integers. *)
Definition readable (response : Response) : Prop :=
  status_code response <> 200%Z
  \/ (exists key, body response = MissingKey key)
  \/ (exists home away,
        body response = FullTime home away
        /\ (forall h a, home = Some h -> away = Some a ->
                        int64 h = true /\ int64 a = true)).

(** A row with unknown scores takes the scores the provider knows; every
    other row stays. *)
Definition settle (provider : Provider) (r : PredictionRow) : PredictionRow :=
  if is_sentinel r then
    match known_scores provider (match_id r) with
    | Some (home, away) => set_scores home away r
    | None => r
    end
  else r.

(** [r'] is [r], or [r] with its two unknown scores filled in. *)
Definition filled_or_kept (r r' : PredictionRow) : Prop :=
  r' = r \/ (is_sentinel r = true /\ exists home away, scores_set home away r r').

(** One turn of the loop, seen from one row and from the whole table. *)
Definition row_step (provider : Provider) (r : PredictionRow) (m : Z)
  : PredictionRow :=
  match known_scores provider m with
  | Some (home, away) =>
      if (match_id r =? m)%Z && is_sentinel r then set_scores home away r
      else r
  | None => r
  end.

Definition db_step (provider : Provider) (d : Database) (m : Z) : Database :=
  match known_scores provider m with
  | Some (home, away) => update_pending m home away d
  | None => d
  end.

End Backfill.

(** ** The other entry points of the prediction model
       ([PredictionModel.add_league], [fetch_leagues], [fetch_teams]) and
       [StatisticsModel.fetch_predictions] *)

Module Hub.
Import Api.

(** What an entry point hands to its caller: [(True, data)],
    [(False, messages)], or [None]. *)
Inductive answer (A : Type) : Type :=
| Success (data : A)
| Failure (messages : list string)
| NoAnswer.
Arguments Success {A} data.
Arguments Failure {A} messages.
Arguments NoAnswer {A}.

(** The [try] / [except aiohttp.ClientResponseError] / [except Exception]
    frame; see [Pipeline.boundary]. *)
Definition frame {A} (body : result A) : answer A :=
  match body with
  | Ok data => Success data
  | Raise (ClientResponseError status _) =>
      if status =? 429 then Failure [Pipeline.too_many_requests]
      else NoAnswer
  | Raise e => Failure [str e]
  end.

(** [for x in xs: ys.append(f(x))] with a body that may raise. *)
Fixpoint traverse {A B} (f : A -> result B) (xs : list A) : result (list B) :=
  match xs with
  | [] => Ok []
  | x :: xs' =>
      rbind (f x) (fun y => rbind (traverse f xs') (fun ys => Ok (y :: ys)))
  end.

(** An entry of [data["competitions"]]. *)
Record League : Type := mkLeague {
  league_id : Z;
  league_name : string;
  league_code : string;
  league_emblem : string
}.

Record LeagueCard : Type := mkLeagueCard {
  lc_id : Z;
  lc_name : string;
  lc_code : string;
  lc_emblem : Pipeline.bytes
}.

(** [self.__leagues.append(league_code)] *)
Definition add_league (leagues : list string) (league_code : string)
  : list string :=
  leagues ++ [league_code].

(** [league["code"] in self.__leagues] *)
Definition wanted (leagues : list string) (l : League) : bool :=
  existsb (String.eqb (league_code l)) leagues.

(** The response of ["competitions/{code}/standings"]:
    [data["standings"]] with the [team] of every row of each table, and
    [data["competition"]["name"]]. *)
Record Standings : Type := mkStandings {
  standings : list (list Team);
  standings_competition : string
}.

Record TeamCard : Type := mkTeamCard {
  tc_id : Z;
  tc_name : string;
  tc_emblem : Pipeline.bytes
}.

Section WithProvider.

Variable get_competitions : result (list League).    (* "competitions/" *)
Variable get_standings : string -> result Standings.
Variable http_get : string -> result Pipeline.bytes.  (* [__fetch_image] *)

Definition league_card (l : League) : result LeagueCard :=
  rbind (http_get (league_emblem l))
        (fun image_bytes =>
           Ok (mkLeagueCard (league_id l) (league_name l) (league_code l)
                 image_bytes)).

Definition fetch_leagues (leagues : list string) : answer (list LeagueCard) :=
  frame
    (rbind get_competitions
       (fun competitions =>
          traverse league_card (filter (wanted leagues) competitions))).

Definition team_card (t : Team) : result TeamCard :=
  rbind (http_get (crest t))
        (fun image_bytes => Ok (mkTeamCard (team_id t) (shortName t) image_bytes)).

(** [data["standings"][0]["table"]] *)
Definition first_table (data : Standings) : result (list Team) :=
  match standings data with
  | table :: _ => Ok table
  | [] => Raise (IndexError "list index out of range")
  end.

Definition fetch_teams (league_code : string)
  : answer (list TeamCard * string) :=
  frame
    (rbind (get_standings league_code)
       (fun data =>
          rbind (first_table data)
            (fun table =>
               rbind (traverse team_card table)
                 (fun teams => Ok (teams, standings_competition data))))).

End WithProvider.

(** [StatisticsModel.fetch_predictions]: only [except Exception]. *)
Definition fetch_predictions {S} (storage : Store.IPredictionStorage S)
  : S -> answer (list Store.PredictionRow) * S :=
  fun s =>
    match Store.get_all_predictions storage s with
    | (Ok data, s') => (Success data, s')
    | (Raise e, s') => (Failure [str e], s')
    end.

End Hub.

(** ** Team statistics ([StatisticsModel.fetch_team_statistics]) *)

Module Season.
Import Api.

(** A [datetime.date]. *)
Record Date : Type := mkDate {
  year : Z;
  month : Z;
  day : Z
}.

(** Dates in calendar order. *)
Definition before_or_on (a b : Date) : Prop :=
  year a < year b
  \/ (year a = year b
      /\ (month a < month b \/ (month a = month b /\ day a <= day b))).

Definition strictly_before (a b : Date) : Prop :=
  year a < year b
  \/ (year a = year b
      /\ (month a < month b \/ (month a = month b /\ day a < day b))).

(** [date(today.year, 8, 1)] from August on, else
    [date(today.year - 1, 8, 1)]. *)
Definition start_date (today : Date) : Date :=
  if month today >=? 8 then mkDate (year today) 8 1
  else mkDate (year today - 1) 8 1.

(** [str(x)] of a score that may be [None]. *)
Definition str_score (x : option Z) : string :=
  match x with
  | Some z => Pipeline.str_int z
  | None => "None"
  end.

(** An entry of [results]. *)
Record ResultLine : Type := mkLine {
  line_home_name : string;
  score : string;
  line_away_name : string;
  line_date : string
}.

Definition result_line (m : Match) : ResultLine :=
  mkLine (shortName (homeTeam m))
    (str_score (fullTime_home m) ++ " : " ++ str_score (fullTime_away m))%string
    (shortName (awayTeam m))
    (utcDate m).

Section WithProvider.

Variable TeamData : Type.
Variable get_team : Z -> result TeamData.            (* "teams/{team}" *)
(* "teams/{team}/matches?dateFrom={from}&dateTo={to}&limit={limit}" *)
Variable get_matches : Z -> Date -> Date -> Z -> result (list Match).

Definition fetch_team_statistics (today : Date) (team : Z)
  : Hub.answer (TeamData * list ResultLine) :=
  Hub.frame
    (rbind (get_team team)
       (fun team_data =>
          rbind (get_matches team (start_date today) today 50)
            (fun matches => Ok (team_data, map result_line matches)))).

End WithProvider.

End Season.

(** ** The selection the match view sends ([MatchView.__on_predict]) *)

Module MatchView.

(** What the handler emits. *)
Inductive signal : Type :=
| predict_match (home_id away_id match_id : Z) (code : list Z)
| no_model_selected.

(** [[1 if cb.isChecked() else 0 for cb in self.model_checkboxes.values()]],
    one checkbox per registry entry. *)
Definition code_of (checked : list bool) : list Z :=
  map (fun is_checked : bool => if is_checked then 1 else 0) checked.

(** [sum(code)] *)
Definition sum (code : list Z) : Z := fold_left Z.add code 0.

Definition on_predict (checked : list bool) (home_id away_id match_id : Z)
  : signal :=
  let code := code_of checked in
  if negb (sum code =? 0) then predict_match home_id away_id match_id code
  else no_model_selected.

End MatchView.

(** * Concrete inputs *)

Module Examples.
Import Api.

Definition arsenal : Team := mkTeam 57 "Arsenal" "https://crests/57.png".
Definition chelsea : Team := mkTeam 61 "Chelsea" "https://crests/61.png".
Definition everton : Team := mkTeam 62 "Everton" "https://crests/62.png".

(** Arsenal won 2-1 at home, drew 1-1 away and has one game to come. *)
Definition won_at_home : Match :=
  mkMatch 1001 "2025-03-01T15:00:00Z" "FINISHED" "Premier League"
    arsenal chelsea (Some 2) (Some 1).
Definition drew_away : Match :=
  mkMatch 1002 "2025-03-08T15:00:00Z" "FINISHED" "Premier League"
    everton arsenal (Some 1) (Some 1).
Definition to_come : Match :=
  mkMatch 1003 "2025-03-15T15:00:00Z" "TIMED" "Premier League"
    arsenal everton None None.

Definition window : list Match := [won_at_home; drew_away; to_come].

(** An operation that fails with a connection error on its first two calls
    and answers the number of earlier calls from then on; its world is the
    number of calls made. *)
Definition flaky : M nat nat :=
  fun calls =>
    (if (calls <? 2)%nat then Raise (ConnectionError "connection reset")
     else Ok calls,
     Datatypes.S calls).

(** An operation whose connection never comes back. *)
Definition unreachable : M nat nat :=
  fun calls => (Raise (PostgresConnectionError "connection refused"),
                Datatypes.S calls).

(** A store that knows two ratings and holds no prediction yet. *)
Definition ratings : list Store.EloRow :=
  [Store.mkElo "Arsenal" 1900; Store.mkElo "Chelsea" 1800].

Definition fresh_db : Store.Database := Store.mkDatabase [] 0 ratings.

(** Two predictions for match 1001 under different model keys, and one for
    another match. *)
Definition backlog : Store.Database :=
  Store.mkDatabase
    [Store.new_row 1 1001 "1010" 57 "Arsenal" (3 / 2)%R 61 "Chelsea" 1%R
       (1 / 2)%R (1 / 4)%R (1 / 4)%R;
     Store.new_row 2 1001 "0100" 57 "Arsenal" 2%R 61 "Chelsea" 1%R
       (3 / 5)%R (1 / 5)%R (1 / 5)%R;
     Store.new_row 3 1002 "1010" 62 "Everton" 1%R 57 "Arsenal" 2%R
       (1 / 5)%R (1 / 5)%R (3 / 5)%R]
    3 ratings.

(** The provider on a day the match is unknown to it (HTTP 404), and on a
    day a team has 25 fixtures ahead. *)
Definition not_found : exn :=
  ClientResponseError 404 "404, message='Not Found'".

Definition api_not_found : Client :=
  mkClient (fun _ => Raise not_found) (fun _ _ _ _ => Ok []).

Definition api_busy_team : Client :=
  mkClient (fun _ => Ok won_at_home)
           (fun _ _ _ _ => Ok (repeat won_at_home 25)).

Definition http_ok : string -> result (list Byte.byte) := fun _ => Ok [].

Definition calendar : Calendar :=
  mkCalendar "2025-03-10" "2025-09-10" "2025-03-09" "2024-09-10".

(** The registry of [Application.py], and a disk without artifacts. *)
Definition registry : Ensemble.Registry :=
  [Ensemble.mkEntry "XGB" "./Assets/models/home_xgb.pkl"
     "./Assets/models/away_xgb.pkl" "XGBoost";
   Ensemble.mkEntry "MLP" "./Assets/models/home_mlp.pkl"
     "./Assets/models/away_mlp.pkl" "Multilayer Perceptron";
   Ensemble.mkEntry "GradientBoost" "./Assets/models/home_gradient_boosting.pkl"
     "./Assets/models/away_gradient_boosting.pkl" "Gradient Boosting Regressor";
   Ensemble.mkEntry "SVR" "./Assets/models/home_svr.pkl"
     "./Assets/models/away_svr.pkl" "Support Vector Regressor"].

Definition no_artifacts : Ensemble.Artifacts :=
  fun _ => Raise (Exception "No such file or directory").

(** Two regressor pairs with constant answers behind the first two registry
    entries, and a scaler that halves every feature. *)
Definition two_models : Ensemble.Artifacts :=
  fun path =>
    if String.eqb path Ensemble.scaler_path
    then Ok (Ensemble.Scaler (map (fun x => (x / 2)%R)))
    else if String.eqb path "./Assets/models/home_xgb.pkl"
    then Ok (Ensemble.Regressor (fun _ => 1%R))
    else if String.eqb path "./Assets/models/away_xgb.pkl"
    then Ok (Ensemble.Regressor (fun _ => (1 / 2)%R))
    else if String.eqb path "./Assets/models/home_mlp.pkl"
    then Ok (Ensemble.Regressor (fun _ => 2%R))
    else if String.eqb path "./Assets/models/away_mlp.pkl"
    then Ok (Ensemble.Regressor (fun _ => (3 / 2)%R))
    else Raise (Exception "No such file or directory").

Definition home_answer (e : Ensemble.Entry) : list R -> R :=
  if String.eqb (Ensemble.key e) "XGB" then fun _ => 1%R else fun _ => 2%R.

Definition away_answer (e : Ensemble.Entry) : list R -> R :=
  if String.eqb (Ensemble.key e) "XGB" then fun _ => (1 / 2)%R
  else fun _ => (3 / 2)%R.

Definition features : list R :=
  [1900; 1800; 4; 3; 2; 1; 1; 0; 7; 5; 3; 2; 1; 0]%R.

(** An operation that violates a constraint at every call. *)
Definition violating : M nat nat :=
  fun calls => (Raise (UniqueViolationError "duplicate key"), Datatypes.S calls).

(** Three finished meetings of Arsenal and Chelsea. *)
Definition derby : list Match :=
  [won_at_home;
   mkMatch 1004 "2025-04-01T15:00:00Z" "FINISHED" "FA Cup"
     chelsea arsenal (Some 3) (Some 0);
   mkMatch 1005 "2025-04-20T15:00:00Z" "FINISHED" "Premier League"
     chelsea arsenal (Some 2) (Some 2)].


(** A team with 25 fixtures ahead, the last one against a club whose crest
    cannot be downloaded. *)
Definition crestless : Team := mkTeam 99 "Nowhere" "https://crests/missing.png".

Definition last_fixture : Match :=
  mkMatch 1025 "2025-08-30T15:00:00Z" "TIMED" "Premier League"
    crestless arsenal None None.

Definition api_last_crestless : Client :=
  mkClient (fun _ => Ok won_at_home)
           (fun _ _ _ _ => Ok (repeat won_at_home 24 ++ [last_fixture])).

Definition http_missing : string -> result (list Byte.byte) :=
  fun url => if String.eqb url "https://crests/missing.png"
             then Raise (Exception "Cannot connect to host crests:443")
             else Ok [].

(** A provider that knows the result of match 1001 (2-1), has match 1002
    still without a score, and does not answer for anything else. *)
Definition results_provider : Backfill.Provider :=
  fun m =>
    if m =? 1001
    then Ok (Backfill.mkResponse 200 (Backfill.FullTime (Some 2) (Some 1)))
    else if m =? 1002
    then Ok (Backfill.mkResponse 200 (Backfill.FullTime None None))
    else Raise (ConnectionError "Max retries exceeded").

(** A provider that answers 200 with a match whose score is null. *)
Definition scoreless_provider : Backfill.Provider :=
  fun _ =>
    Ok (Backfill.mkResponse 200
          (Backfill.NotSubscriptable
             "'NoneType' object is not subscriptable")).

(** The backlog after match 1001 was settled by hand under one model key. *)
Definition half_settled : Store.Database :=
  Store.mkDatabase
    [Store.mkRow 1 1001 "1010" 57 "Arsenal" (3 / 2)%R 61 "Chelsea" 1%R
       (1 / 2)%R (1 / 4)%R (1 / 4)%R 5 5;
     Store.new_row 2 1001 "0100" 57 "Arsenal" 2%R 61 "Chelsea" 1%R
       (3 / 5)%R (1 / 5)%R (1 / 5)%R;
     Store.new_row 3 1002 "1010" 62 "Everton" 1%R 57 "Arsenal" 2%R
       (1 / 5)%R (1 / 5)%R (3 / 5)%R]
    3 ratings.

(** The provider's competitions; the emblem of the second cannot be
    downloaded. *)
Definition competitions : list Hub.League :=
  [Hub.mkLeague 2021 "Premier League" "PL" "https://crests/PL.png";
   Hub.mkLeague 2019 "Serie A" "SA" "https://crests/missing.png";
   Hub.mkLeague 2002 "Bundesliga" "BL1" "https://crests/BL1.png"].

(** Standings with a total, a home and an away table. *)
Definition pl_standings : Hub.Standings :=
  Hub.mkStandings [[arsenal; chelsea; everton]; [chelsea; arsenal]; [everton]]
    "Premier League".

Import PrimFloat.

(** The rates 0.05 and 0.1 as binary64 values. *)
Definition rate_0_05 : PrimFloat.float := 0x1.999999999999ap-5%float.
Definition rate_0_1 : PrimFloat.float := 0x1.999999999999ap-4%float.

(** What [scipy.stats.poisson.pmf(k, mu)] computes for [k = 0, ..., 10]:
    [exp(k * log(mu) - gammaln(k + 1) - mu)] in binary64, every operation
    rounded to the nearest value ([gammaln(k + 1)] is [log(k!)] here).
    At [mu = 2.0]: 0.1353352832366127, 0.2706705664732254,
    0.2706705664732254, 0.18044704431548356, 0.09022352215774178,
    0.03608940886309672, 0.012029802954365565, 0.0034370865583901616,
    0.0008592716395975402, 0.00019094925324389823, 3.818985064877954e-05. *)
Definition pmf_at_2 : list PrimFloat.float :=
  [0x1.152aaa3bf81ccp-3; 0x1.152aaa3bf81ccp-2; 0x1.152aaa3bf81ccp-2;
   0x1.718e384ff57b9p-3; 0x1.718e384ff57b9p-4; 0x1.27a4f9d9912fcp-5;
   0x1.8a314d2216ea0p-7; 0x1.c2817cb93ec25p-9; 0x1.c2817cb93ec23p-11;
   0x1.9073198837ca0p-13; 0x1.405c146cf96d7p-15]%float.

(** At [mu = 0.05]: 0.951229424500714, 0.04756147122503571,
    0.001189036780625893, 1.9817279677098202e-05, 2.4771599596372765e-07,
    2.4771599596372755e-09, 2.0642999663643912e-11, 1.4744999759745683e-13,
    9.21562484984107e-16, 5.119791583245067e-18, 2.559895791622523e-20. *)
Definition pmf_at_0_05 : list PrimFloat.float :=
  [0x1.e7078b0a726a6p-1; 0x1.859fa26ec1eedp-5; 0x1.37b2e8589b258p-10;
   0x1.4c7a916f946c0p-16; 0x1.09fba78c76bcfp-22; 0x1.54755157a2396p-29;
   0x1.6b27ce3b57b3bp-36; 0x1.4c0722f46d71ep-43; 0x1.099f4f29f1288p-50;
   0x1.79c620f1b202fp-58; 0x1.e38cf6f7ee161p-66]%float.

(** At [mu = 0.1]: 0.9048374180359595, 0.09048374180359597,
    0.004524187090179801, 0.00015080623633932676, 3.770155908483171e-06,
    7.54031181696634e-08, 1.2567186361610557e-09, 1.7953123373729377e-11,
    2.2441404217161652e-13, 2.4934893574624056e-15, 2.493489357462418e-17. *)
Definition pmf_at_0_1 : list PrimFloat.float :=
  [0x1.cf46d99d52b3ap-1; 0x1.729f147ddbc30p-4; 0x1.287f4397e3029p-8;
   0x1.3c437b4cade0cp-13; 0x1.fa0592144967ep-19; 0x1.43da9aee43759p-24;
   0x1.5971b6537b27dp-30; 0x1.3bd5ae032ec58p-36; 0x1.f955e3384ad3ep-43;
   0x1.6759852257581p-49; 0x1.cbf7b4a6d635dp-56]%float.

(** SciPy's function at the three rates of the examples. *)
Definition scipy_poisson_pmf (k : nat) (mu : PrimFloat.float)
  : PrimFloat.float :=
  if PrimFloat.eqb mu 2%float then nth k pmf_at_2 PrimFloat.nan
  else if PrimFloat.eqb mu rate_0_05 then nth k pmf_at_0_05 PrimFloat.nan
  else if PrimFloat.eqb mu rate_0_1 then nth k pmf_at_0_1 PrimFloat.nan
  else PrimFloat.nan.

End Examples.

(** * Properties *)

(** ** Feature extractor *)

Section FeatureExtractorFacts.
Import Api FeatureExtractor.

Lemma last5_step_skips (team : Z) (acc : TeamForm) (m : Match) :
  is_finished m = false -> last5_step team acc m = Ok acc.
Proof.
  unfold last5_step, is_finished. intros ->. reflexivity.
Qed.

(** Two iterations of the loop commute, errors included. *)
Lemma last5_step_comm (team : Z) (acc : TeamForm) (x y : Match) :
  rbind (last5_step team acc x) (fun a => last5_step team a y)
  = rbind (last5_step team acc y) (fun a => last5_step team a x).
Proof.
  unfold last5_step.
  destruct (String.eqb (status x) "FINISHED"),
           (String.eqb (status y) "FINISHED"); cbn [negb rbind];
    try reflexivity.
  - destruct (team_id (homeTeam x) =? team), (team_id (homeTeam y) =? team);
      destruct (fullTime_home x) as [hx|], (fullTime_away x) as [ax|],
               (fullTime_home y) as [hy|], (fullTime_away y) as [ay|];
      cbn [rbind]; try reflexivity;
      repeat match goal with
             | |- context [if ?a >? ?b then _ else _] => destruct (a >? b)
             | |- context [if ?a =? ?b then _ else _] => destruct (a =? b)
             end;
      cbn; try reflexivity; f_equal; f_equal; lia.
  - destruct (team_id (homeTeam x) =? team);
      destruct (fullTime_home x) as [hx|], (fullTime_away x) as [ax|];
      cbn [rbind]; try reflexivity;
      repeat match goal with
             | |- context [if ?a >? ?b then _ else _] => destruct (a >? b)
             | |- context [if ?a =? ?b then _ else _] => destruct (a =? b)
             end; reflexivity.
  - destruct (team_id (homeTeam y) =? team);
      destruct (fullTime_home y) as [hy|], (fullTime_away y) as [ay|];
      cbn [rbind]; try reflexivity;
      repeat match goal with
             | |- context [if ?a >? ?b then _ else _] => destruct (a >? b)
             | |- context [if ?a =? ?b then _ else _] => destruct (a =? b)
             end; reflexivity.
Qed.

Lemma last5_loop_perm (team : Z) (ms ms' : list Match) :
  Permutation ms ms' ->
  forall acc, last5_loop team ms acc = last5_loop team ms' acc.
Proof.
  induction 1 as [|x l l' _ IH|x y l|l l' l'' _ IH1 _ IH2]; intros acc.
  - reflexivity.
  - cbn. destruct (last5_step team acc x); cbn; [apply IH | reflexivity].
  - cbn.
    pose proof (last5_step_comm team acc y x) as C.
    destruct (last5_step team acc y) as [a|e], (last5_step team acc x) as [b|e'];
      cbn in *.
    + destruct (last5_step team a x), (last5_step team b y);
        cbn; try congruence.
    + destruct (last5_step team a x); cbn; congruence.
    + destruct (last5_step team b y); cbn; congruence.
    + congruence.
  - rewrite IH1. apply IH2.
Qed.

Lemma last5_loop_filter (team : Z) (ms : list Match) :
  forall acc,
    last5_loop team ms acc = last5_loop team (filter is_finished ms) acc.
Proof.
  induction ms as [|m ms IH]; intros acc; [reflexivity|].
  cbn [filter]. destruct (is_finished m) eqn:F.
  - cbn. destruct (last5_step team acc m); cbn; [apply IH | reflexivity].
  - cbn. rewrite (last5_step_skips team acc m F). cbn. apply IH.
Qed.

Lemma last5_step_scored (team : Z) (acc : TeamForm) (m : Match) (r : Z * Z) :
  is_finished m = true -> role_goals team m = Some r ->
  last5_step team acc m = Ok (plus_form acc (aggregate [r])).
Proof.
  unfold last5_step, is_finished, role_goals. intros -> H. cbn [negb].
  destruct (team_id (homeTeam m) =? team);
    destruct (fullTime_home m) as [h|], (fullTime_away m) as [a|];
    try discriminate; injection H as <-;
    unfold aggregate, plus_form, count, is_win, is_draw, is_loss;
    cbn [fst snd map filter sumZ fold_right];
    rewrite Z.gtb_ltb;
    match goal with
    | |- context [?x <? ?y] =>
        destruct (Z.ltb_spec x y)
    end;
    match goal with
    | |- context [?x =? ?y] =>
        destruct (Z.eqb_spec x y)
    end; try lia;
    repeat match goal with
    | |- context [?x <? ?y] =>
        destruct (Z.ltb_spec x y); try lia
    end; cbn; f_equal; f_equal; lia.
Qed.

Lemma last5_step_unscored (team : Z) (acc : TeamForm) (m : Match) :
  is_finished m = true -> role_goals team m = None ->
  last5_step team acc m = Raise none_operand.
Proof.
  unfold last5_step, is_finished, role_goals. intros -> H. cbn [negb].
  destruct (team_id (homeTeam m) =? team);
    destruct (fullTime_home m) as [h|], (fullTime_away m) as [a|];
    try discriminate; reflexivity.
Qed.

Lemma aggregate_cons (r : Z * Z) (rs : list (Z * Z)) :
  aggregate (r :: rs) = plus_form (aggregate [r]) (aggregate rs).
Proof.
  unfold aggregate, plus_form, count. cbn [map sumZ fold_right filter points
    goals_for goals_against wins draws losses].
  destruct (is_win r), (is_draw r), (is_loss r); cbn [List.length];
    f_equal; unfold sumZ; lia.
Qed.

Lemma plus_form_assoc (a b c : TeamForm) :
  plus_form (plus_form a b) c = plus_form a (plus_form b c).
Proof. unfold plus_form; cbn; f_equal; lia. Qed.

Lemma plus_form_empty_l (a : TeamForm) : plus_form empty_form a = a.
Proof. destruct a; reflexivity. Qed.

Lemma plus_form_aggregate_nil (a : TeamForm) : plus_form a (aggregate []) = a.
Proof. destruct a; unfold plus_form, aggregate; cbn; f_equal; lia. Qed.

Lemma last5_loop_finished (team : Z) (ms : list Match) :
  Forall (fun m => is_finished m = true) ms ->
  forall acc,
    last5_loop team ms acc =
    match results_of team ms with
    | Some rs => Ok (plus_form acc (aggregate rs))
    | None => Raise none_operand
    end.
Proof.
  induction 1 as [|m ms F _ IH]; intros acc.
  - cbn. now rewrite plus_form_aggregate_nil.
  - cbn [last5_loop results_of].
    destruct (role_goals team m) as [r|] eqn:G.
    + rewrite (last5_step_scored team acc m F G). cbn [rbind]. rewrite IH.
      destruct (results_of team ms) as [rs|]; [|reflexivity].
      now rewrite (aggregate_cons r rs), plus_form_assoc.
    + now rewrite (last5_step_unscored team acc m F G).
Qed.

Lemma filter_finished_all (ms : list Match) :
  Forall (fun m => is_finished m = true) (filter is_finished ms).
Proof. apply Forall_forall. intros m H. now apply filter_In in H. Qed.

End FeatureExtractorFacts.

(** C7: the TeamForm aggregate does not depend on the order of the match
    records; only matches whose status is FINISHED count; goals for and
    against follow the team's home or away role; a win is worth 3 points, a
    draw 1 and a loss 0.  (A finished match without a score makes the
    extractor raise, in any order.) *)
Theorem C7_team_form_aggregate (team : Z) (ms : list Api.Match) :
  (forall ms', Permutation ms ms' ->
     FeatureExtractor.calculate_last5_stats team ms'
     = FeatureExtractor.calculate_last5_stats team ms)
  /\ FeatureExtractor.calculate_last5_stats team ms
     = FeatureExtractor.calculate_last5_stats team
         (filter FeatureExtractor.is_finished ms)
  /\ (forall rs,
        FeatureExtractor.results_of team
          (filter FeatureExtractor.is_finished ms) = Some rs ->
        FeatureExtractor.calculate_last5_stats team ms
        = Ok (FeatureExtractor.aggregate rs))
  /\ (FeatureExtractor.results_of team
        (filter FeatureExtractor.is_finished ms) = None ->
      FeatureExtractor.calculate_last5_stats team ms
      = Raise FeatureExtractor.none_operand).
Proof.
  unfold FeatureExtractor.calculate_last5_stats.
  split; [|split; [|split]].
  - intros ms' P. symmetry. now apply last5_loop_perm.
  - apply last5_loop_filter.
  - intros rs H. rewrite last5_loop_filter.
    rewrite (last5_loop_finished team (filter_finished_all ms)), H.
    now rewrite plus_form_empty_l.
  - intros H. rewrite last5_loop_filter.
    now rewrite (last5_loop_finished team (filter_finished_all ms)), H.
Qed.

Lemma C7_team_form_aggregate_witness :
  FeatureExtractor.calculate_last5_stats 57
    [Examples.to_come; Examples.drew_away; Examples.won_at_home]
  = FeatureExtractor.calculate_last5_stats 57 Examples.window
  /\ FeatureExtractor.calculate_last5_stats 57 Examples.window
     = Ok (FeatureExtractor.mkTeamForm 4 3 2 1 1 0).
Proof.
  destruct (C7_team_form_aggregate 57 Examples.window) as (P & _ & A & _).
  split.
  - apply P. unfold Examples.window.
    apply Permutation_rev with (l := [Examples.won_at_home; Examples.drew_away; Examples.to_come]).
  - apply (A [(2, 1); (1, 1)]). reflexivity.
Defined.

(** ** Resilient storage gateway *)

Section GatewayFacts.
Import Gateway.
Local Open Scope R_scope.
Variables W A : Type.
Variable func : M W A.
Variable delay : R.

Lemma attempt_range_3 : attempt_range 3 = [1; 2; 3]%Z.
Proof. reflexivity. Qed.

(** An operation that answers at once is not delayed. *)
Lemma retry_first_success (max_retries : Z) (w w' : W) (a : A) (log : list R) :
  (0 < max_retries)%Z ->
  func w = (Ok a, w') ->
  retry_on_connection_error max_retries delay func (w, log) = (Ok a, (w', log)).
Proof.
  intros Hpos H. unfold retry_on_connection_error, attempt_range.
  destruct (Z.to_nat max_retries) as [|n] eqn:E; [lia|].
  cbn. now rewrite H.
Qed.

(** Any other exception passes through at once, unretried. *)
Lemma retry_other_error (max_retries : Z) (w w' : W) (e : exn) (log : list R) :
  (0 < max_retries)%Z ->
  func w = (Raise e, w') -> is_connection_error e = false ->
  retry_on_connection_error max_retries delay func (w, log)
  = (Raise e, (w', log)).
Proof.
  intros Hpos H C. unfold retry_on_connection_error, attempt_range.
  destruct (Z.to_nat max_retries) as [|n] eqn:E; [lia|].
  cbn. now rewrite H, C.
Qed.

End GatewayFacts.

(** C3: with [max_retries = 3] and base delay [d], an operation that raises a
    connection-class error on its first two attempts and succeeds on the
    third has its answer returned after exactly the two delays [d * 1] and
    [d * 2]; if the third attempt raises a connection-class error too, that
    last error is raised again, after the same two delays. *)
Theorem C3_retry_linear_backoff (W A : Type) (func : M W A) (d : R)
    (w0 w1 w2 : W) (e1 e2 : exn) (log : list R) :
  func w0 = (Raise e1, w1) -> Gateway.is_connection_error e1 = true ->
  func w1 = (Raise e2, w2) -> Gateway.is_connection_error e2 = true ->
  (forall a w3,
      func w2 = (Ok a, w3) ->
      Gateway.retry_on_connection_error 3 d func (w0, log)
      = (Ok a, (w3, log ++ [d * 1; d * 2]%R)))
  /\ (forall e3 w3,
      func w2 = (Raise e3, w3) -> Gateway.is_connection_error e3 = true ->
      Gateway.retry_on_connection_error 3 d func (w0, log)
      = (Raise e3, (w3, log ++ [d * 1; d * 2]%R))).
Proof.
  intros H1 C1 H2 C2.
  unfold Gateway.retry_on_connection_error. rewrite attempt_range_3.
  split.
  - intros a w3 H3.
    cbn. rewrite H1, C1. cbn. rewrite H2, C2. cbn. rewrite H3.
    now rewrite <- app_assoc.
  - intros e3 w3 H3 C3.
    cbn. rewrite H1, C1. cbn. rewrite H2, C2. cbn. rewrite H3, C3. cbn.
    now rewrite <- app_assoc.
Qed.

Lemma C3_retry_linear_backoff_witness :
  Gateway.retry_on_connection_error 3 (1 / 2)%R Examples.flaky (0%nat, [])
  = (Ok 2%nat, (3%nat, [(1 / 2 * 1)%R; (1 / 2 * 2)%R]))
  /\ Gateway.retry_on_connection_error 3 (1 / 2)%R Examples.unreachable
       (0%nat, [])
     = (Raise (PostgresConnectionError "connection refused"),
        (3%nat, [(1 / 2 * 1)%R; (1 / 2 * 2)%R])).
Proof.
  split.
  - apply (proj1 (@C3_retry_linear_backoff nat nat Examples.flaky (1 / 2)%R
                    0%nat 1%nat 2%nat
                    (ConnectionError "connection reset")
                    (ConnectionError "connection reset") []
                    eq_refl eq_refl eq_refl eq_refl)).
    reflexivity.
  - apply (proj2 (@C3_retry_linear_backoff nat nat Examples.unreachable
                    (1 / 2)%R 0%nat 1%nat 2%nat
                    (PostgresConnectionError "connection refused")
                    (PostgresConnectionError "connection refused") []
                    eq_refl eq_refl eq_refl eq_refl)).
    + reflexivity.
    + reflexivity.
Defined.

(** ** Prediction store *)

Section StoreFacts.
Import Store.
Local Open Scope R_scope.

Lemma select_elo_rated (team : string) (rating : R) (d : Database) :
  rated team rating d -> select_elo team d = Some rating.
Proof.
  intros (before & row & after & E & N & V & F).
  unfold select_elo. rewrite E. clear E.
  induction F as [|r before Hr _ IH]; cbn.
  - subst. now rewrite String.eqb_refl.
  - apply String.eqb_neq in Hr. now rewrite Hr.
Qed.

Lemma select_elo_unrated (team : string) (d : Database) :
  unrated team d -> select_elo team d = None.
Proof.
  unfold unrated, select_elo.
  induction 1 as [|r l Hr _ IH]; cbn; [reflexivity|].
  apply String.eqb_neq in Hr. now rewrite Hr.
Qed.

Lemma sqlite_get_elo_eq (team : string) (d : Database) :
  SQLite.get_elo team d
  = (Ok (match select_elo team d with Some v => v | None => 1500 end), d).
Proof.
  unfold SQLite.get_elo, bind, get. now destruct (select_elo team d).
Qed.

Lemma postgres_get_elo_body_eq (team : string) (d : Database) :
  Postgres.get_elo_body team (Postgres.mkServer d [])
  = (Ok (match select_elo team d with Some v => v | None => 1500 end),
     Postgres.mkServer d []).
Proof.
  unfold Postgres.get_elo_body, bind, Postgres.acquire, Postgres.on_db. cbn.
  now destruct (select_elo team d).
Qed.

Lemma postgres_get_elo_eq (team : string) (d : Database) :
  Postgres.get_elo team (Postgres.healthy d)
  = (Ok (match select_elo team d with Some v => v | None => 1500 end),
     Postgres.healthy d).
Proof.
  unfold Postgres.get_elo, Gateway.retry_default, Postgres.healthy.
  apply retry_first_success; [lia | apply postgres_get_elo_body_eq].
Qed.

Lemma postgres_get_elo_body_down (team : string) (d : Database)
    (rest : list bool) :
  Postgres.get_elo_body team (Postgres.mkServer d (false :: rest))
  = (Raise (PostgresConnectionError "connection is closed"),
     Postgres.mkServer d rest).
Proof. reflexivity. Qed.

(** The gateway at work: a link that is down for two acquisitions delays
    the lookup by [1.0 * 1] and [1.0 * 2] seconds and then answers. *)
Lemma postgres_get_elo_recovers (team : string) (d : Database) :
  Postgres.get_elo team (Postgres.mkServer d [false; false], [])
  = (Ok (match select_elo team d with Some v => v | None => 1500 end),
     (Postgres.mkServer d [], [1 * 1; 1 * 2])).
Proof.
  unfold Postgres.get_elo, Gateway.retry_default,
    Gateway.retry_on_connection_error.
  rewrite attempt_range_3. cbn [Gateway.attempts_loop fst snd].
  rewrite postgres_get_elo_body_down. cbn -[Postgres.get_elo_body Rmult].
  rewrite postgres_get_elo_body_down. cbn -[Postgres.get_elo_body Rmult].
  rewrite postgres_get_elo_body_eq. reflexivity.
Qed.

End StoreFacts.

(** C9: the rating lookup answers the stored rating of a team that is
    present and 1500.0 for a team that is absent, and it raises for no team
    name; in the SQLite store and, over a healthy link, in the Postgres
    store. *)
Theorem C9_rating_lookup_default (team : string) (d : Store.Database) :
  (forall rating, Store.rated team rating d ->
     SQLite.get_elo team d = (Ok rating, d)
     /\ Postgres.get_elo team (Postgres.healthy d)
        = (Ok rating, Postgres.healthy d))
  /\ (Store.unrated team d ->
      SQLite.get_elo team d = (Ok 1500%R, d)
      /\ Postgres.get_elo team (Postgres.healthy d)
         = (Ok 1500%R, Postgres.healthy d))
  /\ (exists v, SQLite.get_elo team d = (Ok v, d))
  /\ (exists v, Postgres.get_elo team (Postgres.healthy d)
                = (Ok v, Postgres.healthy d)).
Proof.
  rewrite sqlite_get_elo_eq, postgres_get_elo_eq.
  split; [|split; [|split]].
  - intros rating H. now rewrite (select_elo_rated H).
  - intros H. now rewrite (select_elo_unrated H).
  - eexists; reflexivity.
  - eexists; reflexivity.
Qed.

Lemma C9_rating_lookup_default_witness :
  SQLite.get_elo "Chelsea" Examples.fresh_db = (Ok 1800%R, Examples.fresh_db)
  /\ Postgres.get_elo "Chelsea" (Postgres.healthy Examples.fresh_db)
     = (Ok 1800%R, Postgres.healthy Examples.fresh_db)
  /\ SQLite.get_elo "UnknownTeamXYZ" Examples.fresh_db
     = (Ok 1500%R, Examples.fresh_db)
  /\ Postgres.get_elo "UnknownTeamXYZ" (Postgres.healthy Examples.fresh_db)
     = (Ok 1500%R, Postgres.healthy Examples.fresh_db).
Proof.
  assert (K : Store.rated "Chelsea" 1800%R Examples.fresh_db).
  { exists [Store.mkElo "Arsenal" 1900%R], (Store.mkElo "Chelsea" 1800%R), [].
    repeat split. constructor; [discriminate | constructor]. }
  assert (U : Store.unrated "UnknownTeamXYZ" Examples.fresh_db).
  { repeat constructor; discriminate. }
  destruct (C9_rating_lookup_default "Chelsea" Examples.fresh_db)
    as (P & _).
  destruct (C9_rating_lookup_default "UnknownTeamXYZ" Examples.fresh_db)
    as (_ & Q & _).
  destruct (P _ K) as (P1 & P2). destruct (Q U) as (Q1 & Q2).
  repeat split; assumption.
Defined.

Section UpdateFacts.
Import Store.

Lemma set_scores_spec (hs as_ : Z) (r : PredictionRow) :
  scores_set hs as_ r (set_scores hs as_ r).
Proof. unfold scores_set, set_scores; cbn. repeat split. Qed.


Lemma update_scores_count (m hs as_ : Z) (d : Database) :
  (snd (update_scores m hs as_ d) >? 0)%Z = true
  <-> exists r, In r (predictions d) /\ match_id r = m.
Proof.
  unfold update_scores; cbn. rewrite Z.gtb_ltb, Z.ltb_lt.
  split.
  - intros H.
    destruct (filter (fun r => (match_id r =? m)%Z) (predictions d))
      as [|r l] eqn:E; [cbn in H; lia|].
    assert (I : In r (filter (fun r => (match_id r =? m)%Z) (predictions d)))
      by (rewrite E; now left).
    apply filter_In in I. destruct I as (I & K).
    exists r. split; [exact I | now apply Z.eqb_eq].
  - intros (r & I & K).
    assert (J : In r (filter (fun r => (match_id r =? m)%Z) (predictions d))).
    { apply filter_In. split; [exact I | now apply Z.eqb_eq]. }
    destruct (filter (fun r => (match_id r =? m)%Z) (predictions d));
      [destruct J | cbn; lia].
Qed.


(** All three arguments of the statement fit the column type. *)
Lemma fit_all (fits : Z -> bool) (m hs as_ : Z) :
  fits m && fits hs && fits as_ = true
  <-> fits hs = true /\ fits as_ = true /\ fits m = true.
Proof. rewrite !andb_true_iff. tauto. Qed.

Lemma sqlite_update_eq (m hs as_ : Z) (d : Database) :
  int64 m && int64 hs && int64 as_ = true ->
  SQLite.update_prediction_with_score m hs as_ d
  = (Ok (snd (update_scores m hs as_ d) >? 0)%Z,
     fst (update_scores m hs as_ d)).
Proof.
  intros H. apply fit_all in H. destruct H as (Hh & Ha & Hm).
  unfold SQLite.update_prediction_with_score, SQLite.execute_update,
    SQLite.bind_int, bind, lift, ret.
  rewrite Hh, Ha, Hm. now destruct (update_scores m hs as_ d).
Qed.

(** An argument that does not fit stops the call before the statement
    runs. *)
Lemma sqlite_update_overflow (m hs as_ : Z) (d : Database) :
  int64 m && int64 hs && int64 as_ = false ->
  SQLite.update_prediction_with_score m hs as_ d
  = (Raise (OverflowError
              "Python int too large to convert to SQLite INTEGER"), d).
Proof.
  intros H.
  unfold SQLite.update_prediction_with_score, SQLite.execute_update,
    SQLite.bind_int, bind, lift, ret.
  destruct (int64 hs); [|reflexivity].
  destruct (int64 as_); [|reflexivity].
  destruct (int64 m); [discriminate | reflexivity].
Qed.

Lemma postgres_update_body_eq (m hs as_ : Z) (d : Database) :
  int32 m && int32 hs && int32 as_ = true ->
  Postgres.update_prediction_with_score_body m hs as_ (Postgres.mkServer d [])
  = (Ok (snd (update_scores m hs as_ d) >? 0)%Z,
     Postgres.mkServer (fst (update_scores m hs as_ d)) []).
Proof.
  intros H. apply fit_all in H. destruct H as (Hh & Ha & Hm).
  unfold Postgres.update_prediction_with_score_body, Postgres.execute_update,
    Postgres.encode_int4, Postgres.acquire, Postgres.on_db, bind, lift, ret.
  cbn [Postgres.link Postgres.db]. rewrite Hh, Ha, Hm.
  now destruct (update_scores m hs as_ d).
Qed.

Lemma postgres_update_eq (m hs as_ : Z) (d : Database) :
  int32 m && int32 hs && int32 as_ = true ->
  Postgres.update_prediction_with_score m hs as_ (Postgres.healthy d)
  = (Ok (snd (update_scores m hs as_ d) >? 0)%Z,
     Postgres.healthy (fst (update_scores m hs as_ d))).
Proof.
  intros H.
  unfold Postgres.update_prediction_with_score, Gateway.retry_default,
    Postgres.healthy.
  apply retry_first_success; [lia | now apply postgres_update_body_eq].
Qed.

Lemma postgres_update_body_out_of_range (m hs as_ : Z) (d : Database) :
  int32 m && int32 hs && int32 as_ = false ->
  exists msg,
    Postgres.update_prediction_with_score_body m hs as_
      (Postgres.mkServer d [])
    = (Raise (DataError msg), Postgres.mkServer d []).
Proof.
  intros H.
  unfold Postgres.update_prediction_with_score_body, Postgres.execute_update,
    Postgres.encode_int4, Postgres.acquire, Postgres.on_db, bind, lift, ret.
  cbn [Postgres.link Postgres.db].
  destruct (int32 hs); [|eexists; reflexivity].
  destruct (int32 as_); [|eexists; reflexivity].
  destruct (int32 m); [discriminate | eexists; reflexivity].
Qed.

(** The error of the encoder is no connection error: nothing is retried. *)
Lemma postgres_update_out_of_range (m hs as_ : Z) (d : Database) :
  int32 m && int32 hs && int32 as_ = false ->
  exists msg,
    Postgres.update_prediction_with_score m hs as_ (Postgres.healthy d)
    = (Raise (DataError msg), Postgres.healthy d).
Proof.
  intros H.
  destruct (postgres_update_body_out_of_range m hs as_ d H) as (msg & E).
  exists msg.
  unfold Postgres.update_prediction_with_score, Gateway.retry_default,
    Postgres.healthy.
  apply retry_other_error; [lia | exact E | reflexivity].
Qed.

End UpdateFacts.



(** A backfill for match 1001 reaches its rows under every model key. *)
Lemma backfill_reaches_every_model_key :
  map (fun r => (Store.model r, Store.real_home_score r,
                 Store.real_away_score r))
      (Store.predictions (fst (Store.update_scores 1001 2 1 Examples.backlog)))
  = [("1010", 2, 1); ("0100", 2, 1); ("1010", -1, -1)].
Proof. reflexivity. Qed.

Section InsertFacts.
Import Store.
Variables (m : Z) (k : string).

Lemma key_exists_append (d : Database) (hid : Z) (hname : string) (hxg : pyfloat)
    (aid : Z) (aname : string) (axg hp dp ap : pyfloat) :
  key_exists m k (append_row d m k hid hname hxg aid aname axg hp dp ap) = true.
Proof.
  unfold key_exists, append_row; cbn. rewrite existsb_app; cbn.
  unfold same_key at 2; cbn. rewrite Z.eqb_refl, String.eqb_refl; cbn.
  apply orb_true_r.
Qed.

Lemma find_append_new (d : Database) (hid : Z) (hname : string) (hxg : pyfloat)
    (aid : Z) (aname : string) (axg hp dp ap : pyfloat) :
  key_exists m k d = false ->
  find (same_key m k)
    (predictions (append_row d m k hid hname hxg aid aname axg hp dp ap))
  = Some (new_row (predictions_seq d + 1) m k hid hname hxg aid aname axg
            hp dp ap).
Proof.
  unfold key_exists, append_row; cbn.
  induction (predictions d) as [|r rows IH]; cbn.
  - intros _. unfold same_key; cbn. now rewrite Z.eqb_refl, String.eqb_refl.
  - intros H. apply orb_false_iff in H. destruct H as (H1 & H2).
    rewrite H1. now apply IH.
Qed.

Lemma null_column_none (hxg axg hp dp ap : pyfloat) :
  SQLite.null_column hxg axg hp dp ap = None <-> no_nan hxg axg hp dp ap.
Proof.
  unfold SQLite.null_column, no_nan.
  destruct (is_nan hxg), (is_nan axg), (is_nan hp), (is_nan dp), (is_nan ap);
    split; try discriminate; try tauto; intros H; decompose [and] H;
    discriminate.
Qed.

Lemma sqlite_insert_new (d : Database) (hid : Z) (hxg : pyfloat) (aid : Z)
    (axg hp dp ap : pyfloat) (hname aname : string) :
  no_nan hxg axg hp dp ap ->
  key_exists m k d = false ->
  SQLite.insert_prediction m k hid hxg aid axg hp dp ap hname aname d
  = (Ok true, append_row d m k hid hname hxg aid aname axg hp dp ap).
Proof.
  intros V H. apply null_column_none in V.
  unfold SQLite.insert_prediction, try_except, bind, SQLite.execute_insert.
  now rewrite V, H.
Qed.

Lemma sqlite_insert_known (d : Database) (hid : Z) (hxg : pyfloat) (aid : Z)
    (axg hp dp ap : pyfloat) (hname aname : string) :
  key_exists m k d = true ->
  SQLite.insert_prediction m k hid hxg aid axg hp dp ap hname aname d
  = (Ok false, d).
Proof.
  intros H.
  unfold SQLite.insert_prediction, try_except, bind, SQLite.execute_insert.
  rewrite H. now destruct (SQLite.null_column hxg axg hp dp ap).
Qed.

(** A nan among the values: the statement fails on a [NOT NULL] column,
    the handler answers False and nothing is stored. *)
Lemma sqlite_insert_nan (d : Database) (hid : Z) (hxg : pyfloat) (aid : Z)
    (axg hp dp ap : pyfloat) (hname aname : string) :
  ~ no_nan hxg axg hp dp ap ->
  SQLite.insert_prediction m k hid hxg aid axg hp dp ap hname aname d
  = (Ok false, d).
Proof.
  intros V.
  unfold SQLite.insert_prediction, try_except, bind, SQLite.execute_insert.
  destruct (SQLite.null_column hxg axg hp dp ap) eqn:E; [reflexivity|].
  now apply null_column_none in E.
Qed.

(** The SQLite store is insert-or-ignore: the first writer wins. *)
Lemma sqlite_insert_twice (d : Database)
    (hid : Z) (hxg : pyfloat) (aid : Z) (axg hp dp ap : pyfloat) (hname aname : string)
    (hid' : Z) (hxg' : pyfloat) (aid' : Z) (axg' hp' dp' ap' : pyfloat)
    (hname' aname' : string) :
  no_nan hxg axg hp dp ap ->
  key_exists m k d = false ->
  exists d1,
    SQLite.insert_prediction m k hid hxg aid axg hp dp ap hname aname d
    = (Ok true, d1)
    /\ SQLite.insert_prediction m k hid' hxg' aid' axg' hp' dp' ap'
         hname' aname' d1
       = (Ok false, d1)
    /\ find (same_key m k) (predictions d1)
       = Some (new_row (predictions_seq d + 1) m k hid hname hxg aid aname
                 axg hp dp ap).
Proof.
  intros V H. eexists. split; [now apply sqlite_insert_new|].
  split; [apply sqlite_insert_known, key_exists_append|].
  now apply find_append_new.
Qed.

(** In the Postgres store the statement never fails on a known key, so the
    handler that answers [False] is never entered. *)
Lemma postgres_insert_body_eq (d : Database) (hid : Z) (hxg : pyfloat) (aid : Z)
    (axg hp dp ap : pyfloat) (hname aname : string) :
  Postgres.insert_prediction_body m k hid hxg aid axg hp dp ap hname aname
    (Postgres.mkServer d [])
  = (Ok true,
     Postgres.mkServer
       (if key_exists m k d
        then mkDatabase (predictions d) (predictions_seq d + 1) (eloScores d)
        else append_row d m k hid hname hxg aid aname axg hp dp ap)
       []).
Proof.
  unfold Postgres.insert_prediction_body, try_except, bind,
    Postgres.execute_insert_on_conflict_do_nothing, Postgres.on_db,
    Postgres.acquire; cbn.
  now destruct (key_exists m k d).
Qed.

Lemma postgres_insert_eq (d : Database) (hid : Z) (hxg : pyfloat) (aid : Z)
    (axg hp dp ap : pyfloat) (hname aname : string) :
  Postgres.insert_prediction m k hid hxg aid axg hp dp ap hname aname
    (Postgres.healthy d)
  = (Ok true,
     Postgres.healthy
       (if key_exists m k d
        then mkDatabase (predictions d) (predictions_seq d + 1) (eloScores d)
        else append_row d m k hid hname hxg aid aname axg hp dp ap)).
Proof.
  unfold Postgres.insert_prediction, Gateway.retry_default, Postgres.healthy.
  apply retry_first_success; [lia | apply postgres_insert_body_eq].
Qed.

End InsertFacts.

(** C1: on the Postgres store, a second [insert_prediction] for the key
    (1001, "1010") of a row that is already stored answers True, not False,
    although it raises nothing and the stored row keeps the values of the
    first call. *)
Theorem C1_postgres_second_insert_answers_true :
  let first :=
    Postgres.insert_prediction 1001 "1010" 57 (3 / 2)%R 61 1%R
      (1 / 2)%R (1 / 4)%R (1 / 4)%R "Arsenal" "Chelsea"
      (Postgres.healthy Examples.fresh_db) in
  let second :=
    Postgres.insert_prediction 1001 "1010" 57 2%R 61 2%R
      (1 / 3)%R (1 / 3)%R (1 / 3)%R "Arsenal" "Chelsea" (snd first) in
  fst first = Ok true
  /\ fst second = Ok true
  /\ Store.predictions (Postgres.db (fst (snd second)))
     = [Store.new_row 1 1001 "1010" 57 "Arsenal" (3 / 2)%R 61 "Chelsea" 1%R
          (1 / 2)%R (1 / 4)%R (1 / 4)%R]
  /\ Store.predictions (Postgres.db (fst (snd second)))
     = Store.predictions (Postgres.db (fst (snd first))).
Proof.
  cbv zeta. rewrite !postgres_insert_eq. cbn [fst snd].
  rewrite postgres_insert_eq. cbn. repeat split.
Qed.

(** ** Prediction pipeline *)

Section PipelineFacts.
Import Api Pipeline.
Variable S : Type.
Variable storage : Store.IPredictionStorage S.
Variable api : Client.
Variable http_get : string -> result bytes.
Variable calendar : Calendar.
Variable fs : Ensemble.Artifacts.
Variable ml_models : Ensemble.Registry.

(** The four ways out of the frame around an entry point. *)
Lemma boundary_ok (body : M (World S) payload) (w w' : World S) (data : payload) :
  body w = (Ok data, w') -> boundary body w = (RetTuple true data, w').
Proof. unfold boundary. now intros ->. Qed.

Lemma boundary_rate_limited (body : M (World S) payload) (w w' : World S)
    (msg : string) :
  body w = (Raise (ClientResponseError 429 msg), w') ->
  boundary body w = (RetTuple false (Messages [too_many_requests]), w').
Proof. unfold boundary. now intros ->. Qed.

Lemma boundary_other_status (body : M (World S) payload) (w w' : World S)
    (status : Z) (msg : string) :
  body w = (Raise (ClientResponseError status msg), w') -> status <> 429 ->
  boundary body w = (RetNone, w').
Proof.
  unfold boundary. intros -> H. apply Z.eqb_neq in H. now rewrite H.
Qed.

Lemma boundary_generic (body : M (World S) payload) (w w' : World S) (e : exn) :
  body w = (Raise e, w') ->
  (forall status msg, e <> ClientResponseError status msg) ->
  boundary body w = (RetTuple false (Messages [str e]), w').
Proof.
  unfold boundary. intros -> H.
  destruct e as [st ms| | | | | | | | | |]; try reflexivity. now destruct (H st ms).
Qed.

(** A call answers True only with what its body computed. *)
Lemma boundary_true (body : M (World S) payload) (w w' : World S) (data : payload) :
  boundary body w = (RetTuple true data, w') -> body w = (Ok data, w').
Proof.
  unfold boundary. destruct (body w) as [[d|e] w1].
  - congruence.
  - destruct e as [st ms| | | | | | | | | |]; try discriminate.
    destruct (st =? 429)%Z; discriminate.
Qed.

Lemma predict_scores_other_status (home_id away_id match_id : Z)
    (code : list Z) (w : World S) (status : Z) (msg : string) :
  get_match api match_id = Raise (ClientResponseError status msg) ->
  status <> 429 ->
  predict_scores storage api calendar fs ml_models
    home_id away_id match_id code w
  = (RetNone, w).
Proof.
  intros H N. unfold predict_scores.
  apply boundary_other_status with (status := status) (msg := msg); [|exact N].
  unfold predict_scores_body, bind, lift. now rewrite H.
Qed.

Lemma mapM_fetch_card_length (ms : list Match) (w w' : World S)
    (cards : list MatchCard) :
  mapM (fetch_card (S := S) http_get) ms w = (Ok cards, w') ->
  List.length cards = List.length ms.
Proof.
  revert cards w w'. induction ms as [|m ms IH]; intros cards w w' H; cbn in H.
  - unfold ret in H. now inversion H.
  - unfold bind in H.
    destruct (fetch_card http_get m w) as [[c|e] w1]; [|discriminate].
    destruct (mapM (fetch_card http_get) ms w1) as [[cs|e] w2] eqn:E;
      [|discriminate].
    unfold ret in H. inversion H; subst. cbn. f_equal. eapply IH, E.
Qed.

Lemma mapM_fetch_card_ok (ms : list Match) (w : World S) :
  Forall (fun m => exists h a,
            http_get (crest (homeTeam m)) = Ok h
            /\ http_get (crest (awayTeam m)) = Ok a) ms ->
  exists cards, mapM (fetch_card (S := S) http_get) ms w = (Ok cards, w).
Proof.
  induction 1 as [|m ms (h & a & Hh & Ha) _ (cards & IH)]; cbn.
  - now exists [].
  - eexists. unfold bind at 1. unfold fetch_card at 1, bind, lift.
    rewrite Hh, Ha. unfold ret at 1. unfold bind. rewrite IH. reflexivity.
Qed.

(** A call hands back [None] exactly when its body raised a
    [ClientResponseError] whose status is not 429. *)
Lemma boundary_none_iff (body : M (World S) payload) (w : World S) :
  fst (boundary body w) = RetNone
  <-> exists status msg,
        fst (body w) = Raise (ClientResponseError status msg)
        /\ status <> 429.
Proof.
  unfold boundary. destruct (body w) as [[d|e] w1]; cbn [fst].
  - split; [discriminate | intros (st & ms & H & _); discriminate].
  - destruct e as [st ms| | | | | | | | | |]; cbn [fst];
      try (split; [discriminate | intros (st' & ms' & H & _); discriminate]).
    destruct (Z.eqb_spec st 429) as [->|N]; cbn [fst].
    + split; [discriminate|]. intros (st' & ms' & H & N).
      injection H as <- _. contradiction.
    + split; [|reflexivity]. intros _. now exists st, ms.
Qed.

(** Every stage answering, the call hands back the predictions it stored. *)
Lemma predict_scores_success (home_id away_id match_id : Z) (code : list Z)
    (s0 s1 s2 s3 : S) (t t' : Ensemble.Trace) (match_data : Match)
    (home_elo away_elo : R) (home_team_data away_team_data : list Match)
    (home_stats away_stats : FeatureExtractor.TeamForm)
    (p : Ensemble.Prediction) (inserted : bool) :
  get_match api match_id = Ok match_data ->
  Store.get_elo storage (shortName (homeTeam match_data)) s0
  = (Ok home_elo, s1) ->
  Store.get_elo storage (shortName (awayTeam match_data)) s1
  = (Ok away_elo, s2) ->
  get_team_matches api home_id (six_months_before_str calendar)
    (one_day_before_str calendar) 5 = Ok home_team_data ->
  get_team_matches api away_id (six_months_before_str calendar)
    (one_day_before_str calendar) 5 = Ok away_team_data ->
  FeatureExtractor.calculate_last5_stats home_id home_team_data
  = Ok home_stats ->
  FeatureExtractor.calculate_last5_stats away_id away_team_data
  = Ok away_stats ->
  Ensemble.make_prediction fs ml_models code
    ([home_elo; away_elo]
       ++ map IZR (FeatureExtractor.values home_stats)
       ++ map IZR (FeatureExtractor.values away_stats)) t
  = (Ok p, t') ->
  Store.insert_prediction storage match_id (code_str code) home_id
    (Ensemble.Expected_Home_Goals p) away_id (Ensemble.Expected_Away_Goals p)
    (Ensemble.P_HomeWin p) (Ensemble.P_Draw p) (Ensemble.P_AwayWin p)
    (shortName (homeTeam match_data)) (shortName (awayTeam match_data)) s2
  = (Ok inserted, s3) ->
  predict_scores storage api calendar fs ml_models
    home_id away_id match_id code (s0, t)
  = (RetTuple true (Predictions p), (s3, t')).
Proof.
  intros Hm He1 He2 Hh Ha Hs1 Hs2 Hp Hi.
  unfold predict_scores. apply boundary_ok.
  unfold predict_scores_body.
  cbv beta iota delta [bind lift on_store on_trace ret fst snd].
  rewrite Hm, He1, He2, Hh, Ha, Hs1, Hs2, Hp, Hi. reflexivity.
Qed.

(** A rate-limited provider is answered with the fixed guidance. *)
Lemma predict_scores_rate_limited (home_id away_id match_id : Z)
    (code : list Z) (w : World S) (msg : string) :
  get_match api match_id = Raise (ClientResponseError 429 msg) ->
  predict_scores storage api calendar fs ml_models
    home_id away_id match_id code w
  = (RetTuple false (Messages [too_many_requests]), w).
Proof.
  intros H. unfold predict_scores.
  apply boundary_rate_limited with (msg := msg).
  unfold predict_scores_body, bind, lift. now rewrite H.
Qed.

End PipelineFacts.

(** C10: a successful [fetch_matches] answers a list of at most 20 matches;
    when the provider supplies [ms] and every emblem can be fetched, the
    call succeeds with [min 20 (length ms)] of them. *)
Theorem C10_fetch_matches_at_most_20 (S : Type)
    (api : Api.Client) (http_get : string -> result Pipeline.bytes)
    (calendar : Api.Calendar) (team_code : Z) (w : Pipeline.World S) :
  (forall data w',
      Pipeline.fetch_matches api http_get calendar team_code w
      = (Pipeline.RetTuple true data, w') ->
      exists l, data = Pipeline.Matches l /\ (List.length l <= 20)%nat)
  /\ (forall ms,
        Api.get_team_matches api team_code (Api.current_date_str calendar)
          (Api.six_months_after_str calendar) 50 = Ok ms ->
        Forall (fun m => exists h a,
                  http_get (Api.crest (Api.homeTeam m)) = Ok h
                  /\ http_get (Api.crest (Api.awayTeam m)) = Ok a) ms ->
        exists l,
          Pipeline.fetch_matches api http_get calendar team_code w
          = (Pipeline.RetTuple true (Pipeline.Matches l), w)
          /\ List.length l = Nat.min 20 (List.length ms)).
Proof.
  split.
  - intros data w' H. apply boundary_true in H.
    unfold Pipeline.fetch_matches_body, bind, lift in H.
    destruct (Api.get_team_matches _ _ _ _ _) as [ms|e]; [|discriminate].
    destruct (mapM _ ms w) as [[cards|e] w1]; [|discriminate].
    unfold ret in H. injection H as Hd Hw. subst data.
    exists (firstn 20 cards). split; [reflexivity|].
    rewrite length_firstn. lia.
  - intros ms G F.
    destruct (@mapM_fetch_card_ok S http_get ms w F) as (cards & E).
    exists (firstn 20 cards). split.
    + apply boundary_ok.
      unfold Pipeline.fetch_matches_body, bind, lift. now rewrite G, E.
    + rewrite length_firstn. apply mapM_fetch_card_length in E. now rewrite E.
Qed.

Lemma C10_fetch_matches_at_most_20_witness :
  exists l,
    Pipeline.fetch_matches Examples.api_busy_team Examples.http_ok
      Examples.calendar 57 (tt, [])
    = (Pipeline.RetTuple true (Pipeline.Matches l), (tt, []))
    /\ List.length l = 20%nat /\ (List.length l <= 20)%nat.
Proof.
  destruct (@C10_fetch_matches_at_most_20 unit Examples.api_busy_team
              Examples.http_ok Examples.calendar 57 (tt, [])) as (B & T).
  destruct (T (repeat Examples.won_at_home 25) eq_refl) as (l & E & L).
  { apply Forall_forall. intros m _. exists [], []. split; reflexivity. }
  exists l. split; [exact E|]. split; [exact L|].
  destruct (B _ _ E) as (l' & D & K). injection D as ->. exact K.
Defined.

(** C2: when the provider answers the first request of [predict_scores]
    with HTTP 404, the call hands back [None]: neither a pair
    [(False, [message])] nor an exception. *)
Theorem C2_predict_scores_not_found_answers_none :
  Pipeline.predict_scores SQLite.storage Examples.api_not_found
    Examples.calendar Examples.no_artifacts Examples.registry
    57 61 1001 [1; 0; 1; 0] (Examples.fresh_db, [])
  = (Pipeline.RetNone, (Examples.fresh_db, [])).
Proof.
  apply predict_scores_other_status
    with (status := 404) (msg := "404, message='Not Found'").
  - reflexivity.
  - discriminate.
Qed.

(** ** Ensemble predictor *)

Section EnsembleFacts.
Import Ensemble.
Local Open Scope R_scope.
Variable fs : Artifacts.
Variables home_of away_of : Entry -> list R -> R.

Lemma run_models_selected (code : list Z) (x : list R) :
  forall (entries : list Entry) (done rest : list Z)
         (home_xg away_xg : list R) (t : Trace),
    code = done ++ rest ->
    List.length rest = List.length entries ->
    loadable fs home_of away_of (selected entries rest) ->
    run_models fs code x (List.length done) entries home_xg away_xg t
    = (Ok (home_xg ++ map (fun e => home_of e x) (selected entries rest),
           away_xg ++ map (fun e => away_of e x) (selected entries rest)),
       t ++ flat_map (events_of x) (selected entries rest)).
Proof.
  induction entries as [|e entries IH];
    intros done rest home_xg away_xg t Hc Hl Hs.
  - destruct rest; [|discriminate]. cbn. unfold ret. now rewrite !app_nil_r.
  - destruct rest as [|c rest]; [discriminate|].
    cbn [run_models]. unfold bind at 1. unfold lift, code_at.
    assert (N : nth_error code (List.length done) = Some c).
    { rewrite Hc, nth_error_app2, Nat.sub_diag by lia. reflexivity. }
    rewrite N.
    assert (Hc' : code = (done ++ [c]) ++ rest) by (now rewrite <- app_assoc).
    assert (Hn : Datatypes.S (List.length done) = List.length (done ++ [c])).
    { rewrite length_app. cbn. lia. }
    injection Hl as Hl.
    unfold selected in *. cbn [combine filter snd fst map] in *.
    destruct (truthy c).
    + cbn [map flat_map fst] in *.
      apply Forall_cons_iff in Hs. destruct Hs as ((Hh & Ha) & Hs').
      unfold joblib_load, predict, lift. rewrite Hh, Ha.
      cbv beta iota delta [bind emit ret]. rewrite Hn.
      rewrite (IH (done ++ [c]) rest _ _ _ Hc' Hl Hs').
      cbn [events_of app]. rewrite <- !app_assoc. reflexivity.
    + rewrite Hn. now rewrite (IH (done ++ [c]) rest _ _ _ Hc' Hl Hs).
Qed.

Lemma run_prediction_selected (ml_models : Registry) (code : list Z)
    (features : list R) (sc : list R -> list R) (t : Trace) :
  List.length code = List.length ml_models ->
  fs scaler_path = Ok (Scaler sc) ->
  loadable fs home_of away_of (selected ml_models code) ->
  run_prediction fs ml_models code features t
  = (Ok (map (fun e => home_of e (sc features)) (selected ml_models code),
         map (fun e => away_of e (sc features)) (selected ml_models code)),
     t ++ inference_trace features (sc features) (selected ml_models code)).
Proof.
  intros Hl Hsc Hs. unfold run_prediction, bind at 1.
  unfold joblib_load, lift. rewrite Hsc.
  cbv beta iota delta [bind emit ret transform].
  rewrite (@run_models_selected code (sc features) ml_models [] code [] []
             _ eq_refl Hl Hs).
  unfold inference_trace. cbn [app]. rewrite <- !app_assoc. reflexivity.
Qed.

Lemma selected_nonempty (ml_models : Registry) (code : list Z) :
  List.length code = List.length ml_models ->
  (exists c, In c code /\ c <> 0%Z) ->
  (0 < List.length (selected ml_models code))%nat.
Proof.
  revert code. induction ml_models as [|e es IH]; intros [|c cs] Hl (c0 & I & N);
    try discriminate; try (now destruct I).
  unfold selected. cbn [combine filter snd]. unfold truthy at 1.
  destruct (Z.eqb_spec c 0) as [->|Hc]; cbn [negb].
  - destruct I as [<-|I]; [congruence|].
    apply (IH cs); [now injection Hl | now exists c0].
  - cbn. lia.
Qed.

Lemma transforms_inference_trace (features scaled : list R) (sel : list Entry) :
  transforms (inference_trace features scaled sel) = 1%nat.
Proof.
  unfold transforms, inference_trace. cbn. f_equal.
  induction sel as [|e sel IH]; [reflexivity | exact IH].
Qed.

End EnsembleFacts.

(** C5: for a selection as long as the registry with at least one flag set,
    and artifacts that load, the ensemble predictor applies the one shared
    scaler to the raw feature vector exactly once, runs the home and the
    away regressor of each selected entry on the scaled vector, and answers
    the arithmetic means of the home and of the away outputs; two selected
    models that yield (1.0, 0.5) and (2.0, 1.5) give exactly (1.5, 1.0). *)
Theorem C5_ensemble_mean (fs : Ensemble.Artifacts)
    (ml_models : Ensemble.Registry) (code : list Z) (features : list R)
    (sc : list R -> list R) (home_of away_of : Ensemble.Entry -> list R -> R)
    (t : Ensemble.Trace) :
  List.length code = List.length ml_models ->
  (exists c, In c code /\ c <> 0) ->
  fs Ensemble.scaler_path = Ok (Ensemble.Scaler sc) ->
  Ensemble.loadable fs home_of away_of (Ensemble.selected ml_models code) ->
  let sel := Ensemble.selected ml_models code in
  let scaled := sc features in
  exists p,
    Ensemble.make_prediction fs ml_models code features t
    = (Ok p, t ++ Ensemble.inference_trace features scaled sel)
    /\ Ensemble.transforms (Ensemble.inference_trace features scaled sel)
       = 1%nat
    /\ (0 < List.length sel)%nat
    /\ Ensemble.Expected_Home_Goals p
       = Np.mean (map (fun e => home_of e scaled) sel)
    /\ Ensemble.Expected_Away_Goals p
       = Np.mean (map (fun e => away_of e scaled) sel)
    /\ (forall a b,
          sel = [a; b] ->
          home_of a scaled = 1%R -> away_of a scaled = (1 / 2)%R ->
          home_of b scaled = 2%R -> away_of b scaled = (3 / 2)%R ->
          Ensemble.Expected_Home_Goals p = (3 / 2)%R
          /\ Ensemble.Expected_Away_Goals p = 1%R).
Proof.
  intros Hl Hf Hsc Hs sel scaled.
  eexists. split.
  { unfold Ensemble.make_prediction, bind.
    rewrite (@run_prediction_selected fs home_of away_of ml_models code
               features sc t Hl Hsc Hs). reflexivity. }
  cbn [Ensemble.Expected_Home_Goals Ensemble.Expected_Away_Goals fst snd].
  pose proof (@selected_nonempty ml_models code Hl Hf) as Hn. fold sel in Hn.
  split; [apply transforms_inference_trace|].
  split; [exact Hn|].
  fold sel. fold scaled.
  destruct sel as [|e sel']; [cbn in Hn; lia|].
  split; [reflexivity|]. split; [reflexivity|].
  intros a b E Ha1 Ha2 Hb1 Hb2. rewrite E.
  unfold Ensemble.mean_item, Np.mean, Np.sumR.
  cbn [map fold_right List.length].
  rewrite Ha1, Ha2, Hb1, Hb2. cbn [INR]. split; f_equal; field.
Qed.

Lemma C5_ensemble_mean_witness :
  exists p,
    Ensemble.make_prediction Examples.two_models Examples.registry
      [1; 1; 0; 0] Examples.features []
    = (Ok p,
       Ensemble.inference_trace Examples.features
         (map (fun x => (x / 2)%R) Examples.features)
         (Ensemble.selected Examples.registry [1; 1; 0; 0]))
    /\ Ensemble.Expected_Home_Goals p = (3 / 2)%R
    /\ Ensemble.Expected_Away_Goals p = 1%R.
Proof.
  destruct (@C5_ensemble_mean Examples.two_models Examples.registry
              [1; 1; 0; 0] Examples.features (map (fun x => (x / 2)%R))
              Examples.home_answer Examples.away_answer [])
    as (p & E & _ & _ & _ & _ & T).
  - reflexivity.
  - exists 1. split; [now left | discriminate].
  - reflexivity.
  - repeat constructor.
  - exists p. split; [exact E|].
    eapply T; reflexivity.
Defined.

(** ** Arrays *)

Section NpFacts.
Import Np.
Local Open Scope R_scope.

Lemma upd_id {A} (n : nat) (l : list A) : upd n (fun x => x) l = l.
Proof.
  revert n. induction l as [|x l IH]; intros [|n]; cbn; try reflexivity.
  now rewrite IH.
Qed.

Lemma upd_upd {A} (n : nat) (f g : A -> A) (l : list A) :
  upd n f (upd n g l) = upd n (fun x => f (g x)) l.
Proof.
  revert n. induction l as [|x l IH]; intros [|n]; cbn; try reflexivity.
  now rewrite IH.
Qed.

Lemma upd_ext {A} (n : nat) (f g : A -> A) (l : list A) :
  (forall x, f x = g x) -> upd n f l = upd n g l.
Proof.
  intros E. revert n. induction l as [|x l IH]; intros [|n]; cbn;
    try reflexivity.
  - now rewrite E.
  - now rewrite IH.
Qed.

Lemma upd_app_length {A} (f : A -> A) (pre : list A) (x : A) (rest : list A) :
  upd (List.length pre) f (pre ++ x :: rest) = pre ++ f x :: rest.
Proof. induction pre as [|y pre IH]; cbn; [reflexivity | now rewrite IH]. Qed.

Lemma fold_left_ext {A B} (f g : A -> B -> A) (l : list B) (a : A) :
  (forall a b, f a b = g a b) -> fold_left f l a = fold_left g l a.
Proof.
  intros E. revert a. induction l as [|b l IH]; intros a; cbn;
    [reflexivity | now rewrite E, IH].
Qed.

(** Updates of one position, folded into one update. *)
Lemma fold_upd_same {A K} (i : nat) (F : K -> A -> A) (ks : list K)
    (l : list A) :
  fold_left (fun l k => upd i (F k) l) ks l
  = upd i (fun x => fold_left (fun x k => F k x) ks x) l.
Proof.
  revert l. induction ks as [|k ks IH]; intros l; cbn.
  - now rewrite upd_id.
  - now rewrite IH, upd_upd.
Qed.

(** Updating the positions [s, s+1, ...] one after the other. *)
Lemma fold_upd_seq {A} (F : nat -> A -> A) (n : nat) :
  forall (s : nat) (pre rest : list A),
    List.length pre = s -> List.length rest = n ->
    fold_left (fun l k => upd k (F k) l) (seq s n) (pre ++ rest)
    = pre ++ imap F s rest.
Proof.
  induction n as [|n IH]; intros s pre rest Hp Hr.
  - destruct rest; [reflexivity | discriminate].
  - destruct rest as [|x rest]; [discriminate|]. cbn [seq fold_left imap].
    subst s. rewrite upd_app_length.
    change (pre ++ F (List.length pre) x :: rest)
      with (pre ++ [F (List.length pre) x] ++ rest).
    rewrite app_assoc, IH.
    + now rewrite <- app_assoc.
    + rewrite length_app. cbn. lia.
    + now injection Hr.
Qed.

Lemma imap_const {A B} (h : nat -> B) (l : list A) (s : nat) :
  imap (fun k _ => h k) s l = map h (seq s (List.length l)).
Proof.
  revert s. induction l as [|x l IH]; intros s; cbn;
    [reflexivity | now rewrite IH].
Qed.

Lemma imap_repeat {A B} (F : nat -> A -> B) (x : A) (n s : nat) :
  imap F s (repeat x n) = map (fun k => F k x) (seq s n).
Proof.
  revert s. induction n as [|n IH]; intros s; cbn;
    [reflexivity | now rewrite IH].
Qed.

Lemma imap_map_seq {A B} (F : nat -> A -> B) (h : nat -> A) (n s : nat) :
  imap F s (map h (seq s n)) = map (fun k => F k (h k)) (seq s n).
Proof.
  revert s. induction n as [|n IH]; intros s; cbn;
    [reflexivity | now rewrite IH].
Qed.

(** Assigning every cell of a matrix of zeros builds the table. *)
Lemma fill_table (g : nat -> nat -> R) (rows cols : nat) :
  fold_left
    (fun probs i =>
       fold_left (fun probs j => set_cell probs i j (g i j)) (seq 0 cols) probs)
    (seq 0 rows) (zeros rows cols)
  = table g rows cols.
Proof.
  unfold set_cell, zeros, table.
  rewrite fold_left_ext
    with (g := fun probs i =>
                 upd i (fun row => fold_left
                                     (fun row j => upd j (fun _ => g i j) row)
                                     (seq 0 cols) row) probs)
    by (intros; apply fold_upd_same).
  rewrite (fold_upd_seq _ (s := 0) [] (repeat (repeat 0 cols) rows) eq_refl)
    by apply repeat_length.
  cbn [app]. rewrite imap_repeat. apply map_ext. intros i.
  rewrite (fold_upd_seq _ (s := 0) [] (repeat 0 cols) eq_refl)
    by apply repeat_length.
  cbn [app]. now rewrite imap_const, repeat_length.
Qed.

Lemma cell_table (g : nat -> nat -> R) (rows cols i j : nat) :
  (i < rows)%nat -> (j < cols)%nat -> cell (table g rows cols) i j = g i j.
Proof.
  intros Hi Hj. unfold cell, table.
  rewrite nth_indep with (d' := map (g 0%nat) (seq 0 cols))
    by (now rewrite length_map, length_seq).
  rewrite (map_nth (fun i => map (g i) (seq 0 cols)) (seq 0 rows) 0%nat i).
  rewrite seq_nth by exact Hi. cbn [Nat.add].
  rewrite nth_indep with (d' := g i 0%nat)
    by (now rewrite length_map, length_seq).
  rewrite (map_nth (g i) (seq 0 cols) 0%nat j).
  now rewrite seq_nth.
Qed.

Lemma shape_table (g : nat -> nat -> R) (rows cols : nat) :
  List.length (table g rows cols) = rows
  /\ Forall (fun row => List.length row = cols) (table g rows cols).
Proof.
  unfold table. split.
  - now rewrite length_map, length_seq.
  - apply Forall_forall. intros row H. apply in_map_iff in H.
    destruct H as (i & <- & _). now rewrite length_map, length_seq.
Qed.

End NpFacts.

Section SumFacts.
Import Np.
Local Open Scope R_scope.

Lemma sumR_app (l l' : list R) : sumR (l ++ l') = sumR l + sumR l'.
Proof.
  unfold sumR. induction l as [|x l IH]; cbn [app fold_right];
    [lra | rewrite IH; lra].
Qed.

Lemma series_S (f : nat -> R) (n : nat) : series f (S n) = series f n + f n.
Proof.
  unfold series. rewrite seq_S, map_app, sumR_app.
  unfold sumR. cbn [map fold_right Nat.add]. lra.
Qed.

Lemma series_sum_f_R0 (f : nat -> R) (n : nat) :
  series f (S n) = sum_f_R0 f n.
Proof.
  induction n as [|n IH].
  - unfold series; cbn. lra.
  - rewrite series_S, IH. reflexivity.
Qed.

Lemma series_ext (f g : nat -> R) (n : nat) :
  (forall k, (k < n)%nat -> f k = g k) -> series f n = series g n.
Proof.
  intros E. unfold series. f_equal. apply map_ext_in. intros k H.
  apply in_seq in H. apply E. lia.
Qed.

Lemma series_plus (f g : nat -> R) (n : nat) :
  series (fun k => f k + g k) n = series f n + series g n.
Proof.
  induction n as [|n IH]; [unfold series; cbn; lra|].
  rewrite !series_S, IH. lra.
Qed.

Lemma series_scal_l (c : R) (f : nat -> R) (n : nat) :
  series (fun k => c * f k) n = c * series f n.
Proof.
  induction n as [|n IH]; [unfold series; cbn; lra|].
  rewrite !series_S, IH. lra.
Qed.

Lemma series_scal_r (c : R) (f : nat -> R) (n : nat) :
  series (fun k => f k * c) n = series f n * c.
Proof.
  induction n as [|n IH]; [unfold series; cbn; lra|].
  rewrite !series_S, IH. lra.
Qed.

Lemma series_zero (n : nat) : series (fun _ => 0) n = 0.
Proof.
  induction n as [|n IH]; [reflexivity|]. rewrite series_S, IH. lra.
Qed.

Lemma series_nonneg (f : nat -> R) (n : nat) :
  (forall k, 0 <= f k) -> 0 <= series f n.
Proof.
  intros H. induction n as [|n IH]; [unfold series; cbn; lra|].
  rewrite series_S. specialize (H n). lra.
Qed.

(** Summing by rows or by columns. *)
Lemma series_swap (h : nat -> nat -> R) (n m : nat) :
  series (fun i => series (fun j => h i j) m) n
  = series (fun j => series (fun i => h i j) n) m.
Proof.
  induction n as [|n IH].
  - transitivity 0; [reflexivity|]. rewrite <- (series_zero m).
    apply series_ext. reflexivity.
  - rewrite series_S, IH, <- series_plus. apply series_ext. intros j _.
    now rewrite series_S.
Qed.

(** Only the diagonal term of a row survives the test [i = j]. *)
Lemma series_diag (h : nat -> R) (i n : nat) :
  (i < n)%nat ->
  series (fun j => if (i =? j)%nat then h j else 0) n = h i.
Proof.
  induction n as [|n IH]; [lia|]. intros H. rewrite series_S.
  destruct (Nat.eqb_spec i n) as [->|N].
  - rewrite series_ext with (g := fun _ => 0).
    + rewrite series_zero. lra.
    + intros k Hk. destruct (Nat.eqb_spec n k); [lia | reflexivity].
  - rewrite IH by lia. lra.
Qed.

Lemma sum_table (g : nat -> nat -> R) (rows cols : nat) :
  sum (table g rows cols) = series (fun i => series (g i) cols) rows.
Proof. unfold sum, table, series. now rewrite map_map. Qed.

Lemma tril_table (g : nat -> nat -> R) (rows cols : nat) (k : Z) :
  tril (table g rows cols) k
  = table (fun i j => if (Z.of_nat j - Z.of_nat i <=? k)%Z then g i j else 0)
      rows cols.
Proof.
  unfold tril, table. rewrite imap_map_seq. apply map_ext. intros i.
  now rewrite imap_map_seq.
Qed.

Lemma triu_table (g : nat -> nat -> R) (rows cols : nat) (k : Z) :
  triu (table g rows cols) k
  = table (fun i j => if (k <=? Z.of_nat j - Z.of_nat i)%Z then g i j else 0)
      rows cols.
Proof.
  unfold triu, table. rewrite imap_map_seq. apply map_ext. intros i.
  now rewrite imap_map_seq.
Qed.

Lemma trace_table (g : nat -> nat -> R) (n : nat) :
  trace (table g n n) = series (fun i => g i i) n.
Proof.
  unfold trace, table, series. rewrite imap_map_seq. f_equal.
  apply map_ext_in. intros i H. apply in_seq in H.
  rewrite nth_indep with (d' := g i 0%nat)
    by (rewrite length_map, length_seq; lia).
  rewrite (map_nth (g i) (seq 0 n) 0%nat i). rewrite seq_nth by lia.
  reflexivity.
Qed.

Lemma sumR_filter_pairs (x : nat) (P : nat * nat -> bool) (F : nat * nat -> R)
    (l : list nat) :
  sumR (map F (filter P (map (fun y => (x, y)) l)))
  = sumR (map (fun y => if P (x, y) then F (x, y) else 0) l).
Proof.
  induction l as [|y l IH]; cbn [map filter]; [reflexivity|].
  destruct (P (x, y)); cbn [map]; unfold sumR in *; cbn [fold_right];
    rewrite IH; lra.
Qed.

Lemma sumR_filter_prod (P : nat * nat -> bool) (F : nat * nat -> R)
    (l l' : list nat) :
  sumR (map F (filter P (list_prod l l')))
  = sumR (map (fun x => sumR (map (fun y => if P (x, y) then F (x, y) else 0)
                                l')) l).
Proof.
  induction l as [|x l IH]; cbn [list_prod map]; [reflexivity|].
  rewrite filter_app, map_app, sumR_app, sumR_filter_pairs, IH. reflexivity.
Qed.

Lemma sum_where_series (p : nat -> nat -> bool) (f : nat -> nat -> R)
    (n : nat) :
  OutcomeEngine.sum_where p f n
  = series (fun i => series (fun j => if p i j then f i j else 0) (n + 1))
      (n + 1).
Proof.
  unfold OutcomeEngine.sum_where, OutcomeEngine.cells.
  now rewrite sumR_filter_prod.
Qed.

Lemma sum_where_ext (p p' : nat -> nat -> bool) (f f' : nat -> nat -> R)
    (n : nat) :
  (forall i j, (i <= n)%nat -> (j <= n)%nat ->
               p i j = p' i j /\ f i j = f' i j) ->
  OutcomeEngine.sum_where p f n = OutcomeEngine.sum_where p' f' n.
Proof.
  intros E. rewrite !sum_where_series.
  apply series_ext. intros i Hi. apply series_ext. intros j Hj.
  destruct (E i j) as (-> & ->); [lia | lia | reflexivity].
Qed.

End SumFacts.

(** ** Outcome probability engine *)

Section OutcomeFacts.
Import Np OutcomeEngine.
Local Open Scope R_scope.

Lemma match_probabilities_table (l_home l_away : R) (max_goals : nat) :
  match_probabilities l_home l_away max_goals
  = table (fun i j => poisson_pmf i l_home * poisson_pmf j l_away)
      (max_goals + 1) (max_goals + 1).
Proof. apply fill_table. Qed.

Lemma below_diagonal (g : nat -> nat -> R) (n : nat) :
  sum (tril (table g n n) (-1))
  = series (fun i => series (fun j => if (j <? i)%nat then g i j else 0) n) n.
Proof.
  rewrite tril_table, sum_table.
  apply series_ext. intros i _. apply series_ext. intros j _.
  destruct (Z.leb_spec (Z.of_nat j - Z.of_nat i) (-1)),
           (Nat.ltb_spec j i); try reflexivity; lia.
Qed.

Lemma above_diagonal (g : nat -> nat -> R) (n : nat) :
  sum (triu (table g n n) 1)
  = series (fun i => series (fun j => if (i <? j)%nat then g i j else 0) n) n.
Proof.
  rewrite triu_table, sum_table.
  apply series_ext. intros i _. apply series_ext. intros j _.
  destruct (Z.leb_spec 1 (Z.of_nat j - Z.of_nat i)),
           (Nat.ltb_spec i j); try reflexivity; lia.
Qed.

Lemma on_diagonal (g : nat -> nat -> R) (n : nat) :
  trace (table g n n)
  = series (fun i => series (fun j => if (i =? j)%nat then g i j else 0) n) n.
Proof.
  rewrite trace_table. apply series_ext. intros i Hi.
  now rewrite (series_diag (g i) Hi).
Qed.

(** The three sums split the whole table. *)
Lemma outcome_total (g : nat -> nat -> R) (n : nat) :
  sum (tril (table g n n) (-1)) + trace (table g n n)
  + sum (triu (table g n n) 1)
  = series (fun i => series (g i) n) n.
Proof.
  rewrite below_diagonal, above_diagonal, on_diagonal.
  rewrite <- !series_plus. apply series_ext. intros i _.
  rewrite <- !series_plus. apply series_ext. intros j _.
  destruct (Nat.ltb_spec j i), (Nat.eqb_spec i j), (Nat.ltb_spec i j);
    try lia; lra.
Qed.

Lemma poisson_pmf_nonneg (k : nat) (mu : R) : 0 <= mu -> 0 <= poisson_pmf k mu.
Proof.
  intros H. unfold poisson_pmf.
  apply Rmult_le_pos; [apply Rmult_le_pos|].
  - left. apply exp_pos.
  - now apply pow_le.
  - left. apply Rinv_0_lt_compat. apply INR_fact_lt_0.
Qed.

(** A partial sum of the exponential series stays below its limit. *)
Lemma exp_series_le (mu : R) (n : nat) :
  0 <= mu -> series (fun k => / INR (fact k) * mu ^ k) n <= exp mu.
Proof.
  intros H. destruct n as [|n].
  - unfold series; cbn. left. apply exp_pos.
  - rewrite series_sum_f_R0. apply sum_incr.
    + exact (proj2_sig (exist_exp mu)).
    + intros k. apply Rmult_le_pos; [|now apply pow_le].
      left. apply Rinv_0_lt_compat. apply INR_fact_lt_0.
Qed.

Lemma poisson_partial_sum (mu : R) (n : nat) :
  0 <= mu ->
  0 <= series (fun k => poisson_pmf k mu) n <= 1.
Proof.
  intros H. split.
  - apply series_nonneg. intros k. now apply poisson_pmf_nonneg.
  - rewrite series_ext
      with (g := fun k => exp (- mu) * (/ INR (fact k) * mu ^ k))
      by (intros; unfold poisson_pmf, Rdiv; ring).
    rewrite series_scal_l.
    replace 1 with (exp (- mu) * exp mu)
      by (rewrite <- exp_plus, Rplus_opp_l; apply exp_0).
    apply Rmult_le_compat_l; [left; apply exp_pos | now apply exp_series_le].
Qed.

(** Independence: the whole table sums to the product of its marginals. *)
Lemma product_total (p q : nat -> R) (n : nat) :
  series (fun i => series (fun j => p i * q j) n) n = series p n * series q n.
Proof.
  rewrite series_ext with (g := fun i => p i * series q n)
    by (intros; apply series_scal_l).
  apply series_scal_r.
Qed.

(** Mirroring the table at its diagonal. *)
Lemma mirror (g : nat -> nat -> R) (n : nat) :
  (forall i j, g i j = g j i) ->
  sum (tril (table g n n) (-1)) = sum (triu (table g n n) 1).
Proof.
  intros Sym. rewrite below_diagonal, above_diagonal, series_swap.
  apply series_ext. intros i _. apply series_ext. intros j _.
  now rewrite Sym.
Qed.

End OutcomeFacts.

(** In exact arithmetic: for non-negative expected goals the matrix is the
    table of products, the three results are the sums over [i > j], [i = j]
    and [i < j], and they add up to at most 1. *)
Lemma exact_outcome_probabilities (home_xg away_xg : R) (max_goals : nat) :
  (0 <= home_xg)%R -> (0 <= away_xg)%R ->
  let probs := OutcomeEngine.match_probabilities home_xg away_xg max_goals in
  let o := OutcomeEngine.outcome_probabilities home_xg away_xg max_goals in
  List.length probs = (max_goals + 1)%nat
  /\ Forall (fun row => List.length row = (max_goals + 1)%nat) probs
  /\ (forall i j, (i <= max_goals)%nat -> (j <= max_goals)%nat ->
        Np.cell probs i j
        = (OutcomeEngine.poisson_pmf i home_xg
           * OutcomeEngine.poisson_pmf j away_xg)%R)
  /\ OutcomeEngine.p_home_win o
     = OutcomeEngine.sum_where (fun i j => (j <? i)%nat) (Np.cell probs)
         max_goals
  /\ OutcomeEngine.p_draw o
     = OutcomeEngine.sum_where (fun i j => (i =? j)%nat) (Np.cell probs)
         max_goals
  /\ OutcomeEngine.p_away_win o
     = OutcomeEngine.sum_where (fun i j => (i <? j)%nat) (Np.cell probs)
         max_goals
  /\ (OutcomeEngine.p_home_win o + OutcomeEngine.p_draw o
      + OutcomeEngine.p_away_win o <= 1)%R.
Proof.
  intros Hh Ha probs o.
  set (g := fun i j => (OutcomeEngine.poisson_pmf i home_xg
                        * OutcomeEngine.poisson_pmf j away_xg)%R).
  assert (T : probs = Np.table g (max_goals + 1) (max_goals + 1))
    by apply match_probabilities_table.
  assert (C : forall i j, (i <= max_goals)%nat -> (j <= max_goals)%nat ->
                          Np.cell probs i j = g i j).
  { intros i j Hi Hj. rewrite T. apply cell_table; lia. }
  unfold o, OutcomeEngine.outcome_probabilities, OutcomeEngine.outcome_of.
  fold probs. cbn [OutcomeEngine.p_home_win OutcomeEngine.p_draw
                     OutcomeEngine.p_away_win].
  split; [rewrite T; apply shape_table|].
  split; [rewrite T; apply shape_table|].
  split; [exact C|].
  split; [|split; [|split]].
  - rewrite (@sum_where_ext _ (fun i j => (j <? i)%nat) _ g max_goals)
      by (intros; split; [reflexivity | now apply C]).
    rewrite sum_where_series, T. apply below_diagonal.
  - rewrite (@sum_where_ext _ (fun i j => (i =? j)%nat) _ g max_goals)
      by (intros; split; [reflexivity | now apply C]).
    rewrite sum_where_series, T. apply on_diagonal.
  - rewrite (@sum_where_ext _ (fun i j => (i <? j)%nat) _ g max_goals)
      by (intros; split; [reflexivity | now apply C]).
    rewrite sum_where_series, T. apply above_diagonal.
  - rewrite T, outcome_total. unfold g. rewrite product_total.
    pose proof (poisson_partial_sum (max_goals + 1) Hh) as (H0 & H1).
    pose proof (poisson_partial_sum (max_goals + 1) Ha) as (A0 & A1).
    replace 1%R with (1 * 1)%R by ring.
    apply Rmult_le_compat; assumption.
Qed.

(** In exact arithmetic: equal rates give the home win and the away win
    the same probability. *)
Lemma exact_equal_rates_symmetric (max_goals : nat) (lam : R) :
  OutcomeEngine.p_home_win
    (OutcomeEngine.outcome_probabilities lam lam max_goals)
  = OutcomeEngine.p_away_win
      (OutcomeEngine.outcome_probabilities lam lam max_goals).
Proof.
  unfold OutcomeEngine.outcome_probabilities, OutcomeEngine.outcome_of.
  cbn [OutcomeEngine.p_home_win OutcomeEngine.p_away_win].
  rewrite match_probabilities_table. apply mirror.
  intros i j. apply Rmult_comm.
Qed.

(** ** Outcome probability engine, in binary64 *)

Section Binary64Facts.
Import PrimFloat FloatOps SpecFloat FloatAxioms Np64 OutcomeEngine64.
Local Open Scope float_scope.

(** The binary64 product does not depend on the order of its factors. *)
Lemma mul_comm (a b : float) : a * b = b * a.
Proof.
  apply Prim2SF_inj. rewrite !mul_spec. unfold SF64mul, SFmul.
  destruct (Prim2SF a) as [sa|sa| |sa ma ea],
           (Prim2SF b) as [sb|sb| |sb mb eb];
    try reflexivity; try (now rewrite xorb_comm).
  now rewrite xorb_comm, Pos.mul_comm, Z.add_comm.
Qed.

Lemma fill_table64 (g : nat -> nat -> float) (rows cols : nat) :
  fold_left
    (fun probs i =>
       fold_left (fun probs j => set_cell probs i j (g i j)) (seq 0 cols) probs)
    (seq 0 rows) (zeros rows cols)
  = table g rows cols.
Proof.
  unfold set_cell, zeros, table.
  rewrite fold_left_ext
    with (g := fun probs i =>
                 Np.upd i (fun row =>
                             fold_left
                               (fun row j => Np.upd j (fun _ => g i j) row)
                               (seq 0 cols) row) probs)
    by (intros; apply fold_upd_same).
  rewrite (fold_upd_seq _ (s := 0) [] (repeat (repeat 0 cols) rows) eq_refl)
    by apply repeat_length.
  cbn [app]. rewrite imap_repeat. apply map_ext. intros i.
  rewrite (fold_upd_seq _ (s := 0) [] (repeat 0 cols) eq_refl)
    by apply repeat_length.
  cbn [app]. now rewrite imap_const, repeat_length.
Qed.

Lemma cell_table64 (g : nat -> nat -> float) (rows cols i j : nat) :
  (i < rows)%nat -> (j < cols)%nat -> cell (table g rows cols) i j = g i j.
Proof.
  intros Hi Hj. unfold cell, table.
  rewrite nth_indep with (d' := map (g 0%nat) (seq 0 cols))
    by (now rewrite length_map, length_seq).
  rewrite (map_nth (fun i => map (g i) (seq 0 cols)) (seq 0 rows) 0%nat i).
  rewrite seq_nth by exact Hi. cbn [Nat.add].
  rewrite nth_indep with (d' := g i 0%nat)
    by (now rewrite length_map, length_seq).
  rewrite (map_nth (g i) (seq 0 cols) 0%nat j).
  now rewrite seq_nth.
Qed.

Lemma shape_table64 (g : nat -> nat -> float) (rows cols : nat) :
  List.length (table g rows cols) = rows
  /\ Forall (fun row => List.length row = cols) (table g rows cols).
Proof.
  unfold table. split.
  - now rewrite length_map, length_seq.
  - apply Forall_forall. intros row H. apply in_map_iff in H.
    destruct H as (i & <- & _). now rewrite length_map, length_seq.
Qed.

Lemma table_ext64 (g h : nat -> nat -> float) (rows cols : nat) :
  (forall i j, (i < rows)%nat -> (j < cols)%nat -> g i j = h i j) ->
  table g rows cols = table h rows cols.
Proof.
  intros E. unfold table. apply map_ext_in. intros i Hi. apply in_seq in Hi.
  apply map_ext_in. intros j Hj. apply in_seq in Hj. apply E; lia.
Qed.

Lemma tril_table64 (g : nat -> nat -> float) (rows cols : nat) (k : Z) :
  tril (table g rows cols) k
  = table (fun i j => if (Z.of_nat j - Z.of_nat i <=? k)%Z then g i j else 0)
      rows cols.
Proof.
  unfold tril, table. rewrite imap_map_seq. apply map_ext. intros i.
  now rewrite imap_map_seq.
Qed.

Lemma triu_table64 (g : nat -> nat -> float) (rows cols : nat) (k : Z) :
  triu (table g rows cols) k
  = table (fun i j => if (k <=? Z.of_nat j - Z.of_nat i)%Z then g i j else 0)
      rows cols.
Proof.
  unfold triu, table. rewrite imap_map_seq. apply map_ext. intros i.
  now rewrite imap_map_seq.
Qed.

Lemma diagonal_table (g : nat -> nat -> float) (n : nat) :
  diagonal (table g n n) = map (fun i => g i i) (seq 0 n).
Proof.
  unfold diagonal, table. rewrite imap_map_seq.
  apply map_ext_in. intros i H. apply in_seq in H.
  rewrite nth_indep with (d' := g i 0%nat)
    by (rewrite length_map, length_seq; lia).
  rewrite (map_nth (g i) (seq 0 n) 0%nat i). rewrite seq_nth by lia.
  reflexivity.
Qed.

(** The memory order of a table is the order of its index pairs. *)
Lemma ravel_table (g : nat -> nat -> float) (rows cols : nat) :
  ravel (table g rows cols)
  = map (fun ij => g (fst ij) (snd ij)) (list_prod (seq 0 rows) (seq 0 cols)).
Proof.
  unfold ravel, table.
  induction (seq 0 rows) as [|i l IH]; cbn [map List.concat list_prod];
    [reflexivity|].
  rewrite map_app, IH, map_map. reflexivity.
Qed.

(** Taking the last entry out of every row. *)
Lemma concat_snoc_rows {A K} (a : K -> list A) (b : K -> A) (l : list K) :
  Permutation (List.concat (map (fun k => a k ++ [b k]) l))
              (List.concat (map a l) ++ map b l).
Proof.
  induction l as [|k l IH]; cbn [map List.concat app]; [constructor|].
  rewrite <- !app_assoc. apply Permutation_app_head.
  cbn [app]. rewrite IH. apply Permutation_middle.
Qed.

(** A matrix and its transpose hold the same cells. *)
Lemma ravel_transpose (g : nat -> nat -> float) (rows cols : nat) :
  Permutation (ravel (table (fun i j => g j i) rows cols))
              (ravel (table g cols rows)).
Proof.
  unfold ravel, table. induction rows as [|n IH].
  - cbn. induction (seq 0 cols); cbn; [constructor | assumption].
  - rewrite (map_ext (fun i => map (g i) (seq 0 (S n)))
               (fun i => map (g i) (seq 0 n) ++ [g i n]))
      by (intros i; now rewrite seq_S, map_app).
    rewrite concat_snoc_rows.
    rewrite seq_S, map_app, concat_app. cbn [Nat.add map List.concat].
    rewrite app_nil_r. now apply Permutation_app_tail.
Qed.

(** Any depth from the length of the array on gives the same sum: the
    bound on the nesting is never what ends the splitting. *)
Lemma pairwise_sum_rec_depth (depth depth' : nat) (a : list float) :
  (List.length a <= depth)%nat -> (List.length a <= depth')%nat ->
  pairwise_sum_rec depth a = pairwise_sum_rec depth' a.
Proof.
  revert depth' a. induction depth as [|d IH]; intros depth' a H H'.
  - destruct a; [|cbn in H; lia]. now destruct depth'.
  - cbn [pairwise_sum_rec].
    destruct (Nat.leb_spec (List.length a) 128) as [L|L].
    + destruct depth'; cbn [pairwise_sum_rec];
        apply Nat.leb_le in L; now rewrite L.
    + destruct depth' as [|d']; [lia|]. cbn [pairwise_sum_rec].
      destruct (Nat.leb_spec (List.length a) 128) as [L'|_]; [lia|].
      assert (B : (List.length a / 2 - (List.length a / 2) mod 8
                   < List.length a)%nat).
      { pose proof (Nat.div_lt (List.length a) 2). lia. }
      assert (P : (0 < List.length a / 2 - (List.length a / 2) mod 8)%nat).
      { pose proof (Nat.mod_upper_bound (List.length a / 2) 8).
        assert (64 <= List.length a / 2)%nat
          by (apply Nat.div_le_lower_bound; lia).
        lia. }
      f_equal; apply IH; rewrite ?length_firstn, ?length_skipn; lia.
Qed.

Variable poisson_pmf : nat -> float -> float.

Lemma match_probabilities_table64 (l_home l_away : float) (max_goals : nat) :
  match_probabilities poisson_pmf l_home l_away max_goals
  = table (fun i j => poisson_pmf i l_home * poisson_pmf j l_away)
      (max_goals + 1) (max_goals + 1).
Proof. apply fill_table64. Qed.

(** The array a region's sum runs over, read off a table. *)
Lemma masked_table (p : nat -> nat -> bool) (g : nat -> nat -> float)
    (n : nat) :
  ravel (table (fun i j => if p i j then g i j else 0) (n + 1) (n + 1))
  = masked p (cell (table g (n + 1) (n + 1))) n.
Proof.
  rewrite ravel_table. unfold masked, OutcomeEngine.cells.
  apply map_ext_in. intros (i, j) H. apply in_prod_iff in H.
  destruct H as (Hi & Hj). apply in_seq in Hi. apply in_seq in Hj.
  cbn [fst snd]. rewrite cell_table64 by lia. reflexivity.
Qed.

Lemma tril_below (g : nat -> nat -> float) (n : nat) :
  tril (table g n n) (-1)
  = table (fun i j => if (j <? i)%nat then g i j else 0) n n.
Proof.
  rewrite tril_table64. apply table_ext64. intros i j _ _.
  destruct (Z.leb_spec (Z.of_nat j - Z.of_nat i) (-1)),
           (Nat.ltb_spec j i); try reflexivity; lia.
Qed.

Lemma triu_above (g : nat -> nat -> float) (n : nat) :
  triu (table g n n) 1
  = table (fun i j => if (i <? j)%nat then g i j else 0) n n.
Proof.
  rewrite triu_table64. apply table_ext64. intros i j _ _.
  destruct (Z.leb_spec 1 (Z.of_nat j - Z.of_nat i)),
           (Nat.ltb_spec i j); try reflexivity; lia.
Qed.

(** Below the diagonal of a table lie the cells that lie above the
    diagonal of its transpose. *)
Lemma below_is_above_transposed (g h : nat -> nat -> float) (n : nat) :
  (forall i j, g i j = h j i) ->
  Permutation (ravel (tril (table g n n) (-1)))
              (ravel (triu (table h n n) 1)).
Proof.
  intros T. rewrite tril_below, triu_above.
  rewrite (@table_ext64 (fun i j => if (j <? i)%nat then g i j else 0)
             (fun i j => (fun i' j' => if (i' <? j')%nat then h i' j' else 0)
                           j i) n n)
    by (intros i j _ _; now rewrite T).
  apply ravel_transpose.
Qed.

End Binary64Facts.

(** C4 (amended): whatever values SciPy's [poisson.pmf] answers, the engine
    builds a [(max_goals+1) x (max_goals+1)] matrix whose cell [(i, j)] is
    the binary64 product [pmf(i, home_xg) * pmf(j, away_xg)]; [P_home] is
    numpy's sum over the matrix with every cell but those with [i > j] set
    to zero, [P_draw] the sum of the cells with [i = j], and [P_away] the
    sum over the matrix with every cell but those with [i < j] set to zero.
    In exact arithmetic, for non-negative expected goals, the three add up
    to at most 1; the binary64 values may exceed it (see the lemma that
    follows). *)
Theorem C4_outcome_probabilities
    (poisson_pmf : nat -> PrimFloat.float -> PrimFloat.float)
    (home_xg away_xg : PrimFloat.float) (max_goals : nat) :
  let probs :=
    OutcomeEngine64.match_probabilities poisson_pmf home_xg away_xg
      max_goals in
  let o :=
    OutcomeEngine64.outcome_probabilities poisson_pmf home_xg away_xg
      max_goals in
  List.length probs = (max_goals + 1)%nat
  /\ Forall (fun row => List.length row = (max_goals + 1)%nat) probs
  /\ (forall i j, (i <= max_goals)%nat -> (j <= max_goals)%nat ->
        Np64.cell probs i j
        = PrimFloat.mul (poisson_pmf i home_xg) (poisson_pmf j away_xg))
  /\ OutcomeEngine64.p_home_win o
     = Np64.pairwise_sum
         (OutcomeEngine64.masked (fun i j => (j <? i)%nat) (Np64.cell probs)
            max_goals)
  /\ OutcomeEngine64.p_draw o
     = Np64.pairwise_sum
         (map (fun i => Np64.cell probs i i) (seq 0 (max_goals + 1)))
  /\ OutcomeEngine64.p_away_win o
     = Np64.pairwise_sum
         (OutcomeEngine64.masked (fun i j => (i <? j)%nat) (Np64.cell probs)
            max_goals)
  /\ (forall x y : R,
        (0 <= x)%R -> (0 <= y)%R ->
        let e := OutcomeEngine.outcome_probabilities x y max_goals in
        (OutcomeEngine.p_home_win e + OutcomeEngine.p_draw e
         + OutcomeEngine.p_away_win e <= 1)%R).
Proof.
  intros probs o.
  set (g := fun i j =>
              PrimFloat.mul (poisson_pmf i home_xg) (poisson_pmf j away_xg)).
  assert (T : probs = Np64.table g (max_goals + 1) (max_goals + 1))
    by apply match_probabilities_table64.
  unfold o, OutcomeEngine64.outcome_probabilities, OutcomeEngine64.outcome_of.
  fold probs.
  cbn [OutcomeEngine64.p_home_win OutcomeEngine64.p_draw
         OutcomeEngine64.p_away_win].
  split; [rewrite T; apply shape_table64|].
  split; [rewrite T; apply shape_table64|].
  split; [intros i j Hi Hj; rewrite T; apply cell_table64; lia|].
  split; [|split; [|split]].
  - unfold Np64.sum. rewrite T, tril_below. now rewrite masked_table.
  - unfold Np64.trace. rewrite T, diagonal_table. f_equal.
    apply map_ext_in. intros i H. apply in_seq in H.
    rewrite cell_table64 by lia. reflexivity.
  - unfold Np64.sum. rewrite T, triu_above. now rewrite masked_table.
  - intros x y Hx Hy. apply (exact_outcome_probabilities max_goals Hx Hy).
Qed.

Section OutcomesInBinary64.
Import PrimFloat.

(** C4, the claim as stated fails: at expected goals 0.05 and 0.1 and the
    default bound 10 the three binary64 values are 0.04423893671670549,
    0.8650168987215393 and 0.0907441645617553; their exact total is
    [1 + 7 * 2^-56], and added as Python adds them they give
    1.0000000000000002. *)
Lemma C4_total_exceeds_one :
  let o :=
    OutcomeEngine64.outcome_probabilities Examples.scipy_poisson_pmf
      Examples.rate_0_05 Examples.rate_0_1 10 in
  OutcomeEngine64.p_home_win o = 0x1.6a67c64d0edbap-5%float
  /\ OutcomeEngine64.p_draw o = 0x1.bae37eb4fe225p-1%float
  /\ OutcomeEngine64.p_away_win o = 0x1.73b0273187802p-4%float
  /\ PrimFloat.leb
       (PrimFloat.add
          (PrimFloat.add (OutcomeEngine64.p_home_win o)
             (OutcomeEngine64.p_draw o))
          (OutcomeEngine64.p_away_win o)) 1%float = false
  /\ exists h d a,
       Np64.units (OutcomeEngine64.p_home_win o) = Some h
       /\ Np64.units (OutcomeEngine64.p_draw o) = Some d
       /\ Np64.units (OutcomeEngine64.p_away_win o) = Some a
       /\ Np64.one_in_units < h + d + a.
Proof.
  cbv zeta.
  assert (E : OutcomeEngine64.outcome_probabilities Examples.scipy_poisson_pmf
                Examples.rate_0_05 Examples.rate_0_1 10
              = OutcomeEngine64.mkOutcome 0x1.6a67c64d0edbap-5%float
                  0x1.bae37eb4fe225p-1%float 0x1.73b0273187802p-4%float)
    by (vm_compute; reflexivity).
  rewrite E.
  cbn [OutcomeEngine64.p_home_win OutcomeEngine64.p_draw
         OutcomeEngine64.p_away_win].
  repeat split.
  eexists. eexists. eexists.
  split; [vm_compute; reflexivity|].
  split; [vm_compute; reflexivity|].
  split; [vm_compute; reflexivity|].
  vm_compute. reflexivity.
Qed.

Lemma C4_outcome_probabilities_witness :
  List.length
    (OutcomeEngine64.match_probabilities Examples.scipy_poisson_pmf
       2%float 2%float 10) = 11%nat
  /\ Np64.cell
       (OutcomeEngine64.match_probabilities Examples.scipy_poisson_pmf
          2%float 2%float 10) 1 2
     = PrimFloat.mul 0x1.152aaa3bf81ccp-2%float 0x1.152aaa3bf81ccp-2%float
  /\ (OutcomeEngine.p_home_win
        (OutcomeEngine.outcome_probabilities (6 / 5) (4 / 5) 10)
      + OutcomeEngine.p_draw
          (OutcomeEngine.outcome_probabilities (6 / 5) (4 / 5) 10)
      + OutcomeEngine.p_away_win
          (OutcomeEngine.outcome_probabilities (6 / 5) (4 / 5) 10) <= 1)%R.
Proof.
  destruct (@C4_outcome_probabilities Examples.scipy_poisson_pmf
              2%float 2%float 10)
    as (L & _ & C & _ & _ & _ & T).
  split; [exact L|]. split.
  - exact (C 1%nat 2%nat ltac:(lia) ltac:(lia)).
  - apply T; lra.
Defined.

End OutcomesInBinary64.

(** C6 (amended): with the same expected goals on both sides, whatever
    values SciPy's [poisson.pmf] answers, the matrix is symmetric bit for
    bit, and the array [P_home] is summed from holds the same binary64
    values as the array [P_away] is summed from, in transposed places.  In
    exact arithmetic the two sums are equal; in binary64 numpy adds them in
    different orders and the results may differ (see the lemma that
    follows). *)
Theorem C6_equal_rates_symmetric
    (poisson_pmf : nat -> PrimFloat.float -> PrimFloat.float)
    (lam : PrimFloat.float) (max_goals : nat) :
  let probs :=
    OutcomeEngine64.match_probabilities poisson_pmf lam lam max_goals in
  let o :=
    OutcomeEngine64.outcome_probabilities poisson_pmf lam lam max_goals in
  (forall i j, (i <= max_goals)%nat -> (j <= max_goals)%nat ->
     Np64.cell probs i j = Np64.cell probs j i)
  /\ OutcomeEngine64.p_home_win o
     = Np64.pairwise_sum (Np64.ravel (Np64.tril probs (-1)))
  /\ OutcomeEngine64.p_away_win o
     = Np64.pairwise_sum (Np64.ravel (Np64.triu probs 1))
  /\ Permutation (Np64.ravel (Np64.tril probs (-1)))
                 (Np64.ravel (Np64.triu probs 1))
  /\ (forall x : R,
        (0 <= x)%R ->
        OutcomeEngine.p_home_win
          (OutcomeEngine.outcome_probabilities x x max_goals)
        = OutcomeEngine.p_away_win
            (OutcomeEngine.outcome_probabilities x x max_goals)).
Proof.
  intros probs o.
  assert (T : probs
              = Np64.table (fun i j => PrimFloat.mul (poisson_pmf i lam)
                                         (poisson_pmf j lam))
                  (max_goals + 1) (max_goals + 1))
    by apply match_probabilities_table64.
  split; [|split; [reflexivity | split; [reflexivity | split]]].
  - intros i j Hi Hj. rewrite T, !cell_table64 by lia. apply mul_comm.
  - rewrite T. apply below_is_above_transposed. intros i j. apply mul_comm.
  - intros x _. apply exact_equal_rates_symmetric.
Qed.

Section SymmetryInBinary64.
Import PrimFloat.

(** C6, the claim as stated fails: at expected goals 2.0 on both sides and
    the default bound 10, [P_home] is 0.3964907312229441 and [P_away] is
    0.39649073122294415. *)
Lemma C6_home_and_away_differ :
  let o :=
    OutcomeEngine64.outcome_probabilities Examples.scipy_poisson_pmf
      2%float 2%float 10 in
  OutcomeEngine64.p_home_win o = 0x1.9601aa8f1424ap-2%float
  /\ OutcomeEngine64.p_away_win o = 0x1.9601aa8f1424bp-2%float
  /\ PrimFloat.eqb (OutcomeEngine64.p_home_win o)
       (OutcomeEngine64.p_away_win o) = false.
Proof. vm_compute. repeat split. Qed.

Lemma C6_equal_rates_symmetric_witness :
  Np64.cell
    (OutcomeEngine64.match_probabilities Examples.scipy_poisson_pmf
       2%float 2%float 10) 3 7
  = Np64.cell
      (OutcomeEngine64.match_probabilities Examples.scipy_poisson_pmf
         2%float 2%float 10) 7 3
  /\ OutcomeEngine.p_home_win (OutcomeEngine.outcome_probabilities 1 1 10)
     = OutcomeEngine.p_away_win (OutcomeEngine.outcome_probabilities 1 1 10).
Proof.
  destruct (@C6_equal_rates_symmetric Examples.scipy_poisson_pmf 2%float 10)
    as (S & _ & _ & _ & E).
  split.
  - exact (S 3%nat 7%nat ltac:(lia) ltac:(lia)).
  - apply E. lra.
Defined.

End SymmetryInBinary64.

(** * Further properties of the engine *)

(** ** Resilient storage gateway *)

Section GatewayLoop.
Import Gateway.
Local Open Scope R_scope.
Variables W A : Type.
Variable func : M W A.
Variable err : W -> exn.
Variable next : W -> W.
Variable delay : R.
Hypothesis always_down : forall w, func w = (Raise (err w), next w).
Hypothesis down_is_connection : forall w, is_connection_error (err w) = true.

(** The attempts [s, s+1, ..., n] of an operation that is always down. *)
Lemma attempts_loop_down (n m : nat) :
  forall (s : nat) (last : option exn) (w : W) (log : list R),
    (s + m = n)%nat ->
    attempts_loop func (Z.of_nat n) delay
      (map Z.of_nat (seq s (Datatypes.S m))) last (w, log)
    = (Raise (err (Nat.iter m next w)),
       (Nat.iter (Datatypes.S m) next w,
        log ++ map (fun k => delay * IZR (Z.of_nat k)) (seq s m))).
Proof.
  induction m as [|m IH]; intros s last w log Hs.
  - cbn [seq map attempts_loop fst snd Nat.iter nat_rect].
    rewrite always_down, down_is_connection.
    replace (Z.of_nat s <? Z.of_nat n)%Z with false
      by (symmetry; apply Z.ltb_ge; lia).
    cbv beta iota delta [bind ret raise_last raise].
    now rewrite app_nil_r.
  - change (seq s (Datatypes.S (Datatypes.S m)))
      with (s :: seq (Datatypes.S s) (Datatypes.S m)).
    cbn [map attempts_loop fst snd].
    rewrite always_down, down_is_connection.
    replace (Z.of_nat s <? Z.of_nat n)%Z with true
      by (symmetry; apply Z.ltb_lt; lia).
    cbv beta iota delta [bind sleep fst snd].
    rewrite (IH (Datatypes.S s) (Some (err w)) (next w)
               (log ++ [delay * IZR (Z.of_nat s)])) by lia.
    rewrite <- app_assoc. cbn [app].
    rewrite <- !Nat.iter_succ_r. reflexivity.
Qed.

End GatewayLoop.

(** X1: an exception that is not of the connection class leaves the wrapper
    at once: the operation has run once, nothing was slept, and the same
    exception is raised. *)
Theorem X1_retry_passes_other_errors (W A : Type) (func : M W A)
    (max_retries : Z) (delay : R) (w w' : W) (e : exn) (log : list R) :
  0 < max_retries ->
  func w = (Raise e, w') -> Gateway.is_connection_error e = false ->
  Gateway.retry_on_connection_error max_retries delay func (w, log)
  = (Raise e, (w', log)).
Proof. intros. now apply retry_other_error. Qed.

Lemma X1_retry_passes_other_errors_witness :
  Gateway.retry_on_connection_error 3 1%R Examples.violating (0%nat, [])
  = (Raise (UniqueViolationError "duplicate key"), (1%nat, [])).
Proof.
  apply (@X1_retry_passes_other_errors nat nat Examples.violating 3 1%R
           0%nat 1%nat (UniqueViolationError "duplicate key") []).
  - reflexivity.
  - reflexivity.
  - reflexivity.
Defined.

(** X2: an operation that meets a connection error at every attempt is run
    exactly [max_retries] times; the wrapper sleeps between the attempts,
    [delay * 1], ..., [delay * (max_retries - 1)], not after the last one,
    and raises the error of the last attempt. *)
Theorem X2_retry_exhaustion (W A : Type) (func : M W A) (err : W -> exn)
    (next : W -> W) (delay : R) (n : nat) (w : W) (log : list R) :
  (forall w, func w = (Raise (err w), next w)) ->
  (forall w, Gateway.is_connection_error (err w) = true) ->
  Gateway.retry_on_connection_error (Z.of_nat (Datatypes.S n)) delay func
    (w, log)
  = (Raise (err (Nat.iter n next w)),
     (Nat.iter (Datatypes.S n) next w,
      log ++ map (fun k => (delay * IZR (Z.of_nat k))%R) (seq 1 n))).
Proof.
  intros Hd Hc. unfold Gateway.retry_on_connection_error, Gateway.attempt_range.
  rewrite Nat2Z.id.
  apply attempts_loop_down with (n := Datatypes.S n); [assumption .. | lia].
Qed.

Lemma X2_retry_exhaustion_witness :
  Gateway.retry_on_connection_error 5 2%R Examples.unreachable (0%nat, [])
  = (Raise (PostgresConnectionError "connection refused"),
     (5%nat, [2 * 1; 2 * 2; 2 * 3; 2 * 4]%R)).
Proof.
  apply (@X2_retry_exhaustion nat nat Examples.unreachable
           (fun _ => PostgresConnectionError "connection refused")
           Datatypes.S 2%R 4 0%nat []).
  - reflexivity.
  - reflexivity.
Defined.

(** X3: with [max_retries] zero or negative the wrapped operation is never
    run: the loop is empty and [raise last_exception] raises a [TypeError],
    because [last_exception] is still [None]. *)
Theorem X3_retry_without_attempts (W A : Type) (func : M W A)
    (max_retries : Z) (delay : R) (s : Gateway.Slept W) :
  max_retries <= 0 ->
  Gateway.retry_on_connection_error max_retries delay func s
  = (Raise (TypeError "exceptions must derive from BaseException"), s).
Proof.
  intros H. unfold Gateway.retry_on_connection_error, Gateway.attempt_range.
  replace (Z.to_nat max_retries) with 0%nat by lia. reflexivity.
Qed.

Lemma X3_retry_without_attempts_witness :
  Gateway.retry_on_connection_error 0 1%R Examples.flaky (0%nat, [])
  = (Raise (TypeError "exceptions must derive from BaseException"),
     (0%nat, [])).
Proof.
  apply (@X3_retry_without_attempts nat nat Examples.flaky 0 1%R (0%nat, [])).
  lia.
Defined.

(** X4: an operation that answers at its first attempt is not delayed: the
    wrapper hands back its answer and its world, having slept nothing. *)
Theorem X4_retry_transparent_on_success (W A : Type) (func : M W A)
    (max_retries : Z) (delay : R) (w w' : W) (a : A) (log : list R) :
  0 < max_retries ->
  func w = (Ok a, w') ->
  Gateway.retry_on_connection_error max_retries delay func (w, log)
  = (Ok a, (w', log)).
Proof. intros. now apply retry_first_success. Qed.

Lemma X4_retry_transparent_on_success_witness :
  Gateway.retry_on_connection_error 3 1%R Examples.flaky (2%nat, [])
  = (Ok 2%nat, (3%nat, [])).
Proof.
  apply (@X4_retry_transparent_on_success nat nat Examples.flaky 3 1%R
           2%nat 3%nat 2%nat []).
  - reflexivity.
  - reflexivity.
Defined.

(** ** Prediction store *)

Section StoreInvariantFacts.
Import Store StoreInvariant.

Lemma key_exists_In (m : Z) (k : string) (d : Database) :
  key_exists m k d = true <-> In (m, k) (keys d).
Proof.
  unfold key_exists, keys. rewrite existsb_exists. split.
  - intros (r & I & K). unfold same_key in K.
    apply andb_true_iff in K. destruct K as (K1 & K2).
    apply Z.eqb_eq in K1. apply String.eqb_eq in K2.
    apply in_map_iff. exists r. split; [|exact I].
    unfold key_of. now rewrite K1, K2.
  - intros I. apply in_map_iff in I. destruct I as (r & E & I).
    exists r. split; [exact I|]. unfold key_of in E. injection E as E1 E2.
    unfold same_key. now rewrite E1, E2, Z.eqb_refl, String.eqb_refl.
Qed.

Lemma key_exists_not_In (m : Z) (k : string) (d : Database) :
  key_exists m k d = false <-> ~ In (m, k) (keys d).
Proof.
  rewrite <- key_exists_In. destruct (key_exists m k d); split; intros H;
    try reflexivity; try discriminate; try (intros H'; discriminate).
  now destruct H.
Qed.

Lemma keys_append_row (d : Database) (m : Z) (k : string) (hid : Z)
    (hname : string) (hxg : pyfloat) (aid : Z) (aname : string) (axg hp dp ap : pyfloat) :
  keys (append_row d m k hid hname hxg aid aname axg hp dp ap)
  = keys d ++ [(m, k)].
Proof. unfold keys, append_row; cbn. now rewrite map_app. Qed.

Lemma keys_update_scores (m hs as_ : Z) (d : Database) :
  keys (fst (update_scores m hs as_ d)) = keys d.
Proof.
  unfold keys, update_scores; cbn. rewrite map_map. apply map_ext.
  intros r. now destruct (match_id r =? m).
Qed.

Lemma unique_keys_append (d : Database) (m : Z) (k : string) (hid : Z)
    (hname : string) (hxg : pyfloat) (aid : Z) (aname : string) (axg hp dp ap : pyfloat) :
  unique_keys d -> ~ In (m, k) (keys d) ->
  unique_keys (append_row d m k hid hname hxg aid aname axg hp dp ap).
Proof.
  unfold unique_keys. intros U N. rewrite keys_append_row.
  apply NoDup_app; [exact U | repeat constructor; now intros [] | ].
  intros x I [<-|[]]. contradiction.
Qed.

Lemma update_scores_twice (m hs as_ : Z) (d : Database) :
  update_scores m hs as_ (fst (update_scores m hs as_ d))
  = update_scores m hs as_ d.
Proof.
  unfold update_scores; cbn. f_equal.
  - f_equal. rewrite map_map. apply map_ext. intros r.
    destruct (match_id r =? m) eqn:E; cbn; now rewrite E.
  - f_equal.
    induction (predictions d) as [|r rows IH]; cbn; [reflexivity|].
    destruct (match_id r =? m) eqn:E; cbn; rewrite E; cbn; now rewrite IH.
Qed.

Lemma find_update_scores (m hs as_ : Z) (k : string) (d : Database) :
  lookup m k (fst (update_scores m hs as_ d))
  = option_map (set_scores hs as_) (lookup m k d).
Proof.
  unfold lookup, update_scores; cbn.
  induction (predictions d) as [|r rows IH]; cbn; [reflexivity|].
  unfold same_key at 1 3.
  destruct (match_id r =? m) eqn:E; cbn [match_id model set_scores];
    rewrite E; cbn [andb].
  - destruct (String.eqb (model r) k); [reflexivity | exact IH].
  - exact IH.
Qed.

End StoreInvariantFacts.

(** X5: the SQLite store inserts or ignores.  With integers that fit the
    64-bit columns: for a key that no stored row has and values none of
    which is nan, [insert_prediction] answers True and appends one row with
    the given values and both real scores at -1; for a key that is stored,
    and also when one of the values is nan (which sqlite3 binds as NULL,
    against [NOT NULL]), it answers False, raises nothing and leaves the
    whole store as it was. *)
Theorem X5_sqlite_insert_or_ignore (m : Z) (k : string) (hid : Z)
    (hxg : pyfloat) (aid : Z) (axg hp dp ap : pyfloat) (hname aname : string)
    (d : Store.Database) :
  Store.int64 m = true -> Store.int64 hid = true -> Store.int64 aid = true ->
  (Store.no_nan hxg axg hp dp ap ->
   ~ In (m, k) (StoreInvariant.keys d) ->
   exists d',
     SQLite.insert_prediction m k hid hxg aid axg hp dp ap hname aname d
     = (Ok true, d')
     /\ Store.predictions d'
        = Store.predictions d
          ++ [Store.mkRow (Store.predictions_seq d + 1) m k hid hname hxg
                aid aname axg hp dp ap (-1) (-1)]
     /\ Store.eloScores d' = Store.eloScores d)
  /\ (In (m, k) (StoreInvariant.keys d) ->
      SQLite.insert_prediction m k hid hxg aid axg hp dp ap hname aname d
      = (Ok false, d))
  /\ (~ Store.no_nan hxg axg hp dp ap ->
      SQLite.insert_prediction m k hid hxg aid axg hp dp ap hname aname d
      = (Ok false, d)).
Proof.
  intros _ _ _. split; [|split].
  - intros V N. apply key_exists_not_In in N. eexists. split.
    + now apply sqlite_insert_new.
    + split; reflexivity.
  - intros I. apply key_exists_In in I. now apply sqlite_insert_known.
  - intros V. now apply sqlite_insert_nan.
Qed.

Lemma X5_sqlite_insert_or_ignore_witness :
  (exists d',
     SQLite.insert_prediction 1001 "1010" 57 (3 / 2)%R 61 1%R
       (1 / 2)%R (1 / 4)%R (1 / 4)%R "Arsenal" "Chelsea" Examples.fresh_db
     = (Ok true, d')
     /\ Store.predictions d'
        = [Store.mkRow 1 1001 "1010" 57 "Arsenal" (3 / 2)%R 61 "Chelsea" 1%R
             (1 / 2)%R (1 / 4)%R (1 / 4)%R (-1) (-1)])
  /\ SQLite.insert_prediction 1001 "1010" 57 2%R 61 2%R
       (1 / 3)%R (1 / 3)%R (1 / 3)%R "Arsenal" "Chelsea" Examples.backlog
     = (Ok false, Examples.backlog)
  /\ SQLite.insert_prediction 1001 "0000" 57 Nan 61 Nan Nan Nan Nan
       "Arsenal" "Chelsea" Examples.fresh_db
     = (Ok false, Examples.fresh_db).
Proof.
  split; [|split].
  - destruct (X5_sqlite_insert_or_ignore 1001 "1010" 57 (3 / 2)%R 61 1%R
                (1 / 2)%R (1 / 4)%R (1 / 4)%R "Arsenal" "Chelsea"
                Examples.fresh_db eq_refl eq_refl eq_refl) as (N & _).
    destruct N as (d' & E & P & _).
    + repeat split.
    + intros [].
    + exists d'. split; [exact E | exact P].
  - destruct (X5_sqlite_insert_or_ignore 1001 "1010" 57 2%R 61 2%R
                (1 / 3)%R (1 / 3)%R (1 / 3)%R "Arsenal" "Chelsea"
                Examples.backlog eq_refl eq_refl eq_refl) as (_ & K & _).
    apply K. now left.
  - destruct (X5_sqlite_insert_or_ignore 1001 "0000" 57 Nan 61 Nan Nan Nan
                Nan "Arsenal" "Chelsea" Examples.fresh_db
                eq_refl eq_refl eq_refl) as (_ & _ & V).
    apply V. intros (V1 & _). discriminate V1.
Defined.

(** X6: every writing operation of both stores keeps the table free of
    duplicate [(match_id, model)] keys: [insert_prediction] with any values
    and [update_prediction_with_score] with any scores (Postgres over a
    healthy link). *)
Theorem X6_stores_keep_keys_unique (d : Store.Database)
    (m : Z) (k : string) (hid : Z) (hxg : pyfloat) (aid : Z)
    (axg hp dp ap : pyfloat) (hname aname : string) (hs as_ : Z) :
  StoreInvariant.unique_keys d ->
  StoreInvariant.unique_keys
    (snd (SQLite.insert_prediction m k hid hxg aid axg hp dp ap hname aname d))
  /\ StoreInvariant.unique_keys
       (Postgres.db
          (fst (snd (Postgres.insert_prediction m k hid hxg aid axg hp dp ap
                       hname aname (Postgres.healthy d)))))
  /\ StoreInvariant.unique_keys
       (snd (SQLite.update_prediction_with_score m hs as_ d))
  /\ StoreInvariant.unique_keys
       (Postgres.db
          (fst (snd (Postgres.update_prediction_with_score m hs as_
                       (Postgres.healthy d))))).
Proof.
  intros U.
  assert (W : StoreInvariant.unique_keys
                (fst (Store.update_scores m hs as_ d)))
    by (unfold StoreInvariant.unique_keys; now rewrite keys_update_scores).
  split; [|split; [|split]].
  - destruct (Store.key_exists m k d) eqn:K.
    + now rewrite sqlite_insert_known.
    + destruct (SQLite.null_column hxg axg hp dp ap) eqn:V.
      * rewrite sqlite_insert_nan; [exact U|].
        intros V'. apply null_column_none in V'. congruence.
      * apply null_column_none in V. rewrite sqlite_insert_new by assumption.
        apply key_exists_not_In in K. now apply unique_keys_append.
  - rewrite postgres_insert_eq. cbn [fst snd Postgres.healthy Postgres.db].
    destruct (Store.key_exists m k d) eqn:K; [exact U|].
    apply key_exists_not_In in K. now apply unique_keys_append.
  - destruct (Store.int64 m && Store.int64 hs && Store.int64 as_) eqn:R.
    + now rewrite sqlite_update_eq.
    + now rewrite sqlite_update_overflow.
  - destruct (Store.int32 m && Store.int32 hs && Store.int32 as_) eqn:R.
    + now rewrite postgres_update_eq.
    + destruct (postgres_update_out_of_range m hs as_ d R) as (msg & ->).
      exact U.
Qed.

Lemma X6_stores_keep_keys_unique_witness :
  StoreInvariant.unique_keys
    (snd (SQLite.insert_prediction 1002 "0100" 62 1%R 57 2%R
            (1 / 5)%R (1 / 5)%R (3 / 5)%R "Everton" "Arsenal"
            Examples.backlog))
  /\ StoreInvariant.unique_keys
       (snd (SQLite.update_prediction_with_score 1001 2 1 Examples.backlog)).
Proof.
  assert (U : StoreInvariant.unique_keys Examples.backlog).
  { unfold StoreInvariant.unique_keys. cbn.
    repeat constructor; cbn; intuition discriminate. }
  destruct (@X6_stores_keep_keys_unique Examples.backlog 1002 "0100" 62 1%R
              57 2%R (1 / 5)%R (1 / 5)%R (3 / 5)%R "Everton" "Arsenal" 2 1 U)
    as (A & _ & _ & _).
  destruct (@X6_stores_keep_keys_unique Examples.backlog 1001 "0100" 62 1%R
              57 2%R (1 / 5)%R (1 / 5)%R (3 / 5)%R "Everton" "Arsenal" 2 1 U)
    as (_ & _ & B & _).
  split; [exact A | exact B].
Defined.

(** X7: what is inserted is read back from the SQLite store.  With
    integers that fit the 64-bit columns and values none of which is nan,
    after [insert_prediction] for a new key [get_all_predictions] answers
    the rows stored before, in their order, followed by the new row with
    both real scores at -1, and it changes nothing. *)
Theorem X7_insert_then_read_back (m : Z) (k : string) (hid : Z)
    (hxg : pyfloat) (aid : Z) (axg hp dp ap : pyfloat) (hname aname : string)
    (d : Store.Database) :
  Store.int64 m = true -> Store.int64 hid = true -> Store.int64 aid = true ->
  Store.no_nan hxg axg hp dp ap ->
  ~ In (m, k) (StoreInvariant.keys d) ->
  let row := Store.mkRow (Store.predictions_seq d + 1) m k hid hname hxg
               aid aname axg hp dp ap (-1) (-1) in
  let d1 := snd (SQLite.insert_prediction m k hid hxg aid axg hp dp ap
                   hname aname d) in
  SQLite.get_all_predictions d1 = (Ok (Store.predictions d ++ [row]), d1).
Proof.
  intros _ _ _ V N row d1. apply key_exists_not_In in N.
  unfold d1. rewrite sqlite_insert_new by assumption. reflexivity.
Qed.

Lemma X7_insert_then_read_back_witness :
  SQLite.get_all_predictions
    (snd (SQLite.insert_prediction 1001 "1010" 57 (3 / 2)%R 61 1%R
            (1 / 2)%R (1 / 4)%R (1 / 4)%R "Arsenal" "Chelsea"
            Examples.fresh_db))
  = (Ok [Store.mkRow 1 1001 "1010" 57 "Arsenal" (3 / 2)%R 61 "Chelsea" 1%R
           (1 / 2)%R (1 / 4)%R (1 / 4)%R (-1) (-1)],
     snd (SQLite.insert_prediction 1001 "1010" 57 (3 / 2)%R 61 1%R
            (1 / 2)%R (1 / 4)%R (1 / 4)%R "Arsenal" "Chelsea"
            Examples.fresh_db)).
Proof.
  apply (@X7_insert_then_read_back 1001 "1010" 57 (3 / 2)%R 61 1%R
           (1 / 2)%R (1 / 4)%R (1 / 4)%R "Arsenal" "Chelsea"
           Examples.fresh_db eq_refl eq_refl eq_refl).
  - repeat split.
  - intros [].
Defined.

(** X8: a score backfill can be repeated.  Running
    [update_prediction_with_score] a second time with the same arguments
    gives the same answer and leaves the store as the first run left it, in
    both stores (Postgres over a healthy link). *)
Theorem X8_update_is_idempotent (m hs as_ : Z) (d : Store.Database) :
  let once := SQLite.update_prediction_with_score m hs as_ d in
  let pg_once :=
    Postgres.update_prediction_with_score m hs as_ (Postgres.healthy d) in
  SQLite.update_prediction_with_score m hs as_ (snd once) = once
  /\ Postgres.update_prediction_with_score m hs as_ (snd pg_once) = pg_once.
Proof.
  cbv zeta. split.
  - destruct (Store.int64 m && Store.int64 hs && Store.int64 as_) eqn:R.
    + rewrite !sqlite_update_eq by exact R. cbn [snd].
      now rewrite update_scores_twice.
    + now rewrite !sqlite_update_overflow by exact R.
  - destruct (Store.int32 m && Store.int32 hs && Store.int32 as_) eqn:R.
    + rewrite postgres_update_eq by exact R. cbn [snd].
      rewrite postgres_update_eq by exact R.
      now rewrite update_scores_twice.
    + destruct (postgres_update_out_of_range m hs as_ d R) as (msg & E).
      rewrite E. cbn [snd]. exact E.
Qed.

(** X9: insert, backfill, look up.  With integers that fit the 64-bit
    columns and values none of which is nan, after [insert_prediction] for
    a new key and [update_prediction_with_score] for its match, the update
    answers True and the row found under the key carries the inserted
    values and the two given scores (SQLite store). *)
Theorem X9_insert_update_lookup (m : Z) (k : string) (hid : Z)
    (hxg : pyfloat) (aid : Z) (axg hp dp ap : pyfloat) (hname aname : string)
    (hs as_ : Z) (d : Store.Database) :
  Store.int64 m = true -> Store.int64 hid = true -> Store.int64 aid = true ->
  Store.int64 hs = true -> Store.int64 as_ = true ->
  Store.no_nan hxg axg hp dp ap ->
  ~ In (m, k) (StoreInvariant.keys d) ->
  let d1 := snd (SQLite.insert_prediction m k hid hxg aid axg hp dp ap
                   hname aname d) in
  let updated := SQLite.update_prediction_with_score m hs as_ d1 in
  fst updated = Ok true
  /\ StoreInvariant.lookup m k (snd updated)
     = Some (Store.mkRow (Store.predictions_seq d + 1) m k hid hname hxg
               aid aname axg hp dp ap hs as_).
Proof.
  intros Rm _ _ Rh Ra V N d1 updated. apply key_exists_not_In in N.
  unfold updated, d1. rewrite sqlite_insert_new by assumption. cbn [snd].
  rewrite sqlite_update_eq by (now rewrite Rm, Rh, Ra). cbn [fst snd].
  split.
  - f_equal. apply update_scores_count.
    eexists. split.
    + unfold Store.append_row; cbn [Store.predictions].
      apply in_or_app. right. left. reflexivity.
    + reflexivity.
  - rewrite find_update_scores. unfold StoreInvariant.lookup.
    rewrite find_append_new by exact N. reflexivity.
Qed.

Lemma X9_insert_update_lookup_witness :
  StoreInvariant.lookup 1001 "1010"
    (snd (SQLite.update_prediction_with_score 1001 2 1
            (snd (SQLite.insert_prediction 1001 "1010" 57 (3 / 2)%R 61 1%R
                    (1 / 2)%R (1 / 4)%R (1 / 4)%R "Arsenal" "Chelsea"
                    Examples.fresh_db))))
  = Some (Store.mkRow 1 1001 "1010" 57 "Arsenal" (3 / 2)%R 61 "Chelsea" 1%R
            (1 / 2)%R (1 / 4)%R (1 / 4)%R 2 1).
Proof.
  apply (@X9_insert_update_lookup 1001 "1010" 57 (3 / 2)%R 61 1%R
           (1 / 2)%R (1 / 4)%R (1 / 4)%R "Arsenal" "Chelsea" 2 1
           Examples.fresh_db eq_refl eq_refl eq_refl eq_refl eq_refl).
  - repeat split.
  - intros [].
Defined.

(** ** Feature extractor *)

Section FormFacts.
Import Api FeatureExtractor Opponents.

Lemma results_of_length (team : Z) (ms : list Match) (rs : list (Z * Z)) :
  results_of team ms = Some rs -> List.length rs = List.length ms.
Proof.
  revert rs. induction ms as [|m ms IH]; intros rs H; cbn in H.
  - now injection H as <-.
  - destruct (role_goals team m); [|discriminate].
    destruct (results_of team ms) as [rs'|]; [|discriminate].
    injection H as <-. cbn. f_equal. now apply IH.
Qed.

Lemma count_partition (rs : list (Z * Z)) :
  count is_win rs + count is_draw rs + count is_loss rs
  = Z.of_nat (List.length rs).
Proof.
  unfold count. induction rs as [|r rs IH]; cbn [filter List.length];
    [reflexivity|].
  unfold is_win at 1, is_draw at 1, is_loss at 1.
  destruct (Z.ltb_spec (snd r) (fst r)), (Z.eqb_spec (fst r) (snd r)),
           (Z.ltb_spec (fst r) (snd r)); try lia; cbn [List.length]; lia.
Qed.

Lemma count_nonneg (p : Z * Z -> bool) (rs : list (Z * Z)) : 0 <= count p rs.
Proof. unfold count. lia. Qed.

Lemma count_map (p q : Z * Z -> bool) (f : Z * Z -> Z * Z)
    (rs : list (Z * Z)) :
  (forall r, p (f r) = q r) -> count p (map f rs) = count q rs.
Proof.
  intros E. unfold count. f_equal.
  induction rs as [|r rs IH]; cbn [map filter]; [reflexivity|].
  rewrite E. destruct (q r); cbn [List.length]; now rewrite IH.
Qed.

Lemma role_goals_opponent (a b : Z) (m : Match) :
  a <> b ->
  (team_id (homeTeam m) = a /\ team_id (awayTeam m) = b)
  \/ (team_id (homeTeam m) = b /\ team_id (awayTeam m) = a) ->
  role_goals b m = option_map swap_result (role_goals a m).
Proof.
  intros N [(H & A)|(H & A)]; unfold role_goals; rewrite H.
  - rewrite Z.eqb_refl. replace (a =? b) with false
      by (symmetry; now apply Z.eqb_neq).
    now destruct (fullTime_home m), (fullTime_away m).
  - rewrite Z.eqb_refl. replace (b =? a) with false
      by (symmetry; apply Z.eqb_neq; congruence).
    now destruct (fullTime_home m), (fullTime_away m).
Qed.

Lemma results_of_opponent (a b : Z) (ms : list Match) :
  a <> b ->
  head_to_head a b ms ->
  results_of b ms = option_map (map swap_result) (results_of a ms).
Proof.
  intros N. induction 1 as [|m ms Hm _ IH]; cbn; [reflexivity|].
  rewrite (role_goals_opponent m N Hm), IH.
  now destruct (role_goals a m), (results_of a ms).
Qed.

Lemma aggregate_swap (rs : list (Z * Z)) :
  aggregate (map swap_result rs)
  = mkTeamForm (3 * losses (aggregate rs) + draws (aggregate rs))
      (goals_against (aggregate rs)) (goals_for (aggregate rs))
      (losses (aggregate rs)) (draws (aggregate rs)) (wins (aggregate rs)).
Proof.
  unfold aggregate.
  rewrite (@count_map is_win is_loss swap_result rs) by reflexivity.
  rewrite (@count_map is_loss is_win swap_result rs) by reflexivity.
  rewrite (@count_map is_draw is_draw swap_result rs)
    by (intros r; apply Z.eqb_sym).
  rewrite !map_map.
  cbn [wins draws losses goals_for goals_against swap_result fst snd].
  f_equal. lia.
Qed.

Lemma calculate_last5_stats_eq (team : Z) (ms : list Match) :
  calculate_last5_stats team ms
  = match results_of team (filter is_finished ms) with
    | Some rs => Ok (aggregate rs)
    | None => Raise none_operand
    end.
Proof.
  unfold calculate_last5_stats.
  rewrite last5_loop_filter,
    (last5_loop_finished team (filter_finished_all ms)).
  destruct (results_of team (filter is_finished ms)); [|reflexivity].
  now rewrite plus_form_empty_l.
Qed.

End FormFacts.

(** X10: whenever the extractor answers, its counters are consistent: wins,
    draws and losses are non-negative and add up to the number of FINISHED
    matches of the window, and the points are three per win plus one per
    draw, hence at most three per finished match. *)
Theorem X10_team_form_invariants (team : Z) (ms : list Api.Match)
    (f : FeatureExtractor.TeamForm) :
  FeatureExtractor.calculate_last5_stats team ms = Ok f ->
  let finished :=
    Z.of_nat (List.length (filter FeatureExtractor.is_finished ms)) in
  FeatureExtractor.wins f + FeatureExtractor.draws f
  + FeatureExtractor.losses f = finished
  /\ FeatureExtractor.points f
     = 3 * FeatureExtractor.wins f + FeatureExtractor.draws f
  /\ 0 <= FeatureExtractor.wins f
  /\ 0 <= FeatureExtractor.draws f
  /\ 0 <= FeatureExtractor.losses f
  /\ 0 <= FeatureExtractor.points f <= 3 * finished.
Proof.
  rewrite calculate_last5_stats_eq.
  destruct (FeatureExtractor.results_of team
              (filter FeatureExtractor.is_finished ms)) as [rs|] eqn:E;
    [|discriminate].
  intros H. injection H as <-. cbv zeta.
  rewrite <- (results_of_length _ _ E).
  pose proof (count_partition rs) as P.
  pose proof (count_nonneg FeatureExtractor.is_win rs).
  pose proof (count_nonneg FeatureExtractor.is_draw rs).
  pose proof (count_nonneg FeatureExtractor.is_loss rs).
  unfold FeatureExtractor.aggregate; cbn [FeatureExtractor.wins
    FeatureExtractor.draws FeatureExtractor.losses FeatureExtractor.points].
  lia.
Qed.

Lemma X10_team_form_invariants_witness :
  FeatureExtractor.wins (FeatureExtractor.mkTeamForm 4 3 2 1 1 0)
  + FeatureExtractor.draws (FeatureExtractor.mkTeamForm 4 3 2 1 1 0)
  + FeatureExtractor.losses (FeatureExtractor.mkTeamForm 4 3 2 1 1 0) = 2
  /\ FeatureExtractor.points (FeatureExtractor.mkTeamForm 4 3 2 1 1 0) <= 6.
Proof.
  destruct (@X10_team_form_invariants 57 Examples.window
              (FeatureExtractor.mkTeamForm 4 3 2 1 1 0) eq_refl)
    as (A & _ & _ & _ & _ & _ & B).
  split; [exact A | exact B].
Defined.

(** X11: in a window made only of meetings of two different teams, the two
    forms mirror each other: the wins of one are the losses of the other,
    the draws agree, and the goals for of one are the goals against of the
    other. *)
Theorem X11_opponents_mirror (a b : Z) (ms : list Api.Match)
    (fa : FeatureExtractor.TeamForm) :
  a <> b -> Opponents.head_to_head a b ms ->
  FeatureExtractor.calculate_last5_stats a ms = Ok fa ->
  FeatureExtractor.calculate_last5_stats b ms
  = Ok (FeatureExtractor.mkTeamForm
          (3 * FeatureExtractor.losses fa + FeatureExtractor.draws fa)
          (FeatureExtractor.goals_against fa) (FeatureExtractor.goals_for fa)
          (FeatureExtractor.losses fa) (FeatureExtractor.draws fa)
          (FeatureExtractor.wins fa)).
Proof.
  intros N H. rewrite !calculate_last5_stats_eq.
  assert (Hf : Opponents.head_to_head a b
                 (filter FeatureExtractor.is_finished ms)).
  { unfold Opponents.head_to_head in *. rewrite Forall_forall in *.
    intros m I. apply H. apply filter_In in I. tauto. }
  rewrite (results_of_opponent N Hf).
  destruct (FeatureExtractor.results_of a
              (filter FeatureExtractor.is_finished ms)) as [rs|];
    [|discriminate].
  intros E. injection E as <-. cbn [option_map].
  now rewrite aggregate_swap.
Qed.

Lemma X11_opponents_mirror_witness :
  FeatureExtractor.calculate_last5_stats 57 Examples.derby
  = Ok (FeatureExtractor.mkTeamForm 4 4 6 1 1 1)
  /\ FeatureExtractor.calculate_last5_stats 61 Examples.derby
     = Ok (FeatureExtractor.mkTeamForm 4 6 4 1 1 1).
Proof.
  split; [reflexivity|].
  apply (@X11_opponents_mirror 57 61 Examples.derby
           (FeatureExtractor.mkTeamForm 4 4 6 1 1 1)).
  - discriminate.
  - unfold Opponents.head_to_head, Examples.derby.
    constructor; [left; split; reflexivity|].
    constructor; [right; split; reflexivity|].
    constructor; [right; split; reflexivity | constructor].
  - reflexivity.
Defined.

(** ** Outcome probability engine *)

Section OutcomeBounds.
Import Np OutcomeEngine.
Local Open Scope R_scope.

Lemma outcome_table (home_xg away_xg : R) (max_goals : nat) :
  outcome_probabilities home_xg away_xg max_goals
  = outcome_of (table (fun i j => poisson_pmf i home_xg
                                  * poisson_pmf j away_xg)
                  (max_goals + 1) (max_goals + 1)).
Proof.
  unfold outcome_probabilities. now rewrite match_probabilities_table.
Qed.

Lemma masked_nonneg (p : nat -> nat -> bool) (g : nat -> nat -> R) (n : nat) :
  (forall i j, 0 <= g i j) ->
  0 <= series (fun i => series (fun j => if p i j then g i j else 0) n) n.
Proof.
  intros H. apply series_nonneg. intros i. apply series_nonneg. intros j.
  destruct (p i j); [apply H | lra].
Qed.

Lemma poisson_pmf_zero_rate (k : nat) :
  poisson_pmf k 0 = if (k =? 0)%nat then 1 else 0.
Proof.
  unfold poisson_pmf. rewrite Ropp_0, exp_0. destruct k as [|k]; cbn.
  - field.
  - unfold Rdiv. rewrite Rmult_0_l. ring.
Qed.

Lemma series_head (f : nat -> R) (n : nat) :
  (forall k, (0 < k)%nat -> f k = 0) -> series f (n + 1) = f 0%nat.
Proof.
  intros Hz. induction n as [|n IH].
  - unfold series, sumR; cbn [Nat.add seq map fold_right]. lra.
  - replace (Datatypes.S n + 1)%nat with (Datatypes.S (n + 1)) by lia.
    rewrite series_S, IH, (Hz (n + 1)%nat) by lia. lra.
Qed.

Lemma Un_cv_const (c : R) : Un_cv (fun _ => c) c.
Proof.
  intros eps H. exists 0%nat. intros n _.
  unfold Rdist. rewrite Rminus_diag, Rabs_R0. exact H.
Qed.

(** The mass below the bound tends to the whole mass of the distribution. *)
Lemma poisson_partial_sum_cv (mu : R) :
  Un_cv (fun n => series (fun k => poisson_pmf k mu) (n + 1)) 1.
Proof.
  apply Un_cv_ext
    with (un := fun n => exp (- mu)
                         * sum_f_R0 (fun k => / INR (fact k) * mu ^ k) n).
  - intros n. replace (n + 1)%nat with (Datatypes.S n) by lia.
    rewrite <- series_sum_f_R0, <- series_scal_l.
    apply series_ext. intros k _. unfold poisson_pmf, Rdiv. ring.
  - replace 1 with (exp (- mu) * exp mu)
      by (rewrite <- exp_plus, Rplus_opp_l; apply exp_0).
    apply CV_mult; [apply Un_cv_const | exact (proj2_sig (exist_exp mu))].
Qed.

End OutcomeBounds.

(** X12: for non-negative expected goals each of the three probabilities
    the engine returns lies between 0 and 1, for every bound. *)
Theorem X12_outcome_probabilities_bounded (home_xg away_xg : R)
    (max_goals : nat) :
  (0 <= home_xg)%R -> (0 <= away_xg)%R ->
  let o := OutcomeEngine.outcome_probabilities home_xg away_xg max_goals in
  (0 <= OutcomeEngine.p_home_win o <= 1)%R
  /\ (0 <= OutcomeEngine.p_draw o <= 1)%R
  /\ (0 <= OutcomeEngine.p_away_win o <= 1)%R.
Proof.
  intros Hh Ha o. unfold o. rewrite outcome_table.
  set (g := fun i j => (OutcomeEngine.poisson_pmf i home_xg
                        * OutcomeEngine.poisson_pmf j away_xg)%R).
  set (n := (max_goals + 1)%nat).
  assert (G : forall i j, (0 <= g i j)%R).
  { intros i j. apply Rmult_le_pos; now apply poisson_pmf_nonneg. }
  pose proof (outcome_total g n) as T.
  unfold g at 4 in T. rewrite product_total in T.
  pose proof (poisson_partial_sum n Hh) as (H0 & H1).
  pose proof (poisson_partial_sum n Ha) as (A0 & A1).
  assert (P : (Np.series (fun k => OutcomeEngine.poisson_pmf k home_xg) n
               * Np.series (fun k => OutcomeEngine.poisson_pmf k away_xg) n
               <= 1)%R).
  { replace 1%R with (1 * 1)%R by ring. now apply Rmult_le_compat. }
  unfold OutcomeEngine.outcome_of;
    cbn [OutcomeEngine.p_home_win OutcomeEngine.p_draw
           OutcomeEngine.p_away_win].
  assert (B : (0 <= Np.sum (Np.tril (Np.table g n n) (-1)))%R)
    by (rewrite below_diagonal; now apply masked_nonneg).
  assert (D : (0 <= Np.trace (Np.table g n n))%R)
    by (rewrite on_diagonal; now apply masked_nonneg).
  assert (U : (0 <= Np.sum (Np.triu (Np.table g n n) 1))%R)
    by (rewrite above_diagonal; now apply masked_nonneg).
  lra.
Qed.

Lemma X12_outcome_probabilities_bounded_witness :
  (0 <= OutcomeEngine.p_draw
          (OutcomeEngine.outcome_probabilities (6 / 5) (4 / 5) 10) <= 1)%R.
Proof.
  destruct (@X12_outcome_probabilities_bounded (6 / 5)%R (4 / 5)%R 10)
    as (_ & D & _); [lra | lra | exact D].
Defined.

(** X13: swapping the two teams transposes the matrix of the binary64
    engine, whatever values SciPy's [poisson.pmf] answers: cell [(i, j)] of
    one order is cell [(j, i)] of the other, bit for bit.  The draw
    probability is therefore the same binary64 value in both orders, and the
    array the home-win sum of one order runs over holds the values of the
    array of the away-win sum of the other, in transposed places. *)
Theorem X13_swapping_teams_swaps_outcome
    (poisson_pmf : nat -> PrimFloat.float -> PrimFloat.float)
    (home_xg away_xg : PrimFloat.float) (max_goals : nat) :
  let probs :=
    OutcomeEngine64.match_probabilities poisson_pmf home_xg away_xg
      max_goals in
  let swapped :=
    OutcomeEngine64.match_probabilities poisson_pmf away_xg home_xg
      max_goals in
  (forall i j, (i <= max_goals)%nat -> (j <= max_goals)%nat ->
     Np64.cell swapped i j = Np64.cell probs j i)
  /\ OutcomeEngine64.p_draw (OutcomeEngine64.outcome_of swapped)
     = OutcomeEngine64.p_draw (OutcomeEngine64.outcome_of probs)
  /\ Permutation (Np64.ravel (Np64.tril swapped (-1)))
                 (Np64.ravel (Np64.triu probs 1))
  /\ Permutation (Np64.ravel (Np64.triu swapped 1))
                 (Np64.ravel (Np64.tril probs (-1))).
Proof.
  intros probs swapped. unfold probs, swapped.
  rewrite !match_probabilities_table64.
  split; [|split; [|split]].
  - intros i j Hi Hj. rewrite !cell_table64 by lia. apply mul_comm.
  - unfold OutcomeEngine64.outcome_of, Np64.trace.
    cbn [OutcomeEngine64.p_draw]. rewrite !diagonal_table. f_equal.
    apply map_ext. intros i. apply mul_comm.
  - apply below_is_above_transposed. intros i j. apply mul_comm.
  - apply Permutation_sym, below_is_above_transposed.
    intros i j. apply mul_comm.
Qed.

(** X14: with both expected goals at zero the engine is certain of a draw:
    it answers 0, 1, 0 for home win, draw and away win, for every bound. *)
Theorem X14_zero_rates_certain_draw (max_goals : nat) :
  OutcomeEngine.outcome_probabilities 0 0 max_goals
  = OutcomeEngine.mkOutcome 0 1 0.
Proof.
  rewrite outcome_table. unfold OutcomeEngine.outcome_of.
  rewrite below_diagonal, above_diagonal, trace_table. f_equal.
  - rewrite <- (series_zero (max_goals + 1)) at 1.
    apply series_ext. intros i _.
    rewrite <- (series_zero (max_goals + 1)) at 1.
    apply series_ext. intros j _.
    destruct (Nat.ltb_spec j i); [|reflexivity].
    rewrite (poisson_pmf_zero_rate i).
    destruct (Nat.eqb_spec i 0); [lia | ring].
  - rewrite series_head.
    + rewrite poisson_pmf_zero_rate. cbn. ring.
    + intros k Hk. rewrite poisson_pmf_zero_rate.
      destruct (Nat.eqb_spec k 0); [lia | ring].
  - rewrite <- (series_zero (max_goals + 1)) at 1.
    apply series_ext. intros i _.
    rewrite <- (series_zero (max_goals + 1)) at 1.
    apply series_ext. intros j _.
    destruct (Nat.ltb_spec i j); [|reflexivity].
    rewrite (poisson_pmf_zero_rate j).
    destruct (Nat.eqb_spec j 0); [lia | ring].
Qed.

(** X15: the probability mass the bound cuts off vanishes: as [max_goals]
    grows, the sum of the three probabilities tends to 1. *)
Theorem X15_total_mass_tends_to_one (home_xg away_xg : R) :
  (0 <= home_xg)%R -> (0 <= away_xg)%R ->
  Un_cv (fun max_goals =>
           let o := OutcomeEngine.outcome_probabilities home_xg away_xg
                      max_goals in
           (OutcomeEngine.p_home_win o + OutcomeEngine.p_draw o
            + OutcomeEngine.p_away_win o)%R)
        1.
Proof.
  intros _ _.
  apply Un_cv_ext
    with (un := fun n =>
                  (Np.series (fun k => OutcomeEngine.poisson_pmf k home_xg)
                     (n + 1)
                   * Np.series (fun k => OutcomeEngine.poisson_pmf k away_xg)
                       (n + 1))%R).
  - intros n. cbv zeta. rewrite outcome_table.
    unfold OutcomeEngine.outcome_of;
      cbn [OutcomeEngine.p_home_win OutcomeEngine.p_draw
             OutcomeEngine.p_away_win].
    now rewrite outcome_total, product_total.
  - replace 1%R with (1 * 1)%R by ring.
    apply CV_mult; apply poisson_partial_sum_cv.
Qed.

Lemma X15_total_mass_tends_to_one_witness :
  Un_cv (fun max_goals =>
           let o := OutcomeEngine.outcome_probabilities (6 / 5) (4 / 5)
                      max_goals in
           (OutcomeEngine.p_home_win o + OutcomeEngine.p_draw o
            + OutcomeEngine.p_away_win o)%R)
        1.
Proof.
  apply (@X15_total_mass_tends_to_one (6 / 5)%R (4 / 5)%R); lra.
Defined.

(** ** Ensemble predictor *)

Section SelectionLength.
Import Ensemble.
Local Open Scope R_scope.
Variable fs : Artifacts.
Variables home_of away_of : Entry -> list R -> R.

(** A selection that ends before the registry does: the covered entries
    run, then [code[i]] fails. *)
Lemma run_models_short (code : list Z) (x : list R) :
  forall (entries : list Entry) (done rest : list Z)
         (home_xg away_xg : list R) (t : Trace),
    code = done ++ rest ->
    (List.length rest < List.length entries)%nat ->
    loadable fs home_of away_of (selected entries rest) ->
    run_models fs code x (List.length done) entries home_xg away_xg t
    = (Raise (IndexError "list index out of range"),
       t ++ flat_map (events_of x) (selected entries rest)).
Proof.
  induction entries as [|e entries IH];
    intros done rest home_xg away_xg t Hc Hl Hs.
  - cbn in Hl. lia.
  - cbn [run_models]. unfold bind at 1. unfold lift, code_at.
    destruct rest as [|c rest].
    + assert (N : nth_error code (List.length done) = None).
      { apply nth_error_None. rewrite Hc, app_nil_r. lia. }
      rewrite N. cbn. now rewrite app_nil_r.
    + assert (N : nth_error code (List.length done) = Some c).
      { rewrite Hc, nth_error_app2, Nat.sub_diag by lia. reflexivity. }
      rewrite N.
      assert (Hc' : code = (done ++ [c]) ++ rest)
        by (now rewrite <- app_assoc).
      assert (Hn : Datatypes.S (List.length done)
                   = List.length (done ++ [c])).
      { rewrite length_app. cbn. lia. }
      cbn [List.length] in Hl. apply Nat.succ_lt_mono in Hl.
      unfold selected in *. cbn [combine filter snd fst map] in *.
      destruct (truthy c).
      * cbn [map flat_map fst] in *.
        apply Forall_cons_iff in Hs. destruct Hs as ((Hh & Ha) & Hs').
        unfold joblib_load, predict, lift. rewrite Hh, Ha.
        cbv beta iota delta [bind emit ret]. rewrite Hn.
        rewrite (IH (done ++ [c]) rest _ _ _ Hc' Hl Hs').
        cbn [events_of app]. rewrite <- !app_assoc. reflexivity.
      * rewrite Hn. now rewrite (IH (done ++ [c]) rest _ _ _ Hc' Hl Hs).
Qed.

End SelectionLength.

Section SelectionSurplus.
Import Ensemble.
Variable fs : Artifacts.

Lemma bind_ext {W A B} (m : M W A) (k k' : A -> M W B) (w : W) :
  (forall a w', k a w' = k' a w') -> bind m k w = bind m k' w.
Proof.
  intros E. unfold bind. destruct (m w) as [[a|e] w']; [apply E | reflexivity].
Qed.

(** Only the flags at the registry's positions are read. *)
Lemma run_models_agree (code code' : list Z) (x : list R) :
  forall (entries : list Entry) (i : nat) (home_xg away_xg : list R)
         (t : Trace),
    (forall j, (j < i + List.length entries)%nat ->
               nth_error code j = nth_error code' j) ->
    run_models fs code x i entries home_xg away_xg t
    = run_models fs code' x i entries home_xg away_xg t.
Proof.
  induction entries as [|e entries IH]; intros i home_xg away_xg t H;
    [reflexivity|].
  cbn [run_models]. unfold code_at.
  rewrite <- (H i) by (cbn; lia).
  apply bind_ext. intros c w'.
  assert (H' : forall j, (j < Datatypes.S i + List.length entries)%nat ->
                         nth_error code j = nth_error code' j)
    by (intros j Hj; apply H; cbn; lia).
  destruct (truthy c); [|now apply IH].
  repeat (apply bind_ext; intros).
  now apply IH.
Qed.

End SelectionSurplus.

(** X16: a selection shorter than the registry makes the predictor raise
    [IndexError], but only after the scaler and every selected model of the
    covered entries have been loaded and run. *)
Theorem X16_short_selection_raises (fs : Ensemble.Artifacts)
    (ml_models : Ensemble.Registry) (code : list Z) (features : list R)
    (sc : list R -> list R) (home_of away_of : Ensemble.Entry -> list R -> R)
    (t : Ensemble.Trace) :
  (List.length code < List.length ml_models)%nat ->
  fs Ensemble.scaler_path = Ok (Ensemble.Scaler sc) ->
  Ensemble.loadable fs home_of away_of (Ensemble.selected ml_models code) ->
  Ensemble.make_prediction fs ml_models code features t
  = (Raise (IndexError "list index out of range"),
     t ++ Ensemble.inference_trace features (sc features)
            (Ensemble.selected ml_models code)).
Proof.
  intros Hl Hsc Hs.
  unfold Ensemble.make_prediction, bind at 1.
  unfold Ensemble.run_prediction, bind at 1.
  unfold Ensemble.joblib_load, lift. rewrite Hsc.
  cbv beta iota delta [bind Ensemble.emit ret Ensemble.transform].
  rewrite (@run_models_short fs home_of away_of code (sc features)
             ml_models [] code [] [] _ eq_refl Hl Hs).
  unfold Ensemble.inference_trace. cbn [app]. rewrite <- !app_assoc.
  reflexivity.
Qed.

Lemma X16_short_selection_raises_witness :
  Ensemble.make_prediction Examples.two_models Examples.registry
    [0; 1] Examples.features []
  = (Raise (IndexError "list index out of range"),
     Ensemble.inference_trace Examples.features
       (map (fun x => (x / 2)%R) Examples.features)
       (Ensemble.selected Examples.registry [0; 1])).
Proof.
  apply (@X16_short_selection_raises Examples.two_models Examples.registry
           [0; 1] Examples.features (map (fun x => (x / 2)%R))
           Examples.home_answer Examples.away_answer []).
  - cbn. lia.
  - reflexivity.
  - repeat constructor.
Defined.

(** X17: flags beyond the registry are never read: a selection that is at
    least as long as the registry predicts what its first
    [len(ml_models)] flags predict. *)
Theorem X17_surplus_flags_ignored (fs : Ensemble.Artifacts)
    (ml_models : Ensemble.Registry) (code : list Z) (features : list R)
    (t : Ensemble.Trace) :
  Ensemble.make_prediction fs ml_models code features t
  = Ensemble.make_prediction fs ml_models
      (firstn (List.length ml_models) code) features t.
Proof.
  unfold Ensemble.make_prediction. 
  assert (E : Ensemble.run_prediction fs ml_models code features t
              = Ensemble.run_prediction fs ml_models
                  (firstn (List.length ml_models) code) features t).
  { unfold Ensemble.run_prediction.
    repeat (apply bind_ext; intros).
    apply run_models_agree. intros j Hj. cbn in Hj.
    rewrite nth_error_firstn.
    now replace (j <? List.length ml_models)%nat with true
      by (symmetry; now apply Nat.ltb_lt). }
  unfold bind. now rewrite E.
Qed.

(** ** Prediction pipeline *)

Section KeyFacts.
Import Pipeline.

Lemma string_app_assoc (a b c : string) :
  ((a ++ b) ++ c)%string = (a ++ (b ++ c))%string.
Proof. induction a as [|x a IH]; cbn; [reflexivity | now rewrite IH]. Qed.

Lemma code_str_from (code : list Z) (acc : string) :
  fold_left (fun acc value => (acc ++ str_int value)%string) code acc
  = (acc ++ code_str code)%string.
Proof.
  unfold code_str. revert acc.
  induction code as [|c code IH]; intros acc; cbn [fold_left].
  - induction acc as [|x acc IHa]; cbn; [reflexivity | now rewrite <- IHa].
  - rewrite IH, (IH (EmptyString ++ str_int c)%string). cbn [append].
    now rewrite string_app_assoc.
Qed.

Lemma code_str_cons (c : Z) (code : list Z) :
  code_str (c :: code) = (str_int c ++ code_str code)%string.
Proof. unfold code_str at 1. cbn [fold_left]. apply code_str_from. Qed.

End KeyFacts.

(** X18: the storage key separates selections: two lists of 0/1 flags with
    the same key are the same list.  For other integers the key is
    ambiguous: [[10]] and [[1, 0]] share the key "10". *)
Theorem X18_storage_key_separates_flags :
  (forall code code',
      Selection.flags code -> Selection.flags code' ->
      Pipeline.code_str code = Pipeline.code_str code' -> code = code')
  /\ Pipeline.code_str [10] = Pipeline.code_str [1; 0].
Proof.
  split; [|reflexivity].
  induction code as [|c code IH]; intros code' F F' E.
  - destruct code' as [|c' code']; [reflexivity|].
    rewrite code_str_cons in E. inversion F' as [|? ? [->| ->] _]; subst;
      discriminate.
  - destruct code' as [|c' code'].
    + rewrite code_str_cons in E. inversion F as [|? ? [->| ->] _]; subst;
        discriminate.
    + rewrite !code_str_cons in E.
      inversion F as [|? ? Hc Fc]; inversion F' as [|? ? Hc' Fc']; subst.
      destruct Hc as [-> | ->], Hc' as [-> | ->]; cbn in E;
        try discriminate; injection E as E; f_equal; now apply IH.
Qed.

Lemma X18_storage_key_separates_flags_witness :
  Pipeline.code_str [1; 0; 1; 0] = "1010"
  /\ ([1; 0; 1; 0] = [1; 0; 1; 0] :> list Z).
Proof.
  split; [reflexivity|].
  apply (proj1 X18_storage_key_separates_flags).
  - unfold Selection.flags.
    repeat (apply Forall_cons;
            [first [left; reflexivity | right; reflexivity]|]).
    apply Forall_nil.
  - unfold Selection.flags.
    repeat (apply Forall_cons;
            [first [left; reflexivity | right; reflexivity]|]).
    apply Forall_nil.
  - reflexivity.
Defined.

Section PipelineStoreFacts.
Import Api Pipeline.
Variable api : Client.
Variable calendar : Calendar.
Variable fs : Ensemble.Artifacts.
Variable ml_models : Ensemble.Registry.

(** The frame around an entry point keeps the world of its body, and
    answers True with exactly what the body computed. *)
Lemma boundary_world {S} (body : M (World S) payload) (w : World S) :
  snd (boundary body w) = snd (body w).
Proof.
  unfold boundary. destruct (body w) as [[d|e] w']; [reflexivity|].
  destruct e as [st ms| | | | | | | | | |]; try reflexivity.
  now destruct (st =? 429).
Qed.

Lemma boundary_true_iff {S} (body : M (World S) payload) (w : World S)
    (data : payload) :
  fst (boundary body w) = RetTuple true data <-> fst (body w) = Ok data.
Proof.
  unfold boundary. destruct (body w) as [[d|e] w']; cbn [fst].
  - split; intros H; injection H as ->; reflexivity.
  - destruct e as [st ms| | | | | | | | | |];
      try (split; intros H; discriminate).
    destruct (st =? 429); split; intros H; discriminate.
Qed.

(** What one run of the body does to the SQLite store. *)
Lemma predict_scores_body_sqlite (home_id away_id match_id : Z)
    (code : list Z) (d : Store.Database) (t : Ensemble.Trace) :
  let out := predict_scores_body SQLite.storage api calendar fs ml_models
               home_id away_id match_id code (d, t) in
  fst (snd out) = d
  \/ exists p match_data,
       fst out = Ok (Predictions p)
       /\ get_match api match_id = Ok match_data
       /\ ~ In (match_id, code_str code) (StoreInvariant.keys d)
       /\ fst (snd out)
          = Store.append_row d match_id (code_str code) home_id
              (shortName (homeTeam match_data))
              (Ensemble.Expected_Home_Goals p) away_id
              (shortName (awayTeam match_data))
              (Ensemble.Expected_Away_Goals p)
              (Ensemble.P_HomeWin p) (Ensemble.P_Draw p)
              (Ensemble.P_AwayWin p).
Proof.
  cbv zeta. unfold predict_scores_body.
  cbv beta iota delta [bind lift on_store on_trace ret fst snd
                         Store.get_elo Store.insert_prediction SQLite.storage].
  destruct (get_match api match_id) as [md|e]; [|now left].
  rewrite !sqlite_get_elo_eq.
  destruct (get_team_matches api home_id _ _ 5) as [hd|e]; [|now left].
  destruct (get_team_matches api away_id _ _ 5) as [ad|e]; [|now left].
  destruct (FeatureExtractor.calculate_last5_stats home_id hd) as [hs|e];
    [|now left].
  destruct (FeatureExtractor.calculate_last5_stats away_id ad) as [ast|e];
    [|now left].
  destruct (Ensemble.make_prediction fs ml_models code _ t) as [[p|e] t'];
    [|now left].
  destruct (Store.key_exists match_id (code_str code) d) eqn:K.
  - rewrite sqlite_insert_known by exact K. now left.
  - destruct (SQLite.null_column (Ensemble.Expected_Home_Goals p)
                (Ensemble.Expected_Away_Goals p) (Ensemble.P_HomeWin p)
                (Ensemble.P_Draw p) (Ensemble.P_AwayWin p)) eqn:V.
    + rewrite sqlite_insert_nan; [now left|].
      intros V'. apply null_column_none in V'. congruence.
    + apply null_column_none in V.
      rewrite sqlite_insert_new by assumption. right.
      exists p, md. repeat split. now apply key_exists_not_In.
Qed.

End PipelineStoreFacts.

(** X19: one call of [predict_scores] on the SQLite store either leaves the
    store exactly as it was, or it answers [(True, predictions)] and has
    appended a single row: under a key that was not stored, with the
    predicted values and both real scores at -1.  No stored row is changed
    or removed, whatever the provider, the artifacts or the selection do. *)
Theorem X19_pipeline_only_appends (api : Api.Client) (calendar : Api.Calendar)
    (fs : Ensemble.Artifacts) (ml_models : Ensemble.Registry)
    (home_id away_id match_id : Z) (code : list Z)
    (d : Store.Database) (t : Ensemble.Trace) :
  let out := Pipeline.predict_scores SQLite.storage api calendar fs ml_models
               home_id away_id match_id code (d, t) in
  fst (snd out) = d
  \/ exists p home_name away_name,
       fst out = Pipeline.RetTuple true (Pipeline.Predictions p)
       /\ ~ In (match_id, Pipeline.code_str code) (StoreInvariant.keys d)
       /\ Store.predictions (fst (snd out))
          = Store.predictions d
            ++ [Store.mkRow (Store.predictions_seq d + 1) match_id
                  (Pipeline.code_str code) home_id home_name
                  (Ensemble.Expected_Home_Goals p) away_id away_name
                  (Ensemble.Expected_Away_Goals p)
                  (Ensemble.P_HomeWin p) (Ensemble.P_Draw p)
                  (Ensemble.P_AwayWin p) (-1) (-1)]
       /\ Store.eloScores (fst (snd out)) = Store.eloScores d.
Proof.
  cbv zeta. unfold Pipeline.predict_scores. rewrite boundary_world.
  destruct (predict_scores_body_sqlite api calendar fs ml_models
              home_id away_id match_id code d t)
    as [H|(p & md & R & _ & N & H)]; [now left|].
  right. exists p, (Api.shortName (Api.homeTeam md)),
           (Api.shortName (Api.awayTeam md)).
  split; [now apply boundary_true_iff|].
  split; [exact N|]. rewrite H. split; reflexivity.
Qed.



Section FetchMatchesFacts.
Import Api Pipeline.
Variable S : Type.
Variable http_get : string -> result bytes.

Lemma mapM_fetch_card_fields (ms : list Match) (w w' : World S)
    (cards : list MatchCard) :
  mapM (fetch_card (S := S) http_get) ms w = (Ok cards, w') ->
  map card_id cards = map id ms
  /\ map date cards = map utcDate ms
  /\ map card_home_name cards = map (fun m => shortName (homeTeam m)) ms
  /\ map card_away_name cards = map (fun m => shortName (awayTeam m)) ms.
Proof.
  revert cards w w'. induction ms as [|m ms IH]; intros cards w w' H;
    cbn [mapM] in H.
  - unfold ret in H. injection H as <- _. repeat split.
  - unfold bind at 1 in H. unfold fetch_card at 1, bind, lift, ret in H.
    destruct (http_get (crest (homeTeam m))) as [h|e]; [|discriminate].
    destruct (http_get (crest (awayTeam m))) as [a|e]; [|discriminate].
    destruct (mapM (fetch_card http_get) ms w) as [[cs|e] w1] eqn:E;
      [|discriminate].
    injection H as <- _.
    destruct (IH cs w w1 E) as (I1 & I2 & I3 & I4).
    cbn [map card_id date card_home_name card_away_name].
    now rewrite I1, I2, I3, I4.
Qed.

(** One match with a download that fails, and no second error. *)
Lemma fetch_card_fails (m : Match) (e : exn) (w : World S) :
  http_get (crest (homeTeam m)) = Raise e
  \/ http_get (crest (awayTeam m)) = Raise e ->
  (forall e', http_get (crest (homeTeam m)) = Raise e' -> e' = e) ->
  (forall e', http_get (crest (awayTeam m)) = Raise e' -> e' = e) ->
  fetch_card http_get m w = (Raise e, w).
Proof.
  intros H Eh Ea. unfold fetch_card, bind, lift, ret.
  destruct (http_get (crest (homeTeam m))) as [h|eh].
  - destruct (http_get (crest (awayTeam m))) as [a|ea].
    + destruct H; discriminate.
    + now rewrite (Ea ea eq_refl).
  - now rewrite (Eh eh eq_refl).
Qed.

(** The awaits stop at the first match with an emblem that cannot be
    fetched. *)
Lemma mapM_fetch_card_fails (before after : list Match) (m : Match)
    (e : exn) (w : World S) :
  Forall (fun m => exists h a,
            http_get (crest (homeTeam m)) = Ok h
            /\ http_get (crest (awayTeam m)) = Ok a) before ->
  fetch_card http_get m w = (Raise e, w) ->
  mapM (fetch_card (S := S) http_get) (before ++ m :: after) w = (Raise e, w).
Proof.
  intros F H. induction F as [|m0 before (h & a & Hh & Ha) _ IH];
    cbn [app mapM]; unfold bind at 1.
  - now rewrite H.
  - unfold fetch_card at 1, bind, lift, ret.
    rewrite Hh, Ha. unfold bind. now rewrite IH.
Qed.

End FetchMatchesFacts.

(** X21: when the provider answers and every emblem can be fetched,
    [fetch_matches] hands back the first 20 of the provider's matches, in
    the provider's order, each with its own id, date and team names. *)
Theorem X21_fetch_matches_keeps_first_20 (S : Type)
    (api : Api.Client) (http_get : string -> result Pipeline.bytes)
    (calendar : Api.Calendar) (team_code : Z) (w : Pipeline.World S)
    (ms : list Api.Match) :
  Api.get_team_matches api team_code (Api.current_date_str calendar)
    (Api.six_months_after_str calendar) 50 = Ok ms ->
  Forall (fun m => exists h a,
            http_get (Api.crest (Api.homeTeam m)) = Ok h
            /\ http_get (Api.crest (Api.awayTeam m)) = Ok a) ms ->
  exists l,
    Pipeline.fetch_matches api http_get calendar team_code w
    = (Pipeline.RetTuple true (Pipeline.Matches l), w)
    /\ map Pipeline.card_id l = firstn 20 (map Api.id ms)
    /\ map Pipeline.date l = firstn 20 (map Api.utcDate ms)
    /\ map Pipeline.card_home_name l
       = firstn 20 (map (fun m => Api.shortName (Api.homeTeam m)) ms)
    /\ map Pipeline.card_away_name l
       = firstn 20 (map (fun m => Api.shortName (Api.awayTeam m)) ms).
Proof.
  intros G F.
  destruct (@mapM_fetch_card_ok S http_get ms w F) as (cards & E).
  exists (firstn 20 cards). split.
  - apply boundary_ok.
    unfold Pipeline.fetch_matches_body, bind, lift. now rewrite G, E.
  - destruct (@mapM_fetch_card_fields S http_get ms w w cards E)
      as (I1 & I2 & I3 & I4).
    rewrite <- I1, <- I2, <- I3, <- I4, <- !firstn_map. repeat split.
Qed.

Lemma X21_fetch_matches_keeps_first_20_witness :
  exists l,
    Pipeline.fetch_matches Examples.api_last_crestless Examples.http_ok
      Examples.calendar 57 (tt, [])
    = (Pipeline.RetTuple true (Pipeline.Matches l), (tt, []))
    /\ map Pipeline.card_id l = repeat 1001 20.
Proof.
  destruct (@X21_fetch_matches_keeps_first_20 unit
              Examples.api_last_crestless Examples.http_ok Examples.calendar
              57 (tt, []) (repeat Examples.won_at_home 24
                             ++ [Examples.last_fixture]) eq_refl)
    as (l & E & I & _).
  - apply Forall_forall. intros m _. exists [], []. split; reflexivity.
  - exists l. split; [exact E | exact I].
Defined.

(** X22: the call is all or nothing, and the emblems of all of the
    provider's matches count, not only those of the 20 that would be handed
    back: if, after matches whose emblems are all fetched, a match has an
    emblem that cannot be fetched with the error [e], for a reason other
    than an HTTP status (and its other emblem is fetched, or fails with the
    same error), the call answers [(False, [str(e)])]. *)
Theorem X22_fetch_matches_all_or_nothing (S : Type)
    (api : Api.Client) (http_get : string -> result Pipeline.bytes)
    (calendar : Api.Calendar) (team_code : Z) (w : Pipeline.World S)
    (before after : list Api.Match) (m : Api.Match) (e : exn) :
  Api.get_team_matches api team_code (Api.current_date_str calendar)
    (Api.six_months_after_str calendar) 50 = Ok (before ++ m :: after) ->
  Forall (fun m => exists h a,
            http_get (Api.crest (Api.homeTeam m)) = Ok h
            /\ http_get (Api.crest (Api.awayTeam m)) = Ok a) before ->
  http_get (Api.crest (Api.homeTeam m)) = Raise e
  \/ http_get (Api.crest (Api.awayTeam m)) = Raise e ->
  (forall e', http_get (Api.crest (Api.homeTeam m)) = Raise e' -> e' = e) ->
  (forall e', http_get (Api.crest (Api.awayTeam m)) = Raise e' -> e' = e) ->
  (forall status msg, e <> ClientResponseError status msg) ->
  Pipeline.fetch_matches api http_get calendar team_code w
  = (Pipeline.RetTuple false (Pipeline.Messages [str e]), w).
Proof.
  intros G F H Eh Ea N. unfold Pipeline.fetch_matches.
  apply boundary_generic; [|exact N].
  unfold Pipeline.fetch_matches_body, bind at 1, lift. rewrite G.
  unfold bind.
  rewrite (@mapM_fetch_card_fails S http_get before after m e w F);
    [reflexivity|].
  now apply fetch_card_fails.
Qed.

Lemma X22_fetch_matches_all_or_nothing_witness :
  Pipeline.fetch_matches Examples.api_last_crestless Examples.http_missing
    Examples.calendar 57 (tt, [])
  = (Pipeline.RetTuple false
       (Pipeline.Messages ["Cannot connect to host crests:443"]), (tt, [])).
Proof.
  apply (@X22_fetch_matches_all_or_nothing unit Examples.api_last_crestless
           Examples.http_missing Examples.calendar 57 (tt, [])
           (repeat Examples.won_at_home 24) [] Examples.last_fixture
           (Exception "Cannot connect to host crests:443")).
  - reflexivity.
  - apply Forall_forall. intros m I. apply repeat_spec in I. subst m.
    exists [], []. split; reflexivity.
  - left. reflexivity.
  - intros e' H. now injection H as <-.
  - intros e' H. discriminate H.
  - discriminate.
Defined.

(** ** Score backfill job *)

Section BackfillFacts.
Import Store Backfill.
Local Open Scope R_scope.
Variable provider : Provider.

Lemma backfill_step_ok (m : Z) (response : Response) (d : Database)
    (log : list event) :
  provider m = Ok response -> readable response ->
  backfill_step provider m (d, log)
  = (Ok tt, ((db_step provider) d m, log ++ [Requested m; Slept (12 / 10)])).
Proof.
  intros H R. unfold backfill_step, fetch_match_data, db_step, known_scores.
  cbv beta iota delta [bind lift emit ret raise fst snd]. rewrite H.
  destruct (Z.eqb_spec (status_code response) 200) as [E|N].
  - destruct R as [R|[(key & R)|(home & away & R & I)]]; [contradiction| |];
      rewrite R.
    + cbv beta iota delta [ret]. now rewrite <- app_assoc.
    + destruct home as [h|], away as [a|];
        try (cbv beta iota delta [ret]; now rewrite <- app_assoc).
      destruct (I h a eq_refl eq_refl) as (Ih & Ia).
      unfold execute_update_pending, SQLite.bind_int.
      cbv beta iota delta [bind lift ret fst snd]. rewrite Ih, Ia.
      cbv beta iota delta [fst snd]. now rewrite <- app_assoc.
  - cbv beta iota delta [ret]. now rewrite <- app_assoc.
Qed.

(** A 200 answer that is no JSON document, or has a null where an object
    is expected, ends the turn with the exception, after the request and
    before any row is touched or any sleep. *)
Lemma backfill_step_unreadable (m : Z) (response : Response) (d : Database)
    (log : list event) (e : exn) :
  provider m = Ok response -> status_code response = 200%Z ->
  (exists msg, body response = NotJson msg /\ e = JSONDecodeError msg)
  \/ (exists msg, body response = NotSubscriptable msg /\ e = TypeError msg) ->
  backfill_step provider m (d, log) = (Raise e, (d, log ++ [Requested m])).
Proof.
  intros H E R. unfold backfill_step, fetch_match_data.
  cbv beta iota delta [bind lift emit ret raise fst snd]. rewrite H, E.
  cbn [Z.eqb Pos.eqb].
  destruct R as [(msg & -> & ->)|(msg & -> & ->)]; reflexivity.
Qed.

Lemma backfill_loop_ok (ids : list Z) :
  forall (d : Database) (log : list event),
    Forall (fun m => exists response,
              provider m = Ok response /\ readable response) ids ->
    backfill_loop provider ids (d, log)
    = (Ok tt,
       (fold_left (db_step provider) ids d,
        log ++ flat_map (fun m => [Requested m; Slept (12 / 10)]) ids)).
Proof.
  induction ids as [|m ids IH]; intros d log F.
  - cbn. unfold ret. now rewrite app_nil_r.
  - apply Forall_cons_iff in F. destruct F as ((response & H & R) & F).
    cbn [backfill_loop fold_left flat_map]. unfold bind.
    rewrite (backfill_step_ok d log H R), IH by exact F.
    now rewrite <- app_assoc.
Qed.

Lemma predictions_db_step (d : Database) (m : Z) :
  predictions ((db_step provider) d m) = map (fun r => (row_step provider) r m) (predictions d)
  /\ predictions_seq ((db_step provider) d m) = predictions_seq d
  /\ eloScores ((db_step provider) d m) = eloScores d.
Proof.
  unfold db_step, row_step. destruct (known_scores provider m) as [[h a]|].
  - repeat split.
  - repeat split. now rewrite map_id.
Qed.

Lemma predictions_fold_db_step (ids : list Z) :
  forall d,
    predictions (fold_left (db_step provider) ids d)
    = map (fun r => fold_left (row_step provider) ids r) (predictions d)
    /\ predictions_seq (fold_left (db_step provider) ids d) = predictions_seq d
    /\ eloScores (fold_left (db_step provider) ids d) = eloScores d.
Proof.
  induction ids as [|m ids IH]; intros d; cbn [fold_left].
  - repeat split. now rewrite map_id.
  - destruct (IH ((db_step provider) d m)) as (P & Q & E).
    destruct (predictions_db_step d m) as (P' & Q' & E').
    rewrite P, Q, E, P', Q', E', map_map. repeat split.
Qed.

Lemma row_step_kept (r : PredictionRow) (ids : list Z) :
  (forall m, In m ids -> (row_step provider) r m = r) -> fold_left (row_step provider) ids r = r.
Proof.
  induction ids as [|m ids IH]; intros H; cbn [fold_left]; [reflexivity|].
  rewrite (H m) by now left. apply IH. intros m' I. apply H. now right.
Qed.

Lemma row_step_settled (r : PredictionRow) (home away : Z) (ids : list Z) :
  known_scores provider (match_id r) = Some (home, away) ->
  fold_left (row_step provider) ids (set_scores home away r) = set_scores home away r.
Proof.
  intros K. apply row_step_kept. intros m _. unfold row_step.
  destruct (known_scores provider m) as [[h a]|] eqn:Km; [|reflexivity].
  cbn [match_id set_scores].
  destruct (Z.eqb_spec (match_id r) m) as [E|N]; [|reflexivity].
  rewrite <- E, K in Km. injection Km as <- <-.
  now destruct (is_sentinel (set_scores home away r)).
Qed.

Lemma fold_row_step (r : PredictionRow) (ids : list Z) :
  (is_sentinel r = true -> In (match_id r) ids) ->
  fold_left (row_step provider) ids r = settle provider r.
Proof.
  unfold settle. destruct (is_sentinel r) eqn:Sr.
  - destruct (known_scores provider (match_id r)) as [[h a]|] eqn:K.
    + intros I. specialize (I eq_refl).
      induction ids as [|m ids IH]; [destruct I|]. cbn [fold_left].
      unfold row_step at 2.
      destruct (Z.eqb_spec (match_id r) m) as [E|N].
      * rewrite <- E, K, Sr. cbn [andb].
        now apply row_step_settled.
      * destruct (known_scores provider m) as [[h' a']|]; cbn [andb];
          apply IH; (destruct I as [I|I]; [congruence | exact I]).
    + intros _. apply row_step_kept. intros m _. unfold row_step.
      destruct (known_scores provider m) as [[h a]|] eqn:Km; [|reflexivity].
      destruct (Z.eqb_spec (match_id r) m) as [E|N]; [|reflexivity].
      rewrite E in K. congruence.
  - intros _. apply row_step_kept. intros m _. unfold row_step.
    destruct (known_scores provider m) as [[h a]|]; [|reflexivity].
    rewrite Sr. now rewrite andb_false_r.
Qed.

Lemma filled_or_kept_refl (rows : list PredictionRow) :
  Forall2 filled_or_kept rows rows.
Proof. induction rows; constructor; [now left | assumption]. Qed.

Lemma filled_or_kept_trans (r r1 r2 : PredictionRow) :
  filled_or_kept r r1 -> filled_or_kept r1 r2 -> filled_or_kept r r2.
Proof.
  intros [->|(S1 & h & a & H1)] [->|(S2 & h' & a' & H2)].
  - now left.
  - right. split; [exact S2|]. now exists h', a'.
  - right. split; [exact S1|]. now exists h, a.
  - right. split; [exact S1|]. exists h', a'.
    unfold scores_set in *. intuition congruence.
Qed.

Lemma Forall2_filled_or_kept_trans (l l1 l2 : list PredictionRow) :
  Forall2 filled_or_kept l l1 -> Forall2 filled_or_kept l1 l2 ->
  Forall2 filled_or_kept l l2.
Proof.
  intros H. revert l2. induction H as [|r r1 l l1 Hr _ IH]; intros l2 H2.
  - inversion H2. constructor.
  - inversion H2 as [|? r2 ? l2' Hr2 Hl2]; subst. constructor.
    + eapply filled_or_kept_trans; eassumption.
    + now apply IH.
Qed.

Lemma update_pending_filled (m home away : Z) (d : Database) :
  Forall2 filled_or_kept (predictions d)
    (predictions (update_pending m home away d)).
Proof.
  unfold update_pending; cbn [predictions].
  induction (predictions d) as [|r rows IH]; cbn [map]; constructor;
    [|exact IH].
  destruct (match_id r =? m)%Z; cbn [andb]; [|now left].
  destruct (is_sentinel r) eqn:Sr; [|now left].
  right. split; [exact Sr|]. exists home, away. apply set_scores_spec.
Qed.

(** A turn of the loop fills rows in or keeps them, even when it fails. *)
Lemma backfill_step_safe (m : Z) (w : World) :
  Forall2 filled_or_kept (predictions (fst w))
    (predictions (fst (snd (backfill_step provider m w))))
  /\ predictions_seq (fst (snd (backfill_step provider m w)))
     = predictions_seq (fst w)
  /\ eloScores (fst (snd (backfill_step provider m w))) = eloScores (fst w).
Proof.
  unfold backfill_step, fetch_match_data.
  cbv beta iota delta [bind lift emit ret raise fst snd].
  destruct w as [d log].
  destruct (provider m) as [response|e];
    [|split; [apply filled_or_kept_refl | split; reflexivity]].
  destruct (status_code response =? 200)%Z;
    [|split; [apply filled_or_kept_refl | split; reflexivity]].
  destruct (body response) as [msg|msg|key|[h|] [a|]];
    cbv beta iota delta [ret fst snd];
    try (split; [apply filled_or_kept_refl | split; reflexivity]).
  unfold execute_update_pending, SQLite.bind_int.
  cbv beta iota delta [bind lift ret fst snd].
  destruct (int64 h);
    [|split; [apply filled_or_kept_refl | split; reflexivity]].
  destruct (int64 a);
    [|split; [apply filled_or_kept_refl | split; reflexivity]].
  split; [apply update_pending_filled | split; reflexivity].
Qed.

Lemma backfill_loop_safe (ids : list Z) :
  forall w : World,
    Forall2 filled_or_kept (predictions (fst w))
      (predictions (fst (snd (backfill_loop provider ids w))))
    /\ predictions_seq (fst (snd (backfill_loop provider ids w)))
       = predictions_seq (fst w)
    /\ eloScores (fst (snd (backfill_loop provider ids w)))
       = eloScores (fst w).
Proof.
  induction ids as [|m ids IH]; intros w.
  - cbn. split; [apply filled_or_kept_refl | split; reflexivity].
  - cbn [backfill_loop]. unfold bind.
    pose proof (backfill_step_safe m w) as (S1 & Q1 & E1).
    destruct (backfill_step provider m w) as [[[]|e] w1];
      cbn [fst snd] in *.
    + destruct (IH w1) as (S2 & Q2 & E2).
      split; [eapply Forall2_filled_or_kept_trans; eassumption|].
      split; congruence.
    + split; [exact S1 | split; assumption].
Qed.

End BackfillFacts.

(** X23: when the provider answers every request with something the job
    can read (a status other than 200, or a JSON document in which the
    subscripts meet objects, with scores that fit 64-bit integers), the
    backfill job runs to its end having asked once per pending row and slept
    1.2 seconds after each request; every row whose two scores were unknown
    and whose match the provider knows both scores of now carries them, and
    every other row is as it was.  A 200 answer to the first request that
    is no JSON document, or in which [score] or [fullTime] is null, stops
    the job with that exception ([JSONDecodeError], [TypeError]) after the
    one request, with no row changed. *)
Theorem X23_backfill_settles_pending (provider : Backfill.Provider)
    (d : Store.Database) (log : list Backfill.event) :
  (Forall (fun m => exists response,
             provider m = Ok response /\ Backfill.readable response)
          (Backfill.select_pending d) ->
   exists d',
     Backfill.update_scores_in_db provider (d, log)
     = (Ok tt,
        (d', log ++ flat_map (fun m => [Backfill.Requested m;
                                        Backfill.Slept (12 / 10)%R])
                      (Backfill.select_pending d)))
     /\ Store.predictions d'
        = map (Backfill.settle provider) (Store.predictions d)
     /\ Store.eloScores d' = Store.eloScores d)
  /\ (forall m rest response e,
        Backfill.select_pending d = m :: rest ->
        provider m = Ok response ->
        Backfill.status_code response = 200 ->
        (exists msg, Backfill.body response = Backfill.NotJson msg
                     /\ e = JSONDecodeError msg)
        \/ (exists msg, Backfill.body response = Backfill.NotSubscriptable msg
                        /\ e = TypeError msg) ->
        Backfill.update_scores_in_db provider (d, log)
        = (Raise e, (d, log ++ [Backfill.Requested m]))).
Proof.
  split.
  - intros F. exists (fold_left (Backfill.db_step provider)
                        (Backfill.select_pending d) d).
    split; [|split].
    + unfold Backfill.update_scores_in_db. cbn [fst].
      now apply backfill_loop_ok.
    + destruct (predictions_fold_db_step provider
                  (Backfill.select_pending d) d) as (P & _).
      rewrite P. apply map_ext_in. intros r I.
      apply fold_row_step. intros Sr. unfold Backfill.select_pending.
      apply in_map. apply filter_In. now split.
    + now destruct (predictions_fold_db_step provider
                      (Backfill.select_pending d) d) as (_ & _ & E).
  - intros m rest response e P H E R.
    unfold Backfill.update_scores_in_db. cbn [fst]. rewrite P.
    cbn [Backfill.backfill_loop]. unfold bind.
    now rewrite (backfill_step_unreadable provider m d log H E R).
Qed.

Lemma X23_backfill_settles_pending_witness :
  (exists d',
     Backfill.update_scores_in_db Examples.results_provider
       (Examples.half_settled, [])
     = (Ok tt,
        (d', [Backfill.Requested 1001; Backfill.Slept (12 / 10)%R;
              Backfill.Requested 1002; Backfill.Slept (12 / 10)%R]))
     /\ map (fun r => (Store.real_home_score r, Store.real_away_score r))
            (Store.predictions d')
        = [(5, 5); (2, 1); (-1, -1)])
  /\ Backfill.update_scores_in_db Examples.scoreless_provider
       (Examples.half_settled, [])
     = (Raise (TypeError "'NoneType' object is not subscriptable"),
        (Examples.half_settled, [Backfill.Requested 1001])).
Proof.
  split.
  - destruct (@X23_backfill_settles_pending Examples.results_provider
                Examples.half_settled []) as (S & _).
    destruct S as (d' & E & P & _).
    + constructor.
      { eexists. split; [reflexivity|]. right. right.
        exists (Some 2), (Some 1). split; [reflexivity|].
        intros h a Hh Ha. injection Hh as <-. injection Ha as <-.
        split; reflexivity. }
      constructor; [|constructor].
      eexists. split; [reflexivity|]. right. right.
      exists None, None. split; [reflexivity|]. intros h a Hh. discriminate Hh.
    + exists d'. split; [exact E|]. rewrite P. reflexivity.
  - destruct (@X23_backfill_settles_pending Examples.scoreless_provider
                Examples.half_settled []) as (_ & U).
    apply (U 1001 [1002]
             (Backfill.mkResponse 200
                (Backfill.NotSubscriptable
                   "'NoneType' object is not subscriptable"))).
    + reflexivity.
    + reflexivity.
    + reflexivity.
    + right. eexists. split; reflexivity.
Defined.

(** X24: whatever the provider does, also when a request raises and the job
    stops half way, each stored row is afterwards either exactly as before
    or a row whose two scores were both unknown and have been filled in,
    with no other column touched; a row that already had a score is never
    overwritten, and no row is added or removed. *)
Theorem X24_backfill_never_overwrites (provider : Backfill.Provider)
    (d : Store.Database) (log : list Backfill.event) :
  let d' := fst (snd (Backfill.update_scores_in_db provider (d, log))) in
  Forall2 Backfill.filled_or_kept (Store.predictions d) (Store.predictions d')
  /\ (forall r, In r (Store.predictions d) ->
                Backfill.is_sentinel r = false ->
                In r (Store.predictions d'))
  /\ List.length (Store.predictions d') = List.length (Store.predictions d)
  /\ Store.eloScores d' = Store.eloScores d.
Proof.
  cbv zeta. unfold Backfill.update_scores_in_db. cbn [fst].
  destruct (backfill_loop_safe provider (Backfill.select_pending d) (d, log))
    as (F & _ & E). cbn [fst] in F, E.
  split; [exact F|]. split; [|split; [|exact E]].
  - intros r I Sr.
    induction F as [|r0 r1 l l1 [->|(S0 & _)] _ IH].
    + destruct I.
    + destruct I as [<-|I]; [now left | right; now apply IH].
    + destruct I as [<-|I]; [congruence | right; now apply IH].
  - symmetry. eapply Forall2_length. exact F.
Qed.

(** ** Leagues, teams and stored predictions *)

Section HubFacts.
Import Api Hub.
Variable http_get : string -> result Pipeline.bytes.

Lemma traverse_ok {A B} (f : A -> result B) (xs : list A) :
  Forall (fun x => exists y, f x = Ok y) xs ->
  exists ys, traverse f xs = Ok ys.
Proof.
  induction 1 as [|x xs (y & Hy) _ (ys & IH)]; cbn.
  - now exists [].
  - rewrite Hy, IH. cbn. now eexists.
Qed.

Lemma traverse_league_card (ls : list League) (cards : list LeagueCard) :
  traverse (league_card http_get) ls = Ok cards ->
  map lc_code cards = map league_code ls
  /\ map lc_id cards = map league_id ls
  /\ map lc_name cards = map league_name ls.
Proof.
  revert cards. induction ls as [|l ls IH]; intros cards H; cbn in H.
  - injection H as <-. repeat split.
  - unfold league_card at 1 in H.
    destruct (http_get (league_emblem l)) as [b|e]; [|discriminate].
    cbn [rbind] in H.
    destruct (traverse (league_card http_get) ls) as [cs|e]; [|discriminate].
    cbn [rbind] in H. injection H as <-.
    destruct (IH cs eq_refl) as (I1 & I2 & I3).
    cbn [map lc_code lc_id lc_name]. now rewrite I1, I2, I3.
Qed.

Lemma traverse_team_card (ts : list Team) (cards : list TeamCard) :
  traverse (team_card http_get) ts = Ok cards ->
  map tc_id cards = map team_id ts /\ map tc_name cards = map shortName ts.
Proof.
  revert cards. induction ts as [|t ts IH]; intros cards H; cbn in H.
  - injection H as <-. repeat split.
  - unfold team_card at 1 in H.
    destruct (http_get (crest t)) as [b|e]; [|discriminate].
    cbn [rbind] in H.
    destruct (traverse (team_card http_get) ts) as [cs|e]; [|discriminate].
    cbn [rbind] in H. injection H as <-.
    destruct (IH cs eq_refl) as (I1 & I2).
    cbn [map tc_id tc_name]. now rewrite I1, I2.
Qed.

Lemma wanted_In (leagues : list string) (l : League) :
  wanted leagues l = true <-> In (league_code l) leagues.
Proof.
  unfold wanted. rewrite existsb_exists. split.
  - intros (c & I & E). apply String.eqb_eq in E. now rewrite E.
  - intros I. exists (league_code l). split; [exact I | apply String.eqb_refl].
Qed.

End HubFacts.

(** X25: [fetch_leagues] answers the provider's competitions whose code was
    added with [add_league], in the provider's order and with their ids and
    names; only the emblems of these leagues have to be fetched, so a
    league that was not added cannot make the call fail. *)
Theorem X25_fetch_leagues_filters (get_competitions : result (list Hub.League))
    (http_get : string -> result Pipeline.bytes)
    (leagues : list string) (competitions : list Hub.League) :
  get_competitions = Ok competitions ->
  Forall (fun l => exists image_bytes,
            http_get (Hub.league_emblem l) = Ok image_bytes)
         (filter (Hub.wanted leagues) competitions) ->
  exists cards,
    Hub.fetch_leagues get_competitions http_get leagues = Hub.Success cards
    /\ map Hub.lc_code cards
       = filter (fun c => existsb (String.eqb c) leagues)
           (map Hub.league_code competitions)
    /\ map Hub.lc_id cards
       = map Hub.league_id (filter (Hub.wanted leagues) competitions)
    /\ map Hub.lc_name cards
       = map Hub.league_name (filter (Hub.wanted leagues) competitions)
    /\ Forall (fun c => In (Hub.lc_code c) leagues) cards.
Proof.
  intros G F.
  destruct (@traverse_ok _ _ (Hub.league_card http_get)
              (filter (Hub.wanted leagues) competitions)) as (cards & T).
  { apply Forall_forall. intros l I. rewrite Forall_forall in F.
    destruct (F l I) as (b & Hb). unfold Hub.league_card. rewrite Hb.
    cbn. now eexists. }
  exists cards. unfold Hub.fetch_leagues. rewrite G. cbn [rbind]. rewrite T.
  split; [reflexivity|].
  destruct (traverse_league_card _ _ T) as (I1 & I2 & I3).
  split; [|split; [exact I2 | split; [exact I3|]]].
  - rewrite I1. clear. induction competitions as [|l ls IH]; [reflexivity|].
    cbn [filter map]. unfold Hub.wanted at 1.
    destruct (existsb (String.eqb (Hub.league_code l)) leagues);
      cbn [map]; now rewrite IH.
  - apply Forall_forall. intros c I.
    assert (J : In (Hub.lc_code c) (map Hub.lc_code cards)) by now apply in_map.
    rewrite I1 in J. apply in_map_iff in J. destruct J as (l & E & J).
    apply filter_In in J. destruct J as (_ & W).
    apply wanted_In in W. now rewrite <- E.
Qed.

Lemma X25_fetch_leagues_filters_witness :
  exists cards,
    Hub.fetch_leagues (Ok Examples.competitions) Examples.http_missing
      (Hub.add_league (Hub.add_league [] "PL") "BL1")
    = Hub.Success cards
    /\ map Hub.lc_code cards = ["PL"; "BL1"].
Proof.
  destruct (@X25_fetch_leagues_filters (Ok Examples.competitions)
              Examples.http_missing
              (Hub.add_league (Hub.add_league [] "PL") "BL1")
              Examples.competitions eq_refl)
    as (cards & E & C & _).
  - repeat constructor; eexists; reflexivity.
  - exists cards. split; [exact E | exact C].
Defined.

(** X26: [fetch_teams] reads the first table of the standings only.  With
    no table at all it answers [(False, ["list index out of range"])]; with
    at least one, and every crest of the first table fetched, it answers the
    teams of the first table in table order, together with the name of the
    competition. *)
Theorem X26_fetch_teams_first_table (get_standings : string -> result Hub.Standings)
    (http_get : string -> result Pipeline.bytes) (league_code : string)
    (data : Hub.Standings) :
  get_standings league_code = Ok data ->
  (Hub.standings data = [] ->
   Hub.fetch_teams get_standings http_get league_code
   = Hub.Failure ["list index out of range"])
  /\ (forall table others,
        Hub.standings data = table :: others ->
        Forall (fun t => exists image_bytes,
                  http_get (Api.crest t) = Ok image_bytes) table ->
        exists teams,
          Hub.fetch_teams get_standings http_get league_code
          = Hub.Success (teams, Hub.standings_competition data)
          /\ map Hub.tc_id teams = map Api.team_id table
          /\ map Hub.tc_name teams = map Api.shortName table).
Proof.
  intros G. unfold Hub.fetch_teams, Hub.first_table. rewrite G. cbn [rbind].
  split.
  - intros ->. reflexivity.
  - intros table others -> F. cbn [rbind].
    destruct (@traverse_ok _ _ (Hub.team_card http_get) table) as (teams & T).
    { apply Forall_forall. intros t I. rewrite Forall_forall in F.
      destruct (F t I) as (b & Hb). unfold Hub.team_card. rewrite Hb.
      cbn. now eexists. }
    exists teams. rewrite T. split; [reflexivity|].
    now apply traverse_team_card in T.
Qed.

Lemma X26_fetch_teams_first_table_witness :
  (exists teams,
     Hub.fetch_teams (fun _ => Ok Examples.pl_standings) Examples.http_ok "PL"
     = Hub.Success (teams, "Premier League")
     /\ map Hub.tc_name teams = ["Arsenal"; "Chelsea"; "Everton"])
  /\ Hub.fetch_teams (fun _ => Ok (Hub.mkStandings [] "Premier League"))
       Examples.http_ok "PL"
     = Hub.Failure ["list index out of range"].
Proof.
  split.
  - destruct (@X26_fetch_teams_first_table (fun _ => Ok Examples.pl_standings)
                Examples.http_ok "PL" Examples.pl_standings eq_refl)
      as (_ & T).
    destruct (T [Examples.arsenal; Examples.chelsea; Examples.everton]
                [[Examples.chelsea; Examples.arsenal]; [Examples.everton]]
                eq_refl) as (teams & E & _ & N).
    + repeat constructor; eexists; reflexivity.
    + exists teams. split; [exact E | exact N].
  - apply (@X26_fetch_teams_first_table
             (fun _ => Ok (Hub.mkStandings [] "Premier League"))
             Examples.http_ok "PL" (Hub.mkStandings [] "Premier League")
             eq_refl).
    reflexivity.
Defined.

Section PipelineRoundTrip.
Import Api Pipeline.
Variable api : Client.
Variable calendar : Calendar.
Variable fs : Ensemble.Artifacts.
Variable ml_models : Ensemble.Registry.

(** What the SQLite store holds after a run of the body that answered. *)
Lemma predict_scores_body_sqlite_ok (home_id away_id match_id : Z)
    (code : list Z) (d d' : Store.Database) (t t' : Ensemble.Trace)
    (data : payload) :
  predict_scores_body SQLite.storage api calendar fs ml_models
    home_id away_id match_id code (d, t) = (Ok data, (d', t')) ->
  exists p match_data,
    data = Predictions p
    /\ get_match api match_id = Ok match_data
    /\ (Ensemble.no_nan p ->
        d' = if Store.key_exists match_id (code_str code) d then d
             else Store.append_row d match_id (code_str code) home_id
                    (shortName (homeTeam match_data))
                    (Ensemble.Expected_Home_Goals p) away_id
                    (shortName (awayTeam match_data))
                    (Ensemble.Expected_Away_Goals p)
                    (Ensemble.P_HomeWin p) (Ensemble.P_Draw p)
                    (Ensemble.P_AwayWin p))
    /\ (~ Ensemble.no_nan p -> d' = d).
Proof.
  unfold predict_scores_body.
  cbv beta iota delta [bind lift on_store on_trace ret fst snd
                         Store.get_elo Store.insert_prediction SQLite.storage].
  destruct (get_match api match_id) as [md|e]; [|discriminate].
  rewrite !sqlite_get_elo_eq.
  destruct (get_team_matches api home_id _ _ 5) as [hd|e]; [|discriminate].
  destruct (get_team_matches api away_id _ _ 5) as [ad|e]; [|discriminate].
  destruct (FeatureExtractor.calculate_last5_stats home_id hd) as [hs|e];
    [|discriminate].
  destruct (FeatureExtractor.calculate_last5_stats away_id ad) as [ast|e];
    [|discriminate].
  destruct (Ensemble.make_prediction fs ml_models code _ t) as [[p|e] t1];
    [|discriminate].
  destruct (Store.key_exists match_id (code_str code) d) eqn:K.
  - rewrite sqlite_insert_known by exact K. intros H.
    injection H as <- <- _. exists p, md. repeat split.
  - destruct (SQLite.null_column (Ensemble.Expected_Home_Goals p)
                (Ensemble.Expected_Away_Goals p) (Ensemble.P_HomeWin p)
                (Ensemble.P_Draw p) (Ensemble.P_AwayWin p)) eqn:V.
    + assert (V' : ~ Ensemble.no_nan p).
      { intros V'. apply null_column_none in V'. congruence. }
      rewrite sqlite_insert_nan by exact V'. intros H.
      injection H as <- <- _. exists p, md. repeat split.
      intros V''. contradiction.
    + apply null_column_none in V.
      rewrite sqlite_insert_new by assumption. intros H.
      injection H as <- <- _. exists p, md. repeat split.
      intros V'. contradiction.
Qed.

End PipelineRoundTrip.

Section PredictionValues.
Import Ensemble.
Local Open Scope R_scope.

(** For expected goals that are real and not negative the engine answers
    three real numbers. *)
Lemma probabilities_real (h a : R) :
  0 <= h -> 0 <= a ->
  probabilities h a
  = mkProbabilities
      (OutcomeEngine.p_home_win
         (OutcomeEngine.outcome_probabilities h a
            OutcomeEngine.default_max_goals))
      (OutcomeEngine.p_draw
         (OutcomeEngine.outcome_probabilities h a
            OutcomeEngine.default_max_goals))
      (OutcomeEngine.p_away_win
         (OutcomeEngine.outcome_probabilities h a
            OutcomeEngine.default_max_goals)).
Proof.
  intros Hh Ha. unfold probabilities.
  destruct (Rle_dec 0 h); [|contradiction].
  destruct (Rle_dec 0 a); [reflexivity | contradiction].
Qed.

(** Otherwise it answers nan three times. *)
Lemma probabilities_nan (home_xg away_xg : pyfloat) :
  (forall h a, home_xg = Real h -> away_xg = Real a -> ~ (0 <= h /\ 0 <= a)) ->
  probabilities home_xg away_xg = mkProbabilities Nan Nan Nan.
Proof.
  intros H. unfold probabilities.
  destruct home_xg as [h|], away_xg as [a|]; try reflexivity.
  destruct (Rle_dec 0 h) as [Hh|]; [|reflexivity].
  destruct (Rle_dec 0 a) as [Ha|]; [|reflexivity].
  destruct (H h a eq_refl eq_refl). now split.
Qed.

End PredictionValues.

(** X27: what the pipeline predicts, the statistics model reads.  After a
    [predict_scores] that answered [(True, predictions)] with no nan among
    the predicted values, for integers that fit the 64-bit columns and a
    key the SQLite store did not hold, [fetch_predictions] answers
    [(True, rows)]: the rows stored before, followed by one row with the
    ids and key of the call, the team names the provider gave for the
    match, the predicted values and both real scores at -1.  With a nan
    among the predicted values the call still answers
    [(True, predictions)], but nothing was stored. *)
Theorem X27_predicted_then_listed (api : Api.Client) (calendar : Api.Calendar)
    (fs : Ensemble.Artifacts) (ml_models : Ensemble.Registry)
    (home_id away_id match_id : Z) (code : list Z)
    (d d' : Store.Database) (t t' : Ensemble.Trace)
    (p : Ensemble.Prediction) (match_data : Api.Match) :
  Pipeline.predict_scores SQLite.storage api calendar fs ml_models
    home_id away_id match_id code (d, t)
  = (Pipeline.RetTuple true (Pipeline.Predictions p), (d', t')) ->
  Api.get_match api match_id = Ok match_data ->
  Store.int64 match_id = true -> Store.int64 home_id = true ->
  Store.int64 away_id = true ->
  ~ In (match_id, Pipeline.code_str code) (StoreInvariant.keys d) ->
  (Ensemble.no_nan p ->
   Hub.fetch_predictions SQLite.storage d'
   = (Hub.Success
        (Store.predictions d
           ++ [Store.mkRow (Store.predictions_seq d + 1) match_id
                 (Pipeline.code_str code) home_id
                 (Api.shortName (Api.homeTeam match_data))
                 (Ensemble.Expected_Home_Goals p) away_id
                 (Api.shortName (Api.awayTeam match_data))
                 (Ensemble.Expected_Away_Goals p)
                 (Ensemble.P_HomeWin p) (Ensemble.P_Draw p)
                 (Ensemble.P_AwayWin p) (-1) (-1)]),
      d'))
  /\ (~ Ensemble.no_nan p ->
      d' = d
      /\ Hub.fetch_predictions SQLite.storage d'
         = (Hub.Success (Store.predictions d), d')).
Proof.
  intros H G _ _ _ N. apply boundary_true in H.
  apply predict_scores_body_sqlite_ok in H.
  destruct H as (p' & md & E & G' & A & B). injection E as <-.
  rewrite G in G'. injection G' as <-.
  apply key_exists_not_In in N. rewrite N in A. split.
  - intros V. rewrite (A V). reflexivity.
  - intros V. rewrite (B V). split; reflexivity.
Qed.

Lemma X27_predicted_then_listed_witness :
  exists rows d',
    Hub.fetch_predictions SQLite.storage d' = (Hub.Success rows, d')
    /\ map (fun r => (Store.match_id r, Store.model r, Store.home_name r,
                      Store.real_home_score r, Store.real_away_score r)) rows
       = [(1001, "1100", "Arsenal", -1, -1)].
Proof.
  assert (H : exists p d' t',
             Pipeline.predict_scores SQLite.storage Examples.api_busy_team
               Examples.calendar Examples.two_models Examples.registry
               57 61 1001 [1; 1; 0; 0] (Examples.fresh_db, [])
             = (Pipeline.RetTuple true (Pipeline.Predictions p), (d', t'))
             /\ Ensemble.no_nan p).
  { eexists. eexists. eexists. split.
    - eapply (@predict_scores_success Store.Database SQLite.storage
                Examples.api_busy_team Examples.calendar Examples.two_models
                Examples.registry 57 61 1001 [1; 1; 0; 0]
                Examples.fresh_db Examples.fresh_db Examples.fresh_db _ []).
      + reflexivity.
      + cbn [Store.get_elo SQLite.storage]. rewrite sqlite_get_elo_eq.
        reflexivity.
      + cbn [Store.get_elo SQLite.storage]. rewrite sqlite_get_elo_eq.
        reflexivity.
      + reflexivity.
      + reflexivity.
      + vm_compute. reflexivity.
      + vm_compute. reflexivity.
      + unfold Ensemble.make_prediction, bind.
        rewrite (@run_prediction_selected Examples.two_models
                   Examples.home_answer Examples.away_answer
                   Examples.registry [1; 1; 0; 0] _
                   (map (fun x => (x / 2)%R)) [] eq_refl eq_refl).
        * cbn [fst snd Ensemble.selected Examples.registry combine filter
                 map Ensemble.truthy Z.eqb negb Examples.home_answer
                 Examples.away_answer Ensemble.key String.eqb Ascii.eqb
                 Bool.eqb Ensemble.mean_item].
          rewrite probabilities_real
            by (unfold Np.mean, Np.sumR; cbn [fold_right List.length INR];
                lra).
          reflexivity.
        * repeat constructor.
      + cbn [Store.insert_prediction SQLite.storage
               Ensemble.Expected_Home_Goals Ensemble.Expected_Away_Goals
               Ensemble.P_HomeWin Ensemble.P_Draw Ensemble.P_AwayWin
               Ensemble.p_home_win Ensemble.p_draw Ensemble.p_away_win].
        apply sqlite_insert_new; [repeat split | reflexivity].
    - repeat split. }
  destruct H as (p & d' & t' & H & V).
  destruct (@X27_predicted_then_listed Examples.api_busy_team
              Examples.calendar Examples.two_models Examples.registry
              57 61 1001 [1; 1; 0; 0] Examples.fresh_db d' [] t' p
              Examples.won_at_home H eq_refl eq_refl eq_refl eq_refl)
    as (A & _); [intros [] |].
  eexists. exists d'. split; [exact (A V) | reflexivity].
Defined.

Section EmptySelection.
Import Ensemble.



End EmptySelection.



(** ** Team statistics *)

(** X28: the window [fetch_team_statistics] asks the provider for starts on
    the 1st of August of the running season: on or before today and less
    than a year back.  When the provider answers, the call hands back the
    team data and one line per match, in the provider's order; a match
    without a full-time score is listed as "None : None". *)
Theorem X28_team_statistics_season_window (TeamData : Type)
    (get_team : Z -> result TeamData)
    (get_matches : Z -> Season.Date -> Season.Date -> Z
                   -> result (list Api.Match))
    (today : Season.Date) (team : Z) :
  1 <= Season.month today <= 12 -> 1 <= Season.day today ->
  let start := Season.start_date today in
  Season.month start = 8 /\ Season.day start = 1
  /\ Season.before_or_on start today
  /\ Season.strictly_before today
       (Season.mkDate (Season.year start + 1) 8 1)
  /\ (forall team_data matches,
        get_team team = Ok team_data ->
        get_matches team start today 50 = Ok matches ->
        Season.fetch_team_statistics get_team get_matches today team
        = Hub.Success (team_data, map Season.result_line matches))
  /\ (forall m,
        Api.fullTime_home m = None -> Api.fullTime_away m = None ->
        Season.score (Season.result_line m) = "None : None").
Proof.
  intros Hm Hd. cbv zeta. unfold Season.start_date.
  destruct (Z.geb_spec (Season.month today) 8) as [G|L];
    cbn [Season.year Season.month Season.day].
  - repeat split.
    + unfold Season.before_or_on; cbn. lia.
    + unfold Season.strictly_before; cbn. lia.
    + intros td ms Ht Hms. unfold Season.fetch_team_statistics.
      unfold Season.start_date.
      replace (Season.month today >=? 8) with true
        by (symmetry; apply Z.geb_le; lia).
      now rewrite Ht, Hms.
    + intros m H1 H2. unfold Season.result_line; cbn. now rewrite H1, H2.
  - repeat split.
    + unfold Season.before_or_on; cbn. lia.
    + unfold Season.strictly_before; cbn. lia.
    + intros td ms Ht Hms. unfold Season.fetch_team_statistics.
      unfold Season.start_date.
      replace (Season.month today >=? 8) with false
        by (symmetry; rewrite Z.geb_leb; apply Z.leb_gt; lia).
      now rewrite Ht, Hms.
    + intros m H1 H2. unfold Season.result_line; cbn. now rewrite H1, H2.
Qed.

Lemma X28_team_statistics_season_window_witness :
  Season.start_date (Season.mkDate 2025 3 10) = Season.mkDate 2024 8 1
  /\ Season.fetch_team_statistics (fun _ => Ok tt)
       (fun _ from _ _ =>
          if (Season.year from =? 2024) then Ok [Examples.to_come]
          else Raise (Exception "unexpected window"))
       (Season.mkDate 2025 3 10) 57
     = Hub.Success
         (tt, [Season.mkLine "Arsenal" "None : None" "Everton"
                 "2025-03-15T15:00:00Z"]).
Proof.
  split; [reflexivity|].
  destruct (@X28_team_statistics_season_window unit (fun _ => Ok tt)
              (fun _ from _ _ =>
                 if (Season.year from =? 2024) then Ok [Examples.to_come]
                 else Raise (Exception "unexpected window"))
              (Season.mkDate 2025 3 10) 57)
    as (_ & _ & _ & _ & F & _).
  - cbn. lia.
  - cbn. lia.
  - apply (F tt [Examples.to_come]); reflexivity.
Defined.

(** ** Match view *)

Section MatchViewFacts.
Import MatchView.

Lemma sum_from (code : list Z) (acc : Z) :
  fold_left Z.add code acc = acc + sum code.
Proof.
  unfold sum. revert acc. induction code as [|c code IH]; intros acc;
    cbn [fold_left]; [lia|].
  rewrite IH, (IH (0 + c)). lia.
Qed.

Lemma sum_cons (c : Z) (code : list Z) : sum (c :: code) = c + sum code.
Proof. unfold sum at 1. cbn [fold_left]. rewrite sum_from. lia. Qed.

Lemma sum_code_of (checked : list bool) :
  0 <= sum (code_of checked)
  /\ (sum (code_of checked) = 0 <-> Forall (fun b => b = false) checked).
Proof.
  induction checked as [|b checked (P & E)].
  - split; [cbn; lia | split; [constructor | reflexivity]].
  - change (code_of (b :: checked))
      with ((if b then 1 else 0) :: code_of checked).
    rewrite sum_cons. destruct b.
    + split; [lia|]. split; [lia|]. intros H. inversion H. discriminate.
    + split; [lia|]. split.
      * intros H. constructor; [reflexivity|]. apply E. lia.
      * intros H. inversion H; subst.
        assert (sum (code_of checked) = 0) by now apply E.
        lia.
Qed.

End MatchViewFacts.

(** X29: the match view asks for a prediction only with a selection the
    ensemble predictor accepts: one flag per checkbox, each 0 or 1, and at
    least one of them set; when no checkbox is checked it emits
    [no_model_selected] instead and the pipeline is not called. *)
Theorem X29_view_sends_nonempty_selection (checked : list bool)
    (home_id away_id match_id : Z) :
  (forall h a m code,
      MatchView.on_predict checked home_id away_id match_id
      = MatchView.predict_match h a m code ->
      (h, a, m) = (home_id, away_id, match_id)
      /\ List.length code = List.length checked
      /\ Selection.flags code
      /\ exists c, In c code /\ c <> 0)
  /\ (MatchView.on_predict checked home_id away_id match_id
      = MatchView.no_model_selected
      <-> Forall (fun b => b = false) checked).
Proof.
  unfold MatchView.on_predict. cbv zeta.
  destruct (sum_code_of checked) as (P & E).
  destruct (Z.eqb_spec (MatchView.sum (MatchView.code_of checked)) 0)
    as [Z0|NZ]; cbn [negb].
  - split; [intros h a m code H; discriminate|].
    split; [intros _; now apply E | reflexivity].
  - split.
    + intros h a m code H. injection H as <- <- <- <-.
      split; [reflexivity|]. split; [apply length_map|]. split.
      * unfold Selection.flags, MatchView.code_of. apply Forall_forall.
        intros c I. apply in_map_iff in I. destruct I as ([] & <- & _); auto.
      * destruct (Forall_Exists_dec (fun b => b = false)
                    (fun b => bool_dec b false) checked) as [F|X].
        -- apply E in F. contradiction.
        -- apply Exists_exists in X. destruct X as (b & I & Hb).
           exists 1. split; [|discriminate].
           unfold MatchView.code_of. apply in_map_iff. exists b.
           split; [now destruct b | exact I].
    + split; [discriminate|]. intros F. apply E in F. contradiction.
Qed.

Lemma X29_view_sends_nonempty_selection_witness :
  MatchView.on_predict [true; false; true; false] 57 61 1001
  = MatchView.predict_match 57 61 1001 [1; 0; 1; 0]
  /\ Selection.flags [1; 0; 1; 0]
  /\ MatchView.on_predict [false; false; false; false] 57 61 1001
     = MatchView.no_model_selected.
Proof.
  destruct (X29_view_sends_nonempty_selection [true; false; true; false]
              57 61 1001) as (A & _).
  destruct (A 57 61 1001 [1; 0; 1; 0] eq_refl) as (_ & _ & F & _).
  destruct (X29_view_sends_nonempty_selection [false; false; false; false]
              57 61 1001) as (_ & B).
  split; [reflexivity|]. split; [exact F|].
  apply B. repeat constructor.
Defined.
